(** * Airlines flight data EDA: the pipeline of [Airlines_EDA.py]

    The script loads a CSV of flight listings into a pandas table, drops the
    [index] column, maps [stops] to integers, removes duplicate rows, derives
    [price_per_hour] and [route], draws a fixed series of charts and writes
    the table back as CSV.

    The table is embedded as pandas holds it: an ordered list of named,
    typed columns and a list of row labels.  The statements of [main] run in
    a state-and-exception monad over the table variable [df], the files and
    the output of the process.  What the script delegates to its libraries
    and does not fix itself (the CSV reader, the text of a float, the CSV
    line writer, the statistics behind two charts) is a record of functions
    the development is parametric in.

    Exceptions are those of the pandas lookups, of the arithmetic on columns
    and of the chart calls.  Whether a call into matplotlib or seaborn returns
    is for the libraries to say, but for [DataFrame.hist], which is known to
    raise [ValueError] when it is given no column of numbers or a column with
    an infinite entry.  The two files are read and written without failure
    of the operating system. *)

From Stdlib Require Import ZArith String Ascii Bool.
From Stdlib Require Import Floats.SpecFloat.
From stdpp Require Import base option list gmap strings pretty.

Local Open Scope Z_scope.

(** ** Exceptions and results *)

Inductive error :=
| KeyError (labels : list string)
| TypeError
| ZeroDivisionError
| ValueError
| FileNotFoundError (path : string)
| ParserError.

Inductive result (A : Type) :=
| Ok (a : A)
| Err (e : error).
Arguments Ok {A} a.
Arguments Err {A} e.

#[global] Instance result_ret : MRet result := λ A a, Ok a.
#[global] Instance result_bind : MBind result := λ A B f r,
  match r with
  | Ok a => f a
  | Err e => Err e
  end.
#[global] Instance result_fmap : FMap result := λ A B f r,
  match r with
  | Ok a => Ok (f a)
  | Err e => Err e
  end.

(** ** Values

    [float64] is IEEE 754 binary64, through the executable specification of
    the Standard Library; [int64] values are only ever read and converted,
    so they are kept as [Z]. *)

Module F64.
Definition prec : Z := 53.
Definition emax : Z := 1024.

Definition nan : spec_float := S754_nan.
Definition zero : spec_float := S754_zero false.
Definition inf : spec_float := S754_infinity false.

Definition of_int (z : Z) : spec_float := binary_normalize prec emax z 0 false.
Definition div : spec_float → spec_float → spec_float := SFdiv prec emax.

Definition is_nan (x : spec_float) : bool :=
  match x with
  | S754_nan => true
  | _ => false
  end.

Definition is_zero (x : spec_float) : bool :=
  match x with
  | S754_zero _ => true
  | _ => false
  end.

(** Equality of two floats as the hash tables of pandas take it when they
    group values: IEEE equality (so [0.0] and [-0.0] agree), and NaN
    equal to NaN. *)
Definition same (x y : spec_float) : bool :=
  SFeqb x y || (is_nan x && is_nan y).
End F64.

(** A cell is what one reads at a row of a column. *)
Inductive cell :=
| CInt (z : Z)
| CFloat (x : spec_float)
| CStr (s : string).

(** The missing-value marker of pandas is the float NaN. *)
Definition NaN : cell := CFloat F64.nan.

Definition isna (c : cell) : bool :=
  match c with
  | CFloat x => F64.is_nan x
  | _ => false
  end.

(** A column has one dtype.  An [object] column is as the CSV reader makes
    it: each entry a [str], or NaN where the field was empty. *)
Inductive column :=
| Int64 (xs : list Z)
| Float64 (xs : list spec_float)
| Object (xs : list (option string)).

Definition obj_cell (o : option string) : cell :=
  match o with
  | Some s => CStr s
  | None => NaN
  end.

Definition cells (c : column) : list cell :=
  match c with
  | Int64 xs => CInt <$> xs
  | Float64 xs => CFloat <$> xs
  | Object xs => obj_cell <$> xs
  end.

Definition col_len (c : column) : nat := length (cells c).

(** ** The table *)

Record DataFrame := mkDataFrame {
  index : list Z;
  data : list (string * column)
}.

Definition columns (d : DataFrame) : list string := (data d).*1.
Definition len (d : DataFrame) : nat := length (index d).
Definition shape (d : DataFrame) : nat * nat := (len d, length (data d)).

(** Labels are unique and every column has one entry per row label. *)
Definition wf (d : DataFrame) : Prop :=
  NoDup (columns d) ∧ Forall (λ nc, col_len nc.2 = len d) (data d).

Fixpoint assoc {A} (k : string) (l : list (string * A)) : option A :=
  match l with
  | [] => None
  | (k', v) :: l' => if String.eqb k k' then Some v else assoc k l'
  end.

(** [d[name]] *)
Definition getitem (d : DataFrame) (name : string) : result column :=
  match assoc name (data d) with
  | Some c => Ok c
  | None => Err (KeyError [name])
  end.

(** [d[name] = c]: an existing column is replaced where it stands, a new one
    goes last. *)
Definition setitem (d : DataFrame) (name : string) (c : column) : DataFrame :=
  if bool_decide (name ∈ columns d)
  then mkDataFrame (index d)
         ((λ nc : string * column, if String.eqb nc.1 name then (nc.1, c) else nc) <$> data d)
  else mkDataFrame (index d) (data d ++ [(name, c)]).

(** [d[[names]]] *)
Definition getitems (d : DataFrame) (names : list string) : result DataFrame :=
  match filter (λ n, n ∉ columns d) names with
  | [] => Ok (mkDataFrame (index d)
                (omap (λ n, (λ c, (n, c)) <$> assoc n (data d)) names))
  | missing => Err (KeyError missing)
  end.

(** [d.drop(columns=labels)], with pandas' default [errors='raise']; with
    [errors='ignore'] absent labels are skipped. *)
Definition drop (labels : list string) (ignore : bool) (d : DataFrame)
  : result DataFrame :=
  let kept := mkDataFrame (index d) (filter (λ nc, nc.1 ∉ labels) (data d)) in
  match filter (λ n, n ∉ columns d) labels with
  | [] => Ok kept
  | missing => if ignore then Ok kept else Err (KeyError missing)
  end.

(** ** Series operations *)

(** [s.map(d)] for a dict [d] with [str] keys and [int] values: pandas looks
    every entry up and takes the values at the positions found.  With a hit
    everywhere the result stays [int64]; one miss promotes it to [float64],
    NaN at the misses. *)
Definition dict_get (d : list (string * Z)) (c : cell) : option Z :=
  match c with
  | CStr s => assoc s d
  | _ => None
  end.

Fixpoint all_some {A} (l : list (option A)) : option (list A) :=
  match l with
  | [] => Some []
  | Some a :: l' => cons a <$> all_some l'
  | None :: _ => None
  end.

Definition promote (h : option Z) : spec_float :=
  match h with
  | Some z => F64.of_int z
  | None => F64.nan
  end.

Definition map_dict (d : list (string * Z)) (c : column) : column :=
  let hits := dict_get d <$> cells c in
  match all_some hits with
  | Some zs => Int64 zs
  | None => Float64 (promote <$> hits)
  end.

(** The numbers of a numeric column as [float64]. *)
Definition floats (c : column) : option (list spec_float) :=
  match c with
  | Int64 xs => Some (F64.of_int <$> xs)
  | Float64 xs => Some xs
  | Object _ => None
  end.

(** Python's operator on a pair of entries, guarded as pandas does when it
    retries: applied where both entries are present, NaN elsewhere. *)
Definition masked (f : cell → cell → result (option string)) (xy : cell * cell)
  : result (option string) :=
  if isna xy.1 || isna xy.2 then Ok None else f xy.1 xy.2.

Fixpoint traverse {A B} (f : A → result B) (l : list A) : result (list B) :=
  match l with
  | [] => Ok []
  | a :: l' => b ← f a; bs ← traverse f l'; Ok (b :: bs)
  end.

(** An operator between two columns of which one is [object].  numpy applies
    Python's operator to the pairs of entries in turn and stops at the first
    exception; pandas catches a [TypeError] and retries on the pairs without
    a NaN. *)
Definition obj_binop (f : cell → cell → result (option string)) (a b : column)
  : result column :=
  let pairs := zip (cells a) (cells b) in
  match traverse (λ xy, f xy.1 xy.2) pairs with
  | Err TypeError => Object <$> traverse (masked f) pairs
  | r => Object <$> r
  end.

Definition is_zero_number (y : cell) : bool :=
  match y with
  | CInt z => z =? 0
  | CFloat b => F64.is_zero b
  | CStr _ => false
  end.

(** Python's [+] and [/] on a pair of entries of which one comes from an
    [object] column: a [str] only combines with a [str], by [+]; with no
    [str] in the pair, that entry is NaN and so is the result, but for
    Python's refusal to divide by zero. *)
Definition py_add (x y : cell) : result (option string) :=
  match x, y with
  | CStr s, CStr t => Ok (Some (s +:+ t))
  | CStr _, _ | _, CStr _ => Err TypeError
  | _, _ => Ok None
  end.

Definition py_truediv (x y : cell) : result (option string) :=
  match x, y with
  | CStr _, _ | _, CStr _ => Err TypeError
  | _, _ => if is_zero_number y then Err ZeroDivisionError else Ok None
  end.

(** [a / b]: true division, in [float64] whatever the numeric dtypes.  Between
    numeric columns a zero divisor is no exception: IEEE division gives an
    infinity or NaN. *)
Definition truediv (a b : column) : result column :=
  match floats a, floats b with
  | Some xs, Some ys => Ok (Float64 (zip_with F64.div xs ys))
  | _, _ => obj_binop py_truediv a b
  end.

Definition wrap64 (z : Z) : Z := (z + 2 ^ 63) mod 2 ^ 64 - 2 ^ 63.

(** [a + b] *)
Definition add (a b : column) : result column :=
  match a, b with
  | Int64 xs, Int64 ys => Ok (Int64 (zip_with (λ x y, wrap64 (x + y)) xs ys))
  | _, _ =>
      match floats a, floats b with
      | Some xs, Some ys => Ok (Float64 (zip_with (SFadd F64.prec F64.emax) xs ys))
      | _, _ => obj_binop py_add a b
      end
  end.

(** [a + s] for a [str] scalar [s]: numpy has no such operation on a numeric
    array. *)
Definition add_str (a : column) (s : string) : result column :=
  match a with
  | Object xs => Ok (Object ((λ o : option string, (λ x, x +:+ s) <$> o) <$> xs))
  | _ => Err TypeError
  end.

(** ** Rows and duplicates *)

Definition cell_eqb (a b : cell) : bool :=
  match a, b with
  | CInt x, CInt y => x =? y
  | CFloat x, CFloat y => F64.same x y
  | CStr s, CStr t => String.eqb s t
  | _, _ => false
  end.

Fixpoint row_eqb (r1 r2 : list cell) : bool :=
  match r1, r2 with
  | [], [] => true
  | a :: r1', b :: r2' => cell_eqb a b && row_eqb r1' r2'
  | _, _ => false
  end.

(** The rows of [n] labels over a list of columns. *)
Fixpoint rows_of (n : nat) (cols : list (list cell)) : list (list cell) :=
  match cols with
  | [] => replicate n []
  | c :: cs => zip_with cons c (rows_of n cs)
  end.

Definition rows (d : DataFrame) : list (list cell) :=
  rows_of (len d) ((λ nc : string * column, cells nc.2) <$> data d).

(** [duplicated(keep='first')]: a row is marked when an earlier row equals
    it in every column. *)
Fixpoint duplicated_from (seen rs : list (list cell)) : list bool :=
  match rs with
  | [] => []
  | r :: rs' => existsb (row_eqb r) seen :: duplicated_from (seen ++ [r]) rs'
  end.

Definition duplicated (d : DataFrame) : list bool := duplicated_from [] (rows d).

(** Selection by a boolean mask, [xs[mask]]. *)
Fixpoint select {A} (mask : list bool) (xs : list A) : list A :=
  match mask, xs with
  | b :: m, x :: xs' => if b then x :: select m xs' else select m xs'
  | _, _ => []
  end.

Definition col_select (mask : list bool) (c : column) : column :=
  match c with
  | Int64 xs => Int64 (select mask xs)
  | Float64 xs => Float64 (select mask xs)
  | Object xs => Object (select mask xs)
  end.

Definition loc_mask (d : DataFrame) (mask : list bool) : DataFrame :=
  mkDataFrame (select mask (index d))
    ((λ nc : string * column, (nc.1, col_select mask nc.2)) <$> data d).

(** [d.empty]: no rows, or no columns. *)
Definition is_empty (d : DataFrame) : bool :=
  (len d =? 0)%nat || (length (data d) =? 0)%nat.

(** [d.drop_duplicates()]: an empty table comes back as it is; of any other
    the rows not marked stay, under their old labels. *)
Definition drop_duplicates (d : DataFrame) : DataFrame :=
  if is_empty d then d else loc_mask d (negb <$> duplicated d).

(** ** What [main] does to the table (lines 30 to 37, 42 and 43)

    The statements of [main] themselves, with their prints, follow below;
    [cleaning_Ok], [features_Ok] and [run_Ok] show that they compute these
    functions. *)

Definition stops_codes : list (string * Z) :=
  [("zero", 0); ("one", 1); ("two_or_more", 2)]%string.

Definition to_sep : string := " to ".

Definition clean (d : DataFrame) : result DataFrame :=
  d1 ← drop ["index"%string] false d;
  stops ← getitem d1 "stops";
  let d2 := setitem d1 "stops" (map_dict stops_codes stops) in
  Ok (drop_duplicates d2).

Definition derive (d : DataFrame) : result DataFrame :=
  price ← getitem d "price";
  duration ← getitem d "duration";
  pph ← truediv price duration;
  let d1 := setitem d "price_per_hour" pph in
  src ← getitem d1 "source_city";
  left ← add_str src to_sep;
  dst ← getitem d1 "destination_city";
  route ← add left dst;
  Ok (setitem d1 "route" route).

Definition pipeline (d : DataFrame) : result DataFrame :=
  d1 ← clean d; derive d1.

(** ** The process: table variable, files, output *)

Inductive plot :=
| Histograms (d : DataFrame) (bins : nat)
| CountPlot (y : column) (order : list cell)
| Heatmap (m : list (list spec_float))
| BoxPlot (d : DataFrame) (x y : string)
| Box (x : column)
| BoxPlotGrid (panels : list (string * column)).

Inductive figure := Figure (title : string) (content : plot).

Inductive event :=
| Stdout (line : string)
| Show (fig : figure).

Record state := mkState {
  df : DataFrame;
  files : gmap string string;
  out : list event
}.

Definition M (A : Type) : Type := state → result A * state.

#[global] Instance M_ret : MRet M := λ A a s, (Ok a, s).
#[global] Instance M_bind : MBind M := λ A B f m s,
  match m s with
  | (Ok a, s') => f a s'
  | (Err e, s') => (Err e, s')
  end.

Definition lift {A} (r : result A) : M A := λ s, (r, s).
Definition get_df : M DataFrame := λ s, (Ok (df s), s).
Definition set_df (d : DataFrame) : M unit :=
  λ s, (Ok (), mkState d (files s) (out s)).
Definition emit (e : event) : M unit :=
  λ s, (Ok (), mkState (df s) (files s) (out s ++ [e])).
Definition print (line : string) : M unit := emit (Stdout line).
Definition show (fig : figure) : M unit := emit (Show fig).

(** [df.method(..., inplace=True)] *)
Definition inplace (f : DataFrame → result DataFrame) : M unit :=
  d ← get_df; d' ← lift (f d); set_df d'.

Fixpoint for_each {A} (l : list A) (body : A → M unit) : M unit :=
  match l with
  | [] => mret ()
  | a :: l' => body a;; for_each l' body
  end.

Fixpoint collect {A B} (l : list A) (body : A → M B) : M (list B) :=
  match l with
  | [] => mret []
  | a :: l' => b ← body a; bs ← collect l' body; mret (b :: bs)
  end.

(** What the libraries decide: the table read from a text, the texts
    written, the order of the categories, the correlations, which
    [DataFrame.corr] refuses with an exception when a column cannot be taken
    as numbers, and whether a call that draws returns or raises. *)
Record library := {
  parse_csv : string → result DataFrame;
  float_repr : spec_float → string;
  csv_row : list string → string;
  str_list : list string → string;
  value_counts_index : column → list cell;
  corr : DataFrame → result (list (list spec_float));
  draw : plot → result unit
}.

(** What [DataFrame.hist] does before it draws.  It keeps the columns of a
    number dtype and raises [ValueError] when none is left; each panel is the
    histogram of the entries that are not missing, and the range of a
    histogram has to be finite, so one infinite entry raises [ValueError]
    too. *)
Definition number_dtype (c : column) : bool :=
  match c with
  | Int64 _ | Float64 _ => true
  | Object _ => false
  end.

Definition select_numbers (d : DataFrame) : DataFrame :=
  mkDataFrame (index d) (filter (λ nc, number_dtype nc.2 = true) (data d)).

Definition is_infinite (x : cell) : bool :=
  match x with
  | CFloat (S754_infinity _) => true
  | _ => false
  end.

Definition hist_rejects (d : DataFrame) : bool :=
  let panels := data (select_numbers d) in
  bool_decide (panels = []) ||
  existsb (λ nc : string * column, existsb is_infinite (cells nc.2)) panels.

Definition input_path : string := "airlines_flights_data.csv".
Definition output_path : string := "cleaned_airlines_data.csv".

Definition numeric_cols : list string :=
  ["duration"; "days_left"; "price"; "price_per_hour"]%string.

Definition categorical_cols : list string :=
  ["airline"; "source_city"; "destination_city";
   "departure_time"; "arrival_time"; "class"]%string.

Definition newline : string := String "010"%char EmptyString.
Definition rule : string := string_of_list_ascii (replicate 50 "="%char).

Definition str_shape (sh : nat * nat) : string :=
  "(" +:+ pretty sh.1 +:+ ", " +:+ pretty sh.2 +:+ ")".

Fixpoint join (l : list string) : string :=
  match l with
  | [] => EmptyString
  | s :: l' => s +:+ join l'
  end.

Section Main.
Variable L : library.

(** [pd.read_csv(path)] *)
Definition read_csv (path : string) : M DataFrame := λ s,
  match files s !! path with
  | Some text => (parse_csv L text, s)
  | None => (Err (FileNotFoundError path), s)
  end.

(** The text of one entry in the CSV; NaN is written as the empty field. *)
Definition cell_text (c : cell) : string :=
  match c with
  | CInt z => pretty z
  | CFloat x => if F64.is_nan x then EmptyString else float_repr L x
  | CStr s => s
  end.

Definition fields (r : list cell) : list string := cell_text <$> r.

(** The lines [to_csv] writes: the header (unless [header=False]) and one
    line per row; with [index=True] each line starts with the row label,
    the header with an empty name for it. *)
Definition csv_records (d : DataFrame) (header idx : bool) : list (list string) :=
  let lead (label : string) := if idx then [label] else [] in
  (if header then [lead EmptyString ++ columns d] else []) ++
  zip_with (λ i r, lead (pretty i) ++ fields r) (index d) (rows d).

Definition csv_text (d : DataFrame) (header idx : bool) : string :=
  join (csv_row L <$> csv_records d header idx).

(** [d.to_csv(path, index=idx)]; [header] is left at its default [True]. *)
Definition to_csv (d : DataFrame) (path : string) (idx : bool) : M unit := λ s,
  (Ok (), mkState (df s) (<[path := csv_text d true idx]> (files s)) (out s)).

(** [d.hist(bins=bins)] *)
Definition hist (d : DataFrame) (bins : nat) : result unit :=
  if hist_rejects d then Err ValueError
  else draw L (Histograms (select_numbers d) bins).

(** Lines 50 to 108: the charts.  A chart is on show once [plt.show()] is
    reached; the call that draws it comes before and may raise. *)
Definition visualize : M unit :=
  print (newline +:+ "Generating numerical features histograms...");;
  d ← get_df;
  sub ← lift (getitems d numeric_cols);
  lift (hist sub 30);;
  show (Figure "Histograms of Numeric Features" (Histograms (select_numbers sub) 30));;
  print "Generating categorical features distribution plots...";;
  for_each categorical_cols (λ col,
    d ← get_df;
    y ← lift (getitem d col);
    lift (draw L (CountPlot y (value_counts_index L y)));;
    show (Figure ("Distribution of " +:+ col)
            (CountPlot y (value_counts_index L y))));;
  print "Generating correlation matrix...";;
  d ← get_df;
  sub ← lift (getitems d numeric_cols);
  m ← lift (corr L sub);
  lift (draw L (Heatmap m));;
  show (Figure "Correlation Matrix" (Heatmap m));;
  print "Generating price analysis boxplots...";;
  d ← get_df;
  lift (draw L (BoxPlot d "airline" "price"));;
  show (Figure "Flight Price by Airline" (BoxPlot d "airline" "price"));;
  d ← get_df;
  lift (draw L (BoxPlot d "class" "price"));;
  show (Figure "Flight Price by Class" (BoxPlot d "class" "price"));;
  print "Generating outlier detection plots...";;
  panels ← collect numeric_cols (λ col,
    d ← get_df;
    x ← lift (getitem d col);
    lift (draw L (Box x));;
    mret ("Boxplot of " +:+ col, x));
  show (Figure EmptyString (BoxPlotGrid panels)).

(** Lines 110 to 113: the writer. *)
Definition save : M unit :=
  print "Saving cleaned dataset...";;
  d ← get_df;
  to_csv d output_path false;;
  print "Cleaned dataset saved as 'cleaned_airlines_data.csv'".

(** Lines 20 to 26. *)
Definition load : M unit :=
  print "Starting Airlines Flight Data EDA...";;
  print rule;;
  print "Loading data...";;
  d ← read_csv input_path;
  set_df d;;
  d ← get_df;
  print ("Data loaded successfully. Shape: " +:+ str_shape (shape d)).

(** Lines 29 to 38. *)
Definition cleaning : M unit :=
  print "Cleaning data...";;
  inplace (drop ["index"%string] false);;
  d ← get_df;
  stops ← lift (getitem d "stops");
  set_df (setitem d "stops" (map_dict stops_codes stops));;
  d ← get_df;
  let initial_rows := len d in
  inplace (λ d, Ok (drop_duplicates d));;
  d ← get_df;
  print ("Removed " +:+ pretty (initial_rows - len d)%nat +:+ " duplicate rows").

(** Lines 41 to 43. *)
Definition features : M unit :=
  print "Creating new features...";;
  d ← get_df;
  price ← lift (getitem d "price");
  duration ← lift (getitem d "duration");
  pph ← lift (truediv price duration);
  set_df (setitem d "price_per_hour" pph);;
  d ← get_df;
  src ← lift (getitem d "source_city");
  left ← lift (add_str src to_sep);
  dst ← lift (getitem d "destination_city");
  route ← lift (add left dst);
  set_df (setitem d "route" route).

(** Lines 46 to 48. *)
Definition info : M unit :=
  print (newline +:+ "Dataset Info:");;
  d ← get_df;
  print ("Final shape: " +:+ str_shape (shape d));;
  print ("Columns: " +:+ str_list L (columns d)).

(** Lines 115 to 118. *)
Definition closing : M unit :=
  print (newline +:+ rule);;
  print "EDA completed successfully!";;
  d ← get_df;
  print ("Final dataset shape: " +:+ str_shape (shape d));;
  print "All visualizations have been generated.".

Definition main : M unit :=
  load;; cleaning;; features;; info;; visualize;; save;; closing.

(** One run of the script as a process over the files [fs]. *)
Definition run (fs : gmap string string) : result unit * state :=
  main (mkState (mkDataFrame [] []) fs []).
End Main.

(** * The vocabulary of the statements *)

(** ** Tables

    The reader of pandas hands over well-formed tables. *)
Definition reads_tables (L : library) : Prop :=
  ∀ text d, parse_csv L text = Ok d → wf d.

#[global] Instance wf_dec d : Decision (wf d).
Proof. unfold wf. apply _. Defined.

#[global] Instance spec_float_eq_dec : EqDecision spec_float.
Proof.
  intros x y. unfold Decision.
  decide equality; solve [apply Z.eq_dec | apply Pos.eq_dec | apply Bool.bool_dec].
Defined.

#[global] Instance cell_eq_dec : EqDecision cell.
Proof.
  intros a b. unfold Decision.
  destruct a as [x|x|s], b as [y|y|t]; try (right; discriminate).
  - destruct (decide (x = y)) as [->|Hn]; [by left | right; congruence].
  - destruct (decide (x = y)) as [->|Hn]; [by left | right; congruence].
  - destruct (decide (s = t)) as [->|Hn]; [by left | right; congruence].
Defined.

(** The table once [index] is dropped. *)
Definition dropped (d : DataFrame) : DataFrame :=
  mkDataFrame (index d) (filter (λ nc, nc.1 ∉ ["index"%string]) (data d)).

(** ** Equality of rows

    Two floats group together exactly when they agree once the sign of zero
    is forgotten; [same_key] below shows it.  So two rows are equal when
    their keys are. *)

Definition float_key (x : spec_float) : spec_float :=
  match x with
  | S754_zero _ => S754_zero false
  | _ => x
  end.

Definition cell_key (c : cell) : cell :=
  match c with
  | CFloat x => CFloat (float_key x)
  | _ => c
  end.

(** No row equals an earlier one. *)
Definition dupfree (rs : list (list cell)) : Prop :=
  ∀ i j r1 r2, (i < j)%nat → rs !! i = Some r1 → rs !! j = Some r2 →
    row_eqb r1 r2 = false.

(** ** The entries of the mapped and the derived columns *)

(** The entry [y] that the mapping leaves for an entry [x] of the loaded
    column: the code of the category, as an [int64] or as the same number in
    [float64], and NaN for anything that is not one of the three
    categories. *)
Definition stop_code (x y : cell) : Prop :=
  (x = CStr "zero" ∧ (y = CInt 0 ∨ y = CFloat (F64.of_int 0))) ∨
  (x = CStr "one" ∧ (y = CInt 1 ∨ y = CFloat (F64.of_int 1))) ∨
  (x = CStr "two_or_more" ∧ (y = CInt 2 ∨ y = CFloat (F64.of_int 2))) ∨
  ((x ∉ [CStr "zero"; CStr "one"; CStr "two_or_more"]) ∧ y = NaN).

Definition stops_values : list cell :=
  [CInt 0; CInt 1; CInt 2;
   CFloat (F64.of_int 0); CFloat (F64.of_int 1); CFloat (F64.of_int 2); NaN].

Definition encodes (y : cell) (h : option Z) : Prop :=
  match h with
  | Some z => y = CInt z ∨ y = CFloat (F64.of_int z)
  | None => y = NaN
  end.

(** The entry of [route] beside the entries [x] and [y] of the two city
    columns. *)
Definition route_of (x y : cell) : cell :=
  match x, y with
  | CStr s, CStr t => CStr (s +:+ " to " +:+ t)
  | _, _ => NaN
  end.

(** The number in a numeric entry, as [float64]. *)
Definition to_float (c : cell) : option spec_float :=
  match c with
  | CInt z => Some (F64.of_int z)
  | CFloat x => Some x
  | CStr _ => None
  end.

(** The entry of [price_per_hour] beside the entries [x] of [price] and [y]
    of [duration]. *)
Definition cell_div (x y : cell) : cell :=
  match to_float x, to_float y with
  | Some a, Some b => CFloat (F64.div a b)
  | _, _ => NaN
  end.

(** IEEE division by a zero: an infinity, and NaN for [0/0] and [NaN/0]. *)
Definition div_zero (a : spec_float) (s : bool) : spec_float :=
  match a with
  | S754_nan | S754_zero _ => S754_nan
  | S754_infinity sa | S754_finite sa _ _ => S754_infinity (xorb sa s)
  end.

(** The policy the design asks for: wherever [duration] is zero,
    [price_per_hour] is the missing-value marker. *)
Definition missing_at_zero_duration (d : DataFrame) : Prop :=
  ∀ out t q i y z,
    pipeline d = Ok out →
    getitem out "duration" = Ok t → getitem out "price_per_hour" = Ok q →
    cells t !! i = Some y → cells q !! i = Some z →
    (∃ s, to_float y = Some (S754_zero s)) → isna z = true.

(** ** Frames of the statements of [main] *)

(** A computation that leaves the table and the files as they are, whether
    it returns or raises. *)
Definition keeps_table {A} (m : M A) : Prop :=
  ∀ s, df (m s).2 = df s ∧ files (m s).2 = files s.

(** The files after an optional write of the output file. *)
Definition written (w : option string) (fs : gmap string string) : gmap string string :=
  match w with
  | Some text => <[output_path := text]> fs
  | None => fs
  end.

(** Two states a computation cannot tell apart if all it reads of the files
    is the input file. *)
Definition agree (s1 s2 : state) : Prop :=
  df s1 = df s2 ∧ out s1 = out s2 ∧ files s1 !! input_path = files s2 !! input_path.

(** A computation that reads no file but the input file and writes none but
    the output file. *)
Definition file_local {A} (m : M A) : Prop :=
  ∀ s1 s2, agree s1 s2 →
    (m s1).1 = (m s2).1 ∧ df (m s1).2 = df (m s2).2 ∧ out (m s1).2 = out (m s2).2 ∧
    ∃ w, files (m s1).2 = written w (files s1) ∧ files (m s2).2 = written w (files s2).

(** The field the CSV has for an entry of the table: the digits of an
    integer, the text of a float, the characters of a string, and nothing
    for a missing value. *)
Inductive field_of (L : library) : cell → string → Prop :=
| field_int z : field_of L (CInt z) (pretty z)
| field_missing x : F64.is_nan x = true → field_of L (CFloat x) EmptyString
| field_float x : F64.is_nan x = false → field_of L (CFloat x) (float_repr L x)
| field_str s : field_of L (CStr s) s.

(** ** A table to run the script on

    Three listings of which the second repeats the first; both have two or
    more stops and a duration of zero. *)

Definition listings : DataFrame := mkDataFrame [0; 1; 2] [
  ("index", Int64 [0; 1; 2]);
  ("airline", Object [Some "SpiceJet"; Some "SpiceJet"; Some "Vistara"]);
  ("flight", Object [Some "SG-8709"; Some "SG-8709"; Some "UK-995"]);
  ("source_city", Object [Some "Delhi"; Some "Delhi"; Some "Delhi"]);
  ("departure_time", Object [Some "Evening"; Some "Evening"; Some "Morning"]);
  ("stops", Object [Some "two_or_more"; Some "two_or_more"; Some "zero"]);
  ("arrival_time", Object [Some "Night"; Some "Night"; Some "Afternoon"]);
  ("destination_city", Object [Some "Mumbai"; Some "Mumbai"; Some "Mumbai"]);
  ("class", Object [Some "Economy"; Some "Economy"; Some "Economy"]);
  ("duration", Float64 [F64.zero; F64.zero; F64.of_int 2]);
  ("days_left", Int64 [1; 1; 1]);
  ("price", Int64 [5953; 5953; 5955])]%string.

(** What the script makes of [listings]. *)
Definition listings_cleaned : DataFrame := mkDataFrame [0; 2] [
  ("airline", Object [Some "SpiceJet"; Some "Vistara"]);
  ("flight", Object [Some "SG-8709"; Some "UK-995"]);
  ("source_city", Object [Some "Delhi"; Some "Delhi"]);
  ("departure_time", Object [Some "Evening"; Some "Morning"]);
  ("stops", Int64 [2; 0]);
  ("arrival_time", Object [Some "Night"; Some "Afternoon"]);
  ("destination_city", Object [Some "Mumbai"; Some "Mumbai"]);
  ("class", Object [Some "Economy"; Some "Economy"]);
  ("duration", Float64 [F64.zero; F64.of_int 2]);
  ("days_left", Int64 [1; 1]);
  ("price", Int64 [5953; 5955])]%string.

Definition listings_final : DataFrame :=
  mkDataFrame [0; 2]
    (data listings_cleaned ++ [
       ("price_per_hour"%string,
         Float64 [F64.inf; F64.div (F64.of_int 5955) (F64.of_int 2)]);
       ("route"%string,
         Object [Some "Delhi to Mumbai"%string; Some "Delhi to Mumbai"%string])]).

(** Four flights, of which the second repeats the first; no duration is
    zero, so every price per hour is finite. *)
Definition flights : DataFrame := mkDataFrame [0; 1; 2; 3] [
  ("index", Int64 [0; 1; 2; 3]);
  ("airline", Object [Some "SpiceJet"; Some "SpiceJet"; Some "Vistara"; Some "Indigo"]);
  ("flight", Object [Some "SG-8709"; Some "SG-8709"; Some "UK-995"; Some "6E-204"]);
  ("source_city", Object [Some "Delhi"; Some "Delhi"; Some "Delhi"; Some "Mumbai"]);
  ("departure_time", Object [Some "Evening"; Some "Evening"; Some "Morning"; Some "Night"]);
  ("stops", Object [Some "zero"; Some "zero"; Some "one"; Some "two_or_more"]);
  ("arrival_time", Object [Some "Night"; Some "Night"; Some "Afternoon"; Some "Morning"]);
  ("destination_city", Object [Some "Mumbai"; Some "Mumbai"; Some "Mumbai"; Some "Delhi"]);
  ("class", Object [Some "Economy"; Some "Economy"; Some "Business"; Some "Economy"]);
  ("duration", Float64 [F64.of_int 2; F64.of_int 2; F64.of_int 4; F64.of_int 8]);
  ("days_left", Int64 [1; 1; 3; 7]);
  ("price", Int64 [5953; 5953; 25612; 4500])]%string.

(** A stand-in for the libraries, enough to run [main]: a reader that knows
    three files, a line writer that quotes nothing, floats written by their
    decimal expansion, correlations that are refused when a column holds
    text, and drawing calls that return.  No theorem depends on it; it
    serves to run the script on [listings] and [flights]. *)

Module Fixture.
Fixpoint sep_by (sep : string) (l : list string) : string :=
  match l with
  | [] => EmptyString
  | [s] => s
  | s :: l' => s +:+ sep +:+ sep_by sep l'
  end.

Definition lines (l : list string) : string := join ((λ s, s +:+ newline) <$> l).

Definition listings_csv : string := lines [
  "index,airline,flight,source_city,departure_time,stops,arrival_time,destination_city,class,duration,days_left,price";
  "0,SpiceJet,SG-8709,Delhi,Evening,two_or_more,Night,Mumbai,Economy,0.0,1,5953";
  "1,SpiceJet,SG-8709,Delhi,Evening,two_or_more,Night,Mumbai,Economy,0.0,1,5953";
  "2,Vistara,UK-995,Delhi,Morning,zero,Afternoon,Mumbai,Economy,2.0,1,5955"].

(** The same listings saved without the [index] column. *)
Definition bare_csv : string := lines [
  "airline,flight,source_city,departure_time,stops,arrival_time,destination_city,class,duration,days_left,price";
  "SpiceJet,SG-8709,Delhi,Evening,two_or_more,Night,Mumbai,Economy,0.0,1,5953";
  "SpiceJet,SG-8709,Delhi,Evening,two_or_more,Night,Mumbai,Economy,0.0,1,5953";
  "Vistara,UK-995,Delhi,Morning,zero,Afternoon,Mumbai,Economy,2.0,1,5955"].

Definition flights_csv : string := lines [
  "index,airline,flight,source_city,departure_time,stops,arrival_time,destination_city,class,duration,days_left,price";
  "0,SpiceJet,SG-8709,Delhi,Evening,zero,Night,Mumbai,Economy,2.0,1,5953";
  "1,SpiceJet,SG-8709,Delhi,Evening,zero,Night,Mumbai,Economy,2.0,1,5953";
  "2,Vistara,UK-995,Delhi,Morning,one,Afternoon,Mumbai,Business,4.0,3,25612";
  "3,Indigo,6E-204,Mumbai,Night,two_or_more,Morning,Delhi,Economy,8.0,7,4500"].

Definition reader (text : string) : result DataFrame :=
  if String.eqb text listings_csv then Ok listings
  else if String.eqb text bare_csv then Ok (dropped listings)
  else if String.eqb text flights_csv then Ok flights
  else Err ParserError.

Definition is_text (x : cell) : bool :=
  match x with
  | CStr _ => true
  | _ => false
  end.

Definition correlations (d : DataFrame) : result (list (list spec_float)) :=
  if existsb (λ nc : string * column, existsb is_text (cells nc.2)) (data d)
  then Err ValueError else Ok [].

Fixpoint strip_zeros (s : string) : string :=
  match s with
  | EmptyString => EmptyString
  | String a s' =>
      match strip_zeros s' with
      | EmptyString => if Ascii.eqb a "0" then EmptyString else String a EmptyString
      | t => String a t
      end
  end.

(** The decimal expansion of [m * 2 ^ e], which is finite. *)
Definition decimal (m e : Z) : string :=
  if 0 <=? e then pretty (m * 2 ^ e) +:+ ".0"
  else
    let k := - e in
    let frac := (m mod 2 ^ k) * 5 ^ k in
    let digits :=
      match pretty (10 ^ k + frac) with
      | String _ ds => strip_zeros ds
      | EmptyString => EmptyString
      end in
    pretty (m / 2 ^ k) +:+ "." +:+
    match digits with EmptyString => "0" | _ => digits end.

Definition float_text (x : spec_float) : string :=
  match x with
  | S754_zero s => if s then "-0.0" else "0.0"
  | S754_infinity s => if s then "-inf" else "inf"
  | S754_nan => "nan"
  | S754_finite s m e => (if s then "-" else EmptyString) +:+ decimal (Zpos m) e
  end.

Definition lib : library := {|
  parse_csv := reader;
  float_repr := float_text;
  csv_row := λ fs, sep_by "," fs +:+ newline;
  str_list := λ l, "[" +:+ sep_by ", " l +:+ "]";
  value_counts_index := λ c, remove_dups (filter (λ x, isna x = false) (cells c));
  corr := correlations;
  draw := λ _, Ok ()
|}.

Definition disk : gmap string string := {[ input_path := listings_csv ]}.
Definition bare_disk : gmap string string := {[ input_path := bare_csv ]}.
Definition flights_disk : gmap string string := {[ input_path := flights_csv ]}.
End Fixture.

(** ** More of the vocabulary: files, counts, categories *)

(** A computation that writes no file, whether it returns or raises. *)
Definition keeps_files {A} (m : M A) : Prop := ∀ s, files (m s).2 = files s.

(** The columns that only the charts look up. *)
Definition chart_cols : list string :=
  ["days_left"; "airline"; "departure_time"; "arrival_time"; "class"]%string.

(** Every call that draws a chart of the table [d] returns: the histograms
    and the correlations of the four numeric columns and their heatmap, the
    count plot of each categorical column, the two boxplots of the price and
    the boxplot of each numeric column. *)
Definition charts_return (L : library) (d : DataFrame) : Prop :=
  (∀ sub, getitems d numeric_cols = Ok sub →
     hist L sub 30 = Ok () ∧
     ∃ m, corr L sub = Ok m ∧ draw L (Heatmap m) = Ok ()) ∧
  (∀ col y, col ∈ categorical_cols → getitem d col = Ok y →
     draw L (CountPlot y (value_counts_index L y)) = Ok ()) ∧
  draw L (BoxPlot d "airline" "price") = Ok () ∧
  draw L (BoxPlot d "class" "price") = Ok () ∧
  (∀ col x, col ∈ numeric_cols → getitem d col = Ok x → draw L (Box x) = Ok ()).

(** The number of rows a mask marks. *)
Definition marked (m : list bool) : nat := length (filter (λ b, b = true) m).

(** An entry of the loaded [stops] column that the lookup table knows. *)
Definition is_category (x : cell) : Prop :=
  x ∈ [CStr "zero"; CStr "one"; CStr "two_or_more"].

(** ** More tables to run the script on *)

(** The libraries with a reader that hands over [d] whatever the file. *)
Definition table_lib (d : DataFrame) : library := {|
  parse_csv := λ _, Ok d;
  float_repr := float_repr Fixture.lib;
  csv_row := csv_row Fixture.lib;
  str_list := str_list Fixture.lib;
  value_counts_index := value_counts_index Fixture.lib;
  corr := corr Fixture.lib;
  draw := draw Fixture.lib
|}.

(** The final table of [d], or [d] itself when the script raises. *)
Definition ran (d : DataFrame) : DataFrame :=
  match pipeline d with
  | Ok out' => out'
  | Err _ => d
  end.

(** The cleaned table of [d], or [d] itself when the cleaning raises. *)
Definition cleaned (d : DataFrame) : DataFrame :=
  match clean d with
  | Ok c => c
  | Err _ => d
  end.

Definition without (name : string) (d : DataFrame) : DataFrame :=
  mkDataFrame (index d) (filter (λ nc, nc.1 ≠ name) (data d)).

(** A file of the header alone, as the reader makes it. *)
Definition header_only : DataFrame :=
  mkDataFrame [] ((λ n, (n, Object [])) <$> columns listings).

(** Flights of which the days left are text. *)
Definition text_days_left : DataFrame :=
  setitem flights "days_left"
    (Object [Some "soon"; Some "soon"; Some "later"; Some "n/a"]%string).

(** A listing whose price is text. *)
Definition text_price : DataFrame := mkDataFrame [0] [
  ("price", Object [Some "n/a"]);
  ("duration", Float64 [F64.of_int 2])]%string.

(** Listings with stops that are none of the three categories. *)
Definition odd_stops : DataFrame :=
  setitem listings "stops" (Object [Some "three"; Some "three"; Some "zero"]%string).

(** * Properties *)

(** ** Labels and lookup *)

Lemma assoc_None {A} k (l : list (string * A)) : assoc k l = None ↔ k ∉ l.*1.
Proof.
  induction l as [|[k' v] l IH]; simpl.
  - split; [intros _; apply not_elem_of_nil | done].
  - rewrite not_elem_of_cons. destruct (String.eqb_spec k k') as [->|Hne].
    + split; [done | intros [? _]; done].
    + rewrite IH. tauto.
Qed.

Lemma assoc_Some_elem {A} k (l : list (string * A)) v :
  assoc k l = Some v → k ∈ l.*1.
Proof.
  intros H. destruct (decide (k ∈ l.*1)) as [|Hn]; [done|].
  apply assoc_None in Hn. congruence.
Qed.

Lemma assoc_app_r {A} k (l : list (string * A)) v :
  k ∉ l.*1 → assoc k (l ++ [(k, v)]) = Some v.
Proof.
  induction l as [|[k' w] l IH]; simpl.
  - intros _. by rewrite String.eqb_refl.
  - rewrite not_elem_of_cons. intros [Hne Hl].
    destruct (String.eqb_spec k k'); [done | auto].
Qed.

Lemma assoc_app_l {A} k (l l' : list (string * A)) :
  k ∉ l'.*1 → assoc k (l ++ l') = assoc k l.
Proof.
  intros Hk. induction l as [|[k' w] l IH]; simpl.
  - by apply assoc_None.
  - by destruct (String.eqb k k').
Qed.

Lemma assoc_replace {A} k n (c : A) (l : list (string * A)) :
  assoc k ((λ nc : string * A, if String.eqb nc.1 n then (nc.1, c) else nc) <$> l)
  = if String.eqb k n then (λ _, c) <$> assoc k l else assoc k l.
Proof.
  induction l as [|[k' w] l IH]; simpl.
  - by destruct (String.eqb k n).
  - destruct (String.eqb_spec k' n) as [->|Hk']; simpl.
    + destruct (String.eqb_spec k n) as [->|Hk]; [done | exact IH].
    + destruct (String.eqb_spec k k') as [->|Hkk].
      * by rewrite (proj2 (String.eqb_neq k' n)).
      * exact IH.
Qed.

Lemma replace_fst {A} n (c : A) (l : list (string * A)) :
  ((λ nc : string * A, if String.eqb nc.1 n then (nc.1, c) else nc) <$> l).*1 = l.*1.
Proof.
  induction l as [|[k w] l IH]; csimpl; [done|].
  rewrite IH. by destruct (String.eqb k n).
Qed.

Lemma getitem_Ok_elem d name c : getitem d name = Ok c → name ∈ columns d.
Proof.
  unfold getitem. destruct (assoc name (data d)) eqn:E; [|done].
  intros _. by eapply assoc_Some_elem.
Qed.

Lemma getitem_elem_Ok d name : name ∈ columns d → ∃ c, getitem d name = Ok c.
Proof.
  unfold getitem. intros H. destruct (assoc name (data d)) eqn:E; [eauto|].
  by apply assoc_None in E.
Qed.

Lemma getitem_setitem_eq d name c : getitem (setitem d name c) name = Ok c.
Proof.
  unfold getitem, setitem. case_bool_decide as Hin; simpl.
  - rewrite assoc_replace, String.eqb_refl.
    destruct (assoc name (data d)) eqn:E; [done|]. by apply assoc_None in E.
  - by rewrite assoc_app_r.
Qed.

Lemma getitem_setitem_ne d name name' c :
  name' ≠ name → getitem (setitem d name c) name' = getitem d name'.
Proof.
  intros Hne. unfold getitem, setitem. case_bool_decide as Hin; simpl.
  - by rewrite assoc_replace, (proj2 (String.eqb_neq name' name)).
  - rewrite assoc_app_l; [done|]. csimpl.
    rewrite not_elem_of_cons. split; [done | apply not_elem_of_nil].
Qed.

Lemma columns_setitem_old d name c :
  name ∈ columns d → columns (setitem d name c) = columns d.
Proof.
  intros Hin. unfold setitem, columns. rewrite bool_decide_eq_true_2 by done.
  simpl. apply replace_fst.
Qed.

Lemma columns_setitem_new d name c :
  name ∉ columns d → columns (setitem d name c) = columns d ++ [name].
Proof.
  intros Hin. unfold setitem, columns. rewrite bool_decide_eq_false_2 by done.
  simpl. by rewrite fmap_app.
Qed.

Lemma index_setitem d name c : index (setitem d name c) = index d.
Proof. unfold setitem. by case_bool_decide. Qed.

Lemma filter_fst {A} (labels : list string) (l : list (string * A)) :
  (filter (λ nc, nc.1 ∉ labels) l).*1 = filter (λ n, n ∉ labels) l.*1.
Proof.
  induction l as [|[k w] l IH]; [done|].
  rewrite fmap_cons, !filter_cons. csimpl.
  destruct (decide (k ∉ labels)); csimpl; by rewrite IH.
Qed.

Lemma drop_Ok labels d d' :
  drop labels false d = Ok d' →
  Forall (λ n, n ∈ columns d) labels ∧
  d' = mkDataFrame (index d) (filter (λ nc, nc.1 ∉ labels) (data d)).
Proof.
  unfold drop. destruct (filter _ labels) as [|m ms] eqn:E; [|done].
  intros [= <-]. split; [|done].
  apply Forall_forall. intros n Hn.
  destruct (decide (n ∈ columns d)) as [|Hnot]; [done|].
  assert (n ∈ filter (λ n, n ∉ columns d) labels) as Hf by (by apply list_elem_of_filter).
  rewrite E in Hf. by apply elem_of_nil in Hf.
Qed.

Lemma drop_missing label d :
  label ∉ columns d → drop [label] false d = Err (KeyError [label]).
Proof.
  intros H. unfold drop. rewrite filter_cons, filter_nil.
  by destruct (decide (label ∉ columns d)).
Qed.

Lemma drop_present label d :
  label ∈ columns d →
  drop [label] false d
  = Ok (mkDataFrame (index d) (filter (λ nc, nc.1 ∉ [label]) (data d))).
Proof.
  intros H. unfold drop. rewrite filter_cons, filter_nil.
  by destruct (decide (label ∉ columns d)).
Qed.

Lemma assoc_filter {A} k (labels : list string) (l : list (string * A)) :
  k ∉ labels → assoc k (filter (λ nc, nc.1 ∉ labels) l) = assoc k l.
Proof.
  intros Hk. induction l as [|[k' w] l IH]; [done|].
  rewrite filter_cons. simpl. destruct (decide (k' ∉ labels)) as [Hp|Hp]; simpl.
  - by rewrite IH.
  - destruct (String.eqb_spec k k') as [->|]; [done | exact IH].
Qed.

(** ** Selection by a mask *)

Lemma select_nil_r {A} (m : list bool) : select m (@nil A) = [].
Proof. by destruct m. Qed.

Lemma select_fmap {A B} (f : A → B) m (xs : list A) :
  select m (f <$> xs) = f <$> select m xs.
Proof.
  revert xs. induction m as [|b m IH]; intros [|x xs]; csimpl; try done.
  destruct b; csimpl; by rewrite IH.
Qed.

Lemma length_select_eq {A B} m (xs : list A) (ys : list B) :
  length xs = length ys → length (select m xs) = length (select m ys).
Proof.
  revert xs ys. induction m as [|b m IH]; intros [|x xs] [|y ys]; simpl; try done.
  intros [= H]. destruct b; simpl; auto.
Qed.

Lemma select_zip_with {A B C} (f : A → B → C) m xs ys :
  select m (zip_with f xs ys) = zip_with f (select m xs) (select m ys).
Proof.
  revert xs ys. induction m as [|b m IH]; intros [|x xs] [|y ys]; simpl; try done.
  - destruct b; simpl; [done|]. by destruct (select m xs).
  - destruct b; simpl; by rewrite IH.
Qed.

Lemma select_replicate {A B} m (idx : list B) n (x : A) :
  length idx = n → select m (replicate n x) = replicate (length (select m idx)) x.
Proof.
  intros <-. revert idx. induction m as [|b m IH]; intros [|i idx]; simpl; try done.
  destruct b; simpl; by rewrite IH.
Qed.

Lemma select_sublist {A} m (xs : list A) : sublist (select m xs) xs.
Proof.
  revert xs. induction m as [|b m IH]; intros xs; [apply sublist_nil_l|].
  destruct xs as [|x xs]; simpl; [constructor|].
  destruct b; [apply sublist_skip | apply sublist_cons]; apply IH.
Qed.

Lemma select_all {A} (xs : list A) m :
  length m = length xs → Forall (λ b, b = true) m → select m xs = xs.
Proof.
  revert xs. induction m as [|b m IH]; intros [|x xs]; simpl; try done.
  intros [= Hl] Hall. inversion Hall as [|?? -> Hm]; subst. by rewrite IH.
Qed.

(** ** Well-formed tables *)

Lemma cells_col_select m c : cells (col_select m c) = select m (cells c).
Proof. destruct c; simpl; by rewrite select_fmap. Qed.

Lemma wf_len d name c : wf d → getitem d name = Ok c → col_len c = len d.
Proof.
  intros [_ Hlen]. unfold getitem. destruct (assoc name (data d)) eqn:E; [|done].
  intros [= ->]. revert E. induction Hlen as [|[k w] l Hk _ IH]; simpl; [done|].
  destruct (String.eqb k name), (String.eqb name k); try done; try (by intros [= ->]); auto.
Qed.

Lemma wf_setitem d name c : wf d → col_len c = len d → wf (setitem d name c).
Proof.
  intros [Hnd Hlen] Hc. split.
  - destruct (decide (name ∈ columns d)) as [Hin|Hin].
    + by rewrite columns_setitem_old.
    + rewrite columns_setitem_new by done.
      apply NoDup_app. split; [done|]. split; [|apply NoDup_singleton].
      intros x Hx. rewrite list_elem_of_singleton. by intros ->.
  - unfold len. rewrite index_setitem. unfold setitem. case_bool_decide; simpl.
    + apply Forall_fmap. eapply Forall_impl; [exact Hlen|].
      intros [k w] Hw; simpl in *. by destruct (String.eqb k name).
    + apply Forall_app. split; [done|]. by constructor.
Qed.

Lemma wf_drop labels d d' : wf d → drop labels false d = Ok d' → wf d'.
Proof.
  intros [Hnd Hlen] (_ & ->)%drop_Ok. split.
  - unfold columns; cbn [data]. rewrite filter_fst. by apply NoDup_filter.
  - cbn [data]. apply Forall_forall. intros nc [_ Hin]%list_elem_of_filter.
    rewrite Forall_forall in Hlen. by apply Hlen.
Qed.

Lemma columns_loc_mask d m : columns (loc_mask d m) = columns d.
Proof. unfold columns, loc_mask; simpl. rewrite <- list_fmap_compose. done. Qed.

Lemma getitem_loc_mask d m name :
  getitem (loc_mask d m) name = col_select m <$> getitem d name.
Proof.
  unfold getitem, loc_mask; simpl.
  induction (data d) as [|[k w] l IH]; csimpl; [done|].
  destruct (String.eqb name k); [done | exact IH].
Qed.

Lemma wf_loc_mask d m : wf d → wf (loc_mask d m).
Proof.
  intros [Hnd Hlen]. split; [by rewrite columns_loc_mask|].
  unfold loc_mask, len; simpl. apply Forall_fmap.
  eapply Forall_impl; [exact Hlen|]. intros [k w] Hw; simpl in *.
  unfold col_len. rewrite cells_col_select. by apply length_select_eq.
Qed.

(** ** Rows *)

Lemma length_rows_of n cols :
  Forall (λ c, length c = n) cols → length (rows_of n cols) = n.
Proof.
  induction 1 as [|c cs Hc _ IH]; simpl; [apply length_replicate|].
  rewrite length_zip_with, IH, Hc. apply Nat.min_id.
Qed.

Lemma wf_cols d :
  wf d → Forall (λ c, length c = len d) ((λ nc : string * column, cells nc.2) <$> data d).
Proof. intros [_ H]. by apply Forall_fmap. Qed.

Lemma length_rows d : wf d → length (rows d) = len d.
Proof. intros H. apply length_rows_of, wf_cols, H. Qed.

Lemma rows_of_select n (idx : list Z) m cols :
  length idx = n → Forall (λ c, length c = n) cols →
  rows_of (length (select m idx)) (select m <$> cols) = select m (rows_of n cols).
Proof.
  intros Hn. induction 1 as [|c cs Hc _ IH]; csimpl.
  - symmetry. by apply select_replicate.
  - by rewrite IH, select_zip_with.
Qed.

Lemma rows_loc_mask d m : wf d → rows (loc_mask d m) = select m (rows d).
Proof.
  intros Hwf. unfold rows, loc_mask, len; simpl.
  rewrite <- (rows_of_select (len d) (index d) m) by (done || by apply wf_cols).
  f_equal. rewrite <- !list_fmap_compose. apply list_fmap_ext.
  intros _ [k w] _; simpl. apply cells_col_select.
Qed.

Lemma rows_of_snoc n cs c :
  Forall (λ c, length c = n) cs → length c = n →
  rows_of n (cs ++ [c]) = zip_with (λ r x, r ++ [x]) (rows_of n cs) c.
Proof.
  intros Hcs Hc. revert c Hc. induction Hcs as [|c' cs Hc' Hcs IH]; intros c Hc; simpl.
  - subst n. induction c as [|x c IH]; simpl; [done|]. by rewrite IH.
  - rewrite IH by done.
    assert (length (rows_of n cs) = n) as Hr by (by apply length_rows_of).
    revert Hc' Hc Hr. generalize (rows_of n cs). clear.
    intros rs. revert c' c rs.
    induction n as [|n IH]; intros [|a c'] [|x c] [|r rs]; simpl; try done.
    intros [= ?] [= ?] [= ?]. by rewrite IH.
Qed.

Lemma rows_setitem_new d name c :
  wf d → name ∉ columns d → col_len c = len d →
  rows (setitem d name c) = zip_with (λ r x, r ++ [x]) (rows d) (cells c).
Proof.
  intros Hwf Hnew Hc. unfold rows, setitem, len.
  rewrite bool_decide_eq_false_2 by done. simpl.
  rewrite fmap_app. simpl. apply rows_of_snoc; [by apply wf_cols | done].
Qed.

(** ** Equality of rows *)

Lemma finite_same_key s1 m1 e1 s2 m2 e2 :
  F64.same (S754_finite s1 m1 e1) (S754_finite s2 m2 e2) = true
  ↔ S754_finite s1 m1 e1 = S754_finite s2 m2 e2.
Proof.
  unfold F64.same, SFeqb, SFcompare. simpl. rewrite orb_false_r.
  destruct s1, s2; try (split; congruence);
    destruct (Z.compare_spec e1 e2) as [->|?|?];
    try (split; [done | intros [= ? ?]; lia]);
    rewrite Pos.compare_cont_spec; simpl;
    destruct (Pos.compare_spec m1 m2) as [->|?|?]; simpl;
    (split; [done || congruence | done || intros [= ?]; lia]).
Qed.

Lemma same_key x y : F64.same x y = true ↔ float_key x = float_key y.
Proof.
  destruct x as [s1|s1| |s1 m1 e1], y as [s2|s2| |s2 m2 e2];
    try apply finite_same_key;
    unfold F64.same, SFeqb, SFcompare; simpl;
    repeat match goal with s : bool |- _ => destruct s end;
    simpl; split; congruence.
Qed.

Lemma cell_eqb_key a b : cell_eqb a b = true ↔ cell_key a = cell_key b.
Proof.
  destruct a as [x|x|s], b as [y|y|t]; simpl; try done.
  - rewrite Z.eqb_eq. split; [by intros -> | by intros [= ->]].
  - rewrite same_key. split; [by intros -> | by intros [= ->]].
  - rewrite String.eqb_eq. split; [by intros -> | by intros [= ->]].
Qed.

Lemma row_eqb_key r1 r2 : row_eqb r1 r2 = true ↔ cell_key <$> r1 = cell_key <$> r2.
Proof.
  revert r2. induction r1 as [|a r1 IH]; intros [|b r2]; csimpl; try done.
  rewrite andb_true_iff, cell_eqb_key, IH.
  split; [by intros [-> ->] | by intros [= -> ->]].
Qed.

Lemma row_eqb_refl r : row_eqb r r = true.
Proof. by apply row_eqb_key. Qed.

Lemma row_eqb_sym r1 r2 : row_eqb r1 r2 = row_eqb r2 r1.
Proof.
  apply eq_true_iff_eq. rewrite !row_eqb_key. split; by intros ->.
Qed.

Lemma row_eqb_trans r1 r2 r3 :
  row_eqb r1 r2 = true → row_eqb r2 r3 = true → row_eqb r1 r3 = true.
Proof. rewrite !row_eqb_key. congruence. Qed.

Lemma row_eqb_snoc r1 r2 x y :
  row_eqb (r1 ++ [x]) (r2 ++ [y]) = true → row_eqb r1 r2 = true.
Proof.
  rewrite !row_eqb_key, !fmap_app. csimpl. intros H.
  by apply app_inj_tail in H as [? _].
Qed.

Lemma dupfree_nil : dupfree [].
Proof. intros i j r1 r2 _ H. by rewrite lookup_nil in H. Qed.

Lemma dupfree_cons r rs :
  Forall (λ r', row_eqb r r' = false) rs → dupfree rs → dupfree (r :: rs).
Proof.
  intros Hr Hrs [|i] [|j] r1 r2 Hij; simpl; try lia.
  - intros [= <-] Hj. rewrite Forall_forall in Hr. apply Hr.
    by eapply list_elem_of_lookup_2.
  - apply Hrs. lia.
Qed.

Lemma dupfree_NoDup rs : dupfree rs → NoDup rs.
Proof.
  intros H. apply NoDup_alt. intros i j r Hi Hj.
  destruct (Nat.lt_trichotomy i j) as [Hlt|[->|Hlt]]; [|done|].
  - specialize (H i j r r Hlt Hi Hj). by rewrite row_eqb_refl in H.
  - specialize (H j i r r Hlt Hj Hi). by rewrite row_eqb_refl in H.
Qed.

Lemma dupfree_snoc rs (c : list cell) :
  dupfree rs → dupfree (zip_with (λ r x, r ++ [x]) rs c).
Proof.
  intros H i j r1 r2 Hij Hi Hj.
  apply lookup_zip_with_Some in Hi as (a & x & -> & Ha & _).
  apply lookup_zip_with_Some in Hj as (b & y & -> & Hb & _).
  specialize (H i j a b Hij Ha Hb).
  destruct (row_eqb (a ++ [x]) (b ++ [y])) eqn:E; [|done].
  apply row_eqb_snoc in E. congruence.
Qed.

(** ** Duplicates *)

Lemma length_duplicated_from seen rs :
  length (duplicated_from seen rs) = length rs.
Proof. revert seen. induction rs as [|r rs IH]; intros seen; simpl; auto. Qed.

Lemma duplicated_from_lookup seen rs i r :
  rs !! i = Some r →
  duplicated_from seen rs !! i = Some (existsb (row_eqb r) (seen ++ take i rs)).
Proof.
  revert seen i. induction rs as [|r' rs IH]; intros seen [|i]; simpl; try done.
  - intros [= ->]. by rewrite app_nil_r.
  - intros Hi. rewrite (IH _ _ Hi). by rewrite <- app_assoc.
Qed.

Lemma existsb_false {A} (f : A → bool) l :
  existsb f l = false ↔ Forall (λ x, f x = false) l.
Proof.
  induction l as [|x l IH]; simpl.
  - split; [constructor | done].
  - rewrite orb_false_iff, IH. split.
    + intros [??]. by constructor.
    + by inversion 1.
Qed.

(** Every row kept was not seen before. *)
Lemma kept_unseen seen rs :
  Forall (λ r, existsb (row_eqb r) seen = false)
    (select (negb <$> duplicated_from seen rs) rs).
Proof.
  revert seen. induction rs as [|r rs IH]; intros seen; csimpl; [constructor|].
  assert (Forall (λ r0, existsb (row_eqb r0) seen = false)
            (select (negb <$> duplicated_from (seen ++ [r]) rs) rs)) as Hrest.
  { eapply Forall_impl; [apply IH|]. intros r0. simpl.
    rewrite existsb_app, orb_false_iff. tauto. }
  destruct (existsb (row_eqb r) seen) eqn:E; simpl; [done | by constructor].
Qed.

Lemma kept_dupfree seen rs :
  dupfree (select (negb <$> duplicated_from seen rs) rs).
Proof.
  revert seen. induction rs as [|r rs IH]; intros seen; csimpl; [apply dupfree_nil|].
  destruct (existsb (row_eqb r) seen); simpl; [apply IH|].
  apply dupfree_cons; [|apply IH].
  eapply Forall_impl; [apply (kept_unseen (seen ++ [r]) rs)|]. intros r0. simpl.
  rewrite existsb_app, orb_false_iff. simpl. rewrite orb_false_r.
  intros [_ H]. by rewrite row_eqb_sym.
Qed.

Lemma kept_covers seen rs :
  Forall (λ r, existsb (row_eqb r)
                 (seen ++ select (negb <$> duplicated_from seen rs) rs) = true) rs.
Proof.
  revert seen. induction rs as [|r rs IH]; intros seen; csimpl; [constructor|].
  specialize (IH (seen ++ [r])).
  destruct (existsb (row_eqb r) seen) eqn:E; simpl.
  - constructor.
    + by rewrite existsb_app, E.
    + eapply Forall_impl; [exact IH|]. intros r0. simpl.
      rewrite !existsb_app. simpl. rewrite orb_false_r.
      destruct (row_eqb r0 r) eqn:E0; [|by rewrite orb_false_r].
      intros _. apply orb_true_iff. left.
      apply existsb_exists in E as (s & Hs & Hrs).
      apply existsb_exists. exists s. split; [done|]. by eapply row_eqb_trans.
  - constructor.
    + rewrite existsb_app. simpl. by rewrite row_eqb_refl, orb_true_r.
    + eapply Forall_impl; [exact IH|]. intros r0. simpl.
      by rewrite <- app_assoc.
Qed.

(** ** Results of the steps *)

Lemma bind_Ok {A B} (r : result A) (f : A → result B) b :
  r ≫= f = Ok b ↔ ∃ a, r = Ok a ∧ f a = Ok b.
Proof.
  destruct r as [a|e]; simpl.
  - split; [eauto | by intros (? & [= <-] & ?)].
  - split; [done | by intros (? & ? & ?)].
Qed.

Lemma fmap_Ok {A B} (r : result A) (f : A → B) b :
  f <$> r = Ok b ↔ ∃ a, r = Ok a ∧ b = f a.
Proof.
  destruct r as [a|e]; simpl.
  - split; [intros [= <-]; eauto | by intros (? & [= <-] & ->)].
  - split; [done | by intros (? & ? & ?)].
Qed.

Lemma getitem_dropped d name :
  name ≠ "index"%string → getitem (dropped d) name = getitem d name.
Proof.
  intros Hne. unfold getitem, dropped; simpl. rewrite assoc_filter; [done|].
  rewrite list_elem_of_singleton. done.
Qed.

Lemma clean_Ok d c :
  clean d = Ok c ↔
  "index"%string ∈ columns d ∧
  ∃ s0, getitem d "stops" = Ok s0 ∧
        c = drop_duplicates (setitem (dropped d) "stops" (map_dict stops_codes s0)).
Proof.
  unfold clean. rewrite bind_Ok. split.
  - intros (d1 & Hdrop & H). apply bind_Ok in H as (s0 & Hs & [= <-]).
    apply drop_Ok in Hdrop as [Hin ->]. fold (dropped d) in *.
    rewrite getitem_dropped in Hs by done.
    split; [by inversion Hin | eauto].
  - intros (Hin & s0 & Hs & ->). exists (dropped d). split.
    + by apply drop_present.
    + apply bind_Ok. exists s0. by rewrite getitem_dropped.
Qed.

Lemma derive_Ok d out :
  derive d = Ok out ↔
  ∃ price duration pph src left dst route,
    getitem d "price" = Ok price ∧
    getitem d "duration" = Ok duration ∧
    truediv price duration = Ok pph ∧
    getitem (setitem d "price_per_hour" pph) "source_city" = Ok src ∧
    add_str src to_sep = Ok left ∧
    getitem (setitem d "price_per_hour" pph) "destination_city" = Ok dst ∧
    add left dst = Ok route ∧
    out = setitem (setitem d "price_per_hour" pph) "route" route.
Proof.
  unfold derive. split.
  - intros H.
    apply bind_Ok in H as (price & ? & H). apply bind_Ok in H as (duration & ? & H).
    apply bind_Ok in H as (pph & ? & H). apply bind_Ok in H as (src & ? & H).
    apply bind_Ok in H as (left & ? & H). apply bind_Ok in H as (dst & ? & H).
    apply bind_Ok in H as (route & ? & [= <-]).
    by exists price, duration, pph, src, left, dst, route.
  - intros (price & duration & pph & src & left & dst & route &
            -> & -> & H3 & H4 & H5 & H6 & H7 & ->); simpl.
    rewrite H3; simpl. rewrite H4; simpl. rewrite H5; simpl.
    rewrite H6; simpl. by rewrite H7.
Qed.

(** ** Lengths *)

Lemma length_all_some {A} (l : list (option A)) zs :
  all_some l = Some zs → length zs = length l.
Proof.
  revert zs. induction l as [|[a|] l IH]; intros zs; simpl; try done.
  - by intros [= <-].
  - destruct (all_some l) as [zs'|]; simpl; [|done].
    intros [= <-]. simpl. by rewrite (IH zs').
Qed.

Lemma col_len_map_dict tbl c : col_len (map_dict tbl c) = col_len c.
Proof.
  unfold map_dict, col_len.
  destruct (all_some (dict_get tbl <$> cells c)) as [zs|] eqn:E; simpl.
  - by rewrite length_fmap, (length_all_some _ _ E), length_fmap.
  - by rewrite !length_fmap.
Qed.

Lemma length_traverse {A B} (f : A → result B) l bs :
  traverse f l = Ok bs → length bs = length l.
Proof.
  revert bs. induction l as [|a l IH]; intros bs; simpl.
  - by intros [= <-].
  - intros (b & _ & H)%bind_Ok. apply bind_Ok in H as (bs' & Hbs & [= <-]).
    simpl. by rewrite (IH bs').
Qed.

Lemma length_floats c xs : floats c = Some xs → length xs = col_len c.
Proof.
  unfold col_len. destruct c; simpl; try done; intros [= <-]; by rewrite ?length_fmap.
Qed.

Lemma obj_binop_Ok f a b c :
  obj_binop f a b = Ok c →
  ∃ os, c = Object os ∧
        (traverse (λ xy, f xy.1 xy.2) (zip (cells a) (cells b)) = Ok os ∨
         traverse (masked f) (zip (cells a) (cells b)) = Ok os).
Proof.
  unfold obj_binop.
  destruct (traverse (λ xy, f xy.1 xy.2) (zip (cells a) (cells b))) as [os|e].
  - intros [= <-]. eauto.
  - destruct e; try done. intros (os & Hos & ->)%fmap_Ok. eauto.
Qed.

Lemma col_len_obj_binop f a b c n :
  obj_binop f a b = Ok c → col_len a = n → col_len b = n → col_len c = n.
Proof.
  intros (os & -> & Hos)%obj_binop_Ok Ha Hb.
  assert (length os = length (zip (cells a) (cells b))) as Hlen
    by (destruct Hos as [H|H]; by apply length_traverse in H).
  unfold col_len in *; simpl.
  rewrite length_fmap, Hlen, length_zip, Ha, Hb. apply Nat.min_id.
Qed.

Lemma col_len_truediv a b c n :
  truediv a b = Ok c → col_len a = n → col_len b = n → col_len c = n.
Proof.
  unfold truediv. intros H Ha Hb.
  destruct (floats a) as [xs|] eqn:Ea; [destruct (floats b) as [ys|] eqn:Eb|];
    try (by eapply col_len_obj_binop).
  injection H as <-. apply length_floats in Ea, Eb.
  unfold col_len at 1; simpl. rewrite length_fmap, length_zip_with. lia.
Qed.

Lemma col_len_add_str a s c : add_str a s = Ok c → col_len c = col_len a.
Proof.
  destruct a; simpl; try done. intros [= <-]. unfold col_len; simpl.
  by rewrite !length_fmap.
Qed.

Lemma col_len_add a b c n :
  add a b = Ok c → col_len a = n → col_len b = n → col_len c = n.
Proof.
  unfold add. intros H Ha Hb.
  assert (∀ xs ys, floats a = Some xs → floats b = Some ys →
             length (zip_with (SFadd F64.prec F64.emax) xs ys) = n) as Hfl.
  { intros xs ys Ea%length_floats Eb%length_floats. rewrite length_zip_with. lia. }
  destruct a as [xs|xs|xs], b as [ys|ys|ys]; simpl in H;
    try (by eapply col_len_obj_binop);
    injection H as <-; unfold col_len in *; simpl in *;
    rewrite length_fmap; rewrite ?length_zip_with;
    rewrite ?length_fmap in *; try lia.
  all: rewrite length_zip_with, ?length_fmap; lia.
Qed.

Lemma wf_dropped d : wf d → wf (dropped d).
Proof.
  intros [Hnd Hlen]. split.
  - unfold columns, dropped; cbn [data]. rewrite filter_fst. by apply NoDup_filter.
  - unfold dropped; cbn [data]. apply Forall_forall.
    intros nc [_ Hin]%list_elem_of_filter.
    rewrite Forall_forall in Hlen. by apply Hlen.
Qed.

Lemma select_nil_col m c : col_len c = 0%nat → col_select m c = c.
Proof.
  unfold col_len. destruct c as [[|??]|[|??]|[|??]]; simpl; try done;
    intros _; by rewrite select_nil_r.
Qed.

(** But for a table without columns, [drop_duplicates] is the selection of
    the rows not marked. *)
Lemma drop_duplicates_mask d :
  wf d → columns d ≠ [] →
  drop_duplicates d = loc_mask d (negb <$> duplicated d).
Proof.
  intros [_ Hlen] Hcols. unfold drop_duplicates, is_empty.
  destruct (Nat.eqb_spec (length (data d)) 0) as [Hd|_].
  { destruct Hcols. unfold columns. by destruct (data d). }
  rewrite orb_false_r. destruct (Nat.eqb_spec (len d) 0) as [Hn|_]; [|done].
  unfold loc_mask. destruct d as [idx cols]. unfold len in *. simpl in *.
  destruct idx; [|done]. rewrite select_nil_r. f_equal.
  generalize (negb <$> duplicated {| index := []; data := cols |}). intros m.
  clear Hcols. induction Hlen as [|[k c] l Hc _ IH]; csimpl; [done|].
  simpl in Hc. by rewrite <- IH, select_nil_col.
Qed.

Lemma columns_drop_duplicates d : columns (drop_duplicates d) = columns d.
Proof.
  unfold drop_duplicates. destruct (is_empty d); [done | apply columns_loc_mask].
Qed.

Lemma wf_drop_duplicates d : wf d → wf (drop_duplicates d).
Proof.
  unfold drop_duplicates. destruct (is_empty d); [done | apply wf_loc_mask].
Qed.

Lemma wf_clean d c : wf d → clean d = Ok c → wf c.
Proof.
  intros Hwf (_ & s0 & Hs & ->)%clean_Ok.
  apply wf_drop_duplicates, wf_setitem; [by apply wf_dropped|].
  rewrite col_len_map_dict. by apply (wf_len d "stops").
Qed.

Lemma setitem_columns_ne d name c : columns (setitem d name c) ≠ [].
Proof.
  destruct (decide (name ∈ columns d)) as [Hin|Hin].
  - rewrite columns_setitem_old by done. intros E. rewrite E in Hin.
    by apply elem_of_nil in Hin.
  - rewrite columns_setitem_new by done. by destruct (columns d).
Qed.

Lemma columns_dropped d :
  columns (dropped d) = filter (λ n, n ∉ ["index"%string]) (columns d).
Proof. unfold columns, dropped; cbn [data]. apply filter_fst. Qed.

Lemma columns_clean d c :
  clean d = Ok c → columns c = filter (λ n, n ∉ ["index"%string]) (columns d).
Proof.
  intros (_ & s0 & Hs & ->)%clean_Ok.
  rewrite columns_drop_duplicates, columns_setitem_old.
  - apply columns_dropped.
  - rewrite <- getitem_dropped in Hs by done. by eapply getitem_Ok_elem.
Qed.

Lemma derive_wf d out :
  wf d → derive d = Ok out →
  ∃ pph route,
    out = setitem (setitem d "price_per_hour" pph) "route" route ∧
    col_len pph = len d ∧ col_len route = len d ∧
    wf (setitem d "price_per_hour" pph) ∧ wf out.
Proof.
  intros Hwf (price & duration & pph & src & left & dst & route &
              Hp & Hd & Hq & Hs & Hl & Ht & Hr & ->)%derive_Ok.
  assert (col_len pph = len d) as Hpph.
  { eapply col_len_truediv; [exact Hq | by eapply wf_len | by eapply wf_len]. }
  assert (wf (setitem d "price_per_hour" pph)) as Hwf1 by (by apply wf_setitem).
  assert (col_len route = len d) as Hroute.
  { eapply col_len_add; [exact Hr | |].
    - rewrite (col_len_add_str _ _ _ Hl), (wf_len _ _ _ Hwf1 Hs).
      unfold len. by rewrite index_setitem.
    - rewrite (wf_len _ _ _ Hwf1 Ht). unfold len. by rewrite index_setitem. }
  exists pph, route. do 4 (split; [done|]).
  apply wf_setitem; [done|]. unfold len. by rewrite index_setitem.
Qed.

(** ** The script on [listings], step by step *)

Lemma wf_listings : wf listings.
Proof. apply (bool_decide_unpack _). vm_compute. exact I. Qed.

Example clean_listings : clean listings = Ok listings_cleaned.
Proof. reflexivity. Qed.

Example derive_listings : derive listings_cleaned = Ok listings_final.
Proof. reflexivity. Qed.

Example pipeline_listings : pipeline listings = Ok listings_final.
Proof. reflexivity. Qed.

(** ** Duplicate removal *)

(** C9.  On every well-formed table with a column, as the one the script
    has at line 37, [drop_duplicates] keeps exactly the rows that equal no
    earlier row, so the first row of every group of equal rows stays and
    every row has an equal among the rows kept; the rows kept, and their
    labels, are those of the table, unchanged and in their order; the
    columns are the same. *)
Theorem drop_duplicates_keeps_first d :
  wf d → columns d ≠ [] →
  let keep := negb <$> duplicated d in
  rows (drop_duplicates d) = select keep (rows d) ∧
  index (drop_duplicates d) = select keep (index d) ∧
  columns (drop_duplicates d) = columns d ∧
  rows (drop_duplicates d) `sublist_of` rows d ∧
  (∀ i r, rows d !! i = Some r →
     (keep !! i = Some true ↔
      ∀ j r', (j < i)%nat → rows d !! j = Some r' → row_eqb r r' = false)) ∧
  (∀ r, r ∈ rows d → ∃ r', r' ∈ rows (drop_duplicates d) ∧ row_eqb r r' = true).
Proof.
  intros Hwf Hcols keep. rewrite drop_duplicates_mask by done. fold keep.
  assert (rows (loc_mask d keep) = select keep (rows d)) as Hrows
    by (by apply rows_loc_mask).
  split; [done|]. split; [done|]. split; [apply columns_loc_mask|].
  split; [rewrite Hrows; apply select_sublist|]. split.
  - intros i r Hi. unfold keep, duplicated.
    rewrite list_lookup_fmap, (duplicated_from_lookup _ _ _ _ Hi). simpl.
    split.
    + intros [= Hex%negb_true_iff] j r' Hj Hr'.
      rewrite existsb_false, Forall_forall in Hex. apply Hex.
      apply list_elem_of_lookup. exists j. by apply lookup_take_Some.
    + intros H. f_equal. apply negb_true_iff, existsb_false, Forall_forall.
      intros r' (j & [Hj ?]%lookup_take_Some)%list_elem_of_lookup. by eapply H.
  - intros r Hr. rewrite Hrows. unfold keep, duplicated.
    pose proof (kept_covers [] (rows d)) as Hcov.
    rewrite Forall_forall in Hcov. specialize (Hcov r Hr). simpl in Hcov.
    apply existsb_exists in Hcov as (r' & Hin & Heq).
    exists r'. split; [by apply list_elem_of_In | done].
Qed.

Lemma drop_duplicates_keeps_first_witness :
  wf (dropped listings) ∧ columns (dropped listings) ≠ [] ∧
  duplicated (dropped listings) = [false; true; false] ∧
  index (drop_duplicates (dropped listings)) = [0; 2] ∧
  rows (drop_duplicates (dropped listings)) `sublist_of` rows (dropped listings).
Proof.
  assert (wf (dropped listings)) as Hwf
    by (apply (bool_decide_unpack _); vm_compute; exact I).
  assert (columns (dropped listings) ≠ []) as Hcols by (vm_compute; discriminate).
  split; [exact Hwf|]. split; [exact Hcols|]. split; [reflexivity|].
  destruct (drop_duplicates_keeps_first (dropped listings) Hwf Hcols)
    as (_ & Hidx & _ & H & _).
  split; [rewrite Hidx; reflexivity | exact H].
Defined.

Lemma drop_duplicates_dupfree d :
  wf d → columns d ≠ [] → dupfree (rows (drop_duplicates d)).
Proof.
  intros Hwf Hcols. rewrite drop_duplicates_mask, rows_loc_mask by done.
  apply kept_dupfree.
Qed.


(** ** The stops column *)

Lemma all_some_fmap {A} (l : list (option A)) zs :
  all_some l = Some zs → l = Some <$> zs.
Proof.
  revert zs. induction l as [|[a|] l IH]; intros zs; simpl; try done.
  - by intros [= <-].
  - destruct (all_some l) as [zs'|]; simpl; [|done].
    intros [= <-]. csimpl. by rewrite (IH zs').
Qed.

Lemma map_dict_cells tbl c :
  Forall2 (λ x y, encodes y (dict_get tbl x)) (cells c) (cells (map_dict tbl c)).
Proof.
  unfold map_dict.
  destruct (all_some (dict_get tbl <$> cells c)) as [zs|] eqn:E; simpl.
  - apply all_some_fmap in E. revert zs E.
    induction (cells c) as [|x xs IH]; intros [|z zs]; csimpl; try done.
    intros [= Hx Hxs]. constructor; [|by apply IH].
    rewrite Hx. by left.
  - rewrite <- !list_fmap_compose. apply Forall2_fmap_r, Forall_Forall2_diag.
    apply Forall_forall. intros x _. simpl.
    destruct (dict_get tbl x); simpl; [by right | done].
Qed.

Lemma dict_get_stops x y : encodes y (dict_get stops_codes x) → stop_code x y.
Proof.
  unfold stop_code. destruct x as [z|f|s]; simpl.
  - intros ->. do 3 right. split; [|done].
    rewrite !not_elem_of_cons. repeat split; try done. apply not_elem_of_nil.
  - intros ->. do 3 right. split; [|done].
    rewrite !not_elem_of_cons. repeat split; try done. apply not_elem_of_nil.
  - destruct (String.eqb_spec s "zero") as [->|H0]; [by left|].
    destruct (String.eqb_spec s "one") as [->|H1]; [by right; left|].
    destruct (String.eqb_spec s "two_or_more") as [->|H2]; [by right; right; left|].
    intros ->. do 3 right. split; [|done].
    rewrite !not_elem_of_cons. repeat split; try congruence. apply not_elem_of_nil.
Qed.

Lemma stop_code_values x y : stop_code x y → y ∈ stops_values.
Proof.
  unfold stops_values.
  intros [[_ [->| ->]]|[[_ [->| ->]]|[[_ [->| ->]]|[_ ->]]]];
    rewrite !elem_of_cons; tauto.
Qed.

Lemma Forall2_select {A B} (R : A → B → Prop) m xs ys :
  Forall2 R xs ys → Forall2 R (select m xs) (select m ys).
Proof.
  intros H. revert m. induction H as [|x y xs ys Hxy _ IH]; intros [|b m]; simpl;
    try constructor.
  destruct b; [constructor|]; auto.
Qed.

(** C3.  In the cleaned table every entry of [stops] is the code of the
    category that the same row had in the loaded table: 0 for [zero], 1 for
    [one], 2 for [two_or_more] (as [int64], or as the same numbers in
    [float64] once some entry is missing), and NaN for anything else.  So
    every entry is one of 0, 1, 2 and NaN and none is a string.  [keep] marks
    the rows of the loaded table that the cleaning keeps. *)
Theorem stops_mapped d c s0 s :
  wf d →
  clean d = Ok c → getitem d "stops" = Ok s0 → getitem c "stops" = Ok s →
  ∃ keep,
    index c = select keep (index d) ∧
    Forall2 stop_code (select keep (cells s0)) (cells s) ∧
    Forall (λ y, y ∈ stops_values ∧ ∀ t, y ≠ CStr t) (cells s).
Proof.
  intros Hwf (_ & s0' & Hs0 & ->)%clean_Ok Hs0' Hs.
  rewrite Hs0 in Hs0'. injection Hs0' as ->.
  set (d2 := setitem (dropped d) "stops" (map_dict stops_codes s0)) in *.
  assert (drop_duplicates d2 = loc_mask d2 (negb <$> duplicated d2)) as Hmask.
  { apply drop_duplicates_mask; [|apply setitem_columns_ne].
    apply wf_setitem; [by apply wf_dropped|].
    rewrite col_len_map_dict. by apply (wf_len d "stops"). }
  rewrite Hmask in *. rewrite getitem_loc_mask in Hs.
  assert (getitem d2 "stops" = Ok (map_dict stops_codes s0)) as Hd2
    by apply getitem_setitem_eq.
  rewrite Hd2 in Hs. injection Hs as <-.
  exists (negb <$> duplicated d2).
  assert (Forall2 stop_code (select (negb <$> duplicated d2) (cells s0))
            (cells (col_select (negb <$> duplicated d2) (map_dict stops_codes s0))))
    as Hcode.
  { rewrite cells_col_select. apply Forall2_select.
    eapply Forall2_impl; [apply map_dict_cells|]. intros x y. apply dict_get_stops. }
  split; [|split; [exact Hcode|]].
  - unfold loc_mask, d2; cbn [index]. by rewrite index_setitem.
  - apply Forall2_Forall_r with (Q := λ y, y ∈ stops_values ∧ ∀ t, y ≠ CStr t)
      in Hcode; [done|].
    apply Forall_forall. intros x _ y Hxy%stop_code_values. split; [done|].
    intros t ->. unfold stops_values in Hxy. rewrite !elem_of_cons in Hxy.
    destruct Hxy as [?|[?|[?|[?|[?|[?|[?|?%elem_of_nil]]]]]]]; done.
Qed.

Lemma stops_mapped_witness :
  wf listings ∧
  clean listings = Ok listings_cleaned ∧
  getitem listings "stops"
    = Ok (Object [Some "two_or_more"; Some "two_or_more"; Some "zero"]%string) ∧
  getitem listings_cleaned "stops" = Ok (Int64 [2; 0]) ∧
  ∃ keep,
    index listings_cleaned = select keep (index listings) ∧
    Forall2 stop_code
      (select keep (cells (Object [Some "two_or_more"; Some "two_or_more"; Some "zero"]%string)))
      (cells (Int64 [2; 0])) ∧
    Forall (λ y, y ∈ stops_values ∧ ∀ t, y ≠ CStr t) (cells (Int64 [2; 0])).
Proof.
  split; [exact wf_listings|].
  split; [reflexivity|]. split; [reflexivity|]. split; [reflexivity|].
  apply (stops_mapped listings listings_cleaned); (exact wf_listings || reflexivity).
Defined.

(** ** The derived columns *)

Lemma traverse_lookup {A B} (f : A → result B) l bs i a :
  traverse f l = Ok bs → l !! i = Some a → ∃ b, bs !! i = Some b ∧ f a = Ok b.
Proof.
  revert bs i. induction l as [|a' l IH]; intros bs i; simpl; [done|].
  intros (b & Hb & H)%bind_Ok. apply bind_Ok in H as (bs' & Hbs & [= <-]).
  destruct i as [|i]; simpl.
  - intros [= ->]. eauto.
  - by apply IH.
Qed.

Lemma obj_binop_lookup f a b c i x y :
  obj_binop f a b = Ok c → cells a !! i = Some x → cells b !! i = Some y →
  ∃ o, (f x y = Ok o ∨ masked f (x, y) = Ok o) ∧ cells c !! i = Some (obj_cell o).
Proof.
  intros (os & -> & Hos)%obj_binop_Ok Hx Hy.
  assert (zip (cells a) (cells b) !! i = Some (x, y)) as Hxy
    by (by apply lookup_zip_Some).
  destruct Hos as [Hos|Hos];
    destruct (traverse_lookup _ _ _ i (x, y) Hos Hxy) as (o & Ho & Hf);
    exists o; (split; [by auto|]); simpl; by rewrite list_lookup_fmap, Ho.
Qed.

Lemma obj_entry c i x :
  floats c = None → cells c !! i = Some x → (∃ s, x = CStr s) ∨ x = NaN.
Proof.
  destruct c as [| |os]; simpl; try done. intros _.
  rewrite list_lookup_fmap. destruct (os !! i) as [[s|]|]; simpl; try done.
  - intros [= <-]. eauto.
  - intros [= <-]. by right.
Qed.

Lemma append_assoc (s t u : string) : (s +:+ t) +:+ u = s +:+ t +:+ u.
Proof.
  induction s as [|a s IH]; [done|].
  change (String a ((s +:+ t) +:+ u) = String a (s +:+ t +:+ u)). by rewrite IH.
Qed.

(** C5.  At every row of the final table, [route] is the source city, then
    the separator [" to "], then the destination city; where a city is
    missing, so is the route. *)
Theorem route_concat d out src dst r :
  pipeline d = Ok out →
  getitem out "source_city" = Ok src →
  getitem out "destination_city" = Ok dst →
  getitem out "route" = Ok r →
  ∀ i x y, cells src !! i = Some x → cells dst !! i = Some y →
    cells r !! i = Some (route_of x y) ∧
    (∀ s t, x = CStr s → y = CStr t → cells r !! i = Some (CStr (s +:+ " to " +:+ t))).
Proof.
  unfold pipeline. intros (c & _ & Hderive)%bind_Ok.
  apply derive_Ok in Hderive
    as (price & duration & pph & src' & left & dst' & route &
        _ & _ & _ & Hs & Hl & Ht & Hr & ->).
  rewrite getitem_setitem_eq, !(getitem_setitem_ne _ "route"), Hs, Ht by done.
  intros [= <-] [= <-] [= <-] i x y Hx Hy.
  assert (cells route !! i = Some (route_of x y)) as Hroute.
  { destruct src' as [| |xs]; simpl in Hl; try done. injection Hl as <-.
    simpl in Hx. rewrite list_lookup_fmap in Hx.
    destruct (xs !! i) as [o|] eqn:Exs; [|done]. injection Hx as <-.
    unfold add in Hr. simpl in Hr.
    destruct (obj_binop_lookup py_add _ _ _ i
                (obj_cell ((λ s, s +:+ to_sep) <$> o)) y Hr) as (z & Hz & ->).
    { simpl. by rewrite !list_lookup_fmap, Exs. }
    { done. }
    f_equal. unfold masked in Hz. simpl in Hz.
    destruct o as [s|]; simpl in *.
    - destruct y as [n|b|t]; simpl in *.
      + by destruct Hz.
      + destruct Hz as [Hz|Hz]; [done|].
        destruct (F64.is_nan b); [|done]. by injection Hz as <-.
      + assert (z = Some ((s +:+ to_sep) +:+ t)) as ->
          by (destruct Hz as [Hz|Hz]; by injection Hz as <-).
        simpl. by rewrite append_assoc.
    - assert (z = None) as ->.
      { destruct Hz as [Hz|Hz]; [|by injection Hz as <-].
        destruct y; simpl in Hz; try done; by injection Hz as <-. }
      done. }
  split; [done|]. by intros s t -> ->.
Qed.

Lemma route_concat_witness :
  pipeline listings = Ok listings_final ∧
  cells (Object [Some "Delhi to Mumbai"; Some "Delhi to Mumbai"]%string) !! 1%nat
  = Some (CStr "Delhi to Mumbai").
Proof.
  split; [reflexivity|].
  apply (route_concat listings listings_final
           (Object [Some "Delhi"; Some "Delhi"]%string)
           (Object [Some "Mumbai"; Some "Mumbai"]%string)
           (Object [Some "Delhi to Mumbai"; Some "Delhi to Mumbai"]%string)
           eq_refl eq_refl eq_refl eq_refl 1%nat (CStr "Delhi") (CStr "Mumbai")
           eq_refl eq_refl).
Defined.

Lemma floats_lookup c xs i x :
  floats c = Some xs → cells c !! i = Some x →
  ∃ a, xs !! i = Some a ∧ to_float x = Some a.
Proof.
  destruct c as [zs|fs|os]; simpl; try done; intros [= <-];
    rewrite !list_lookup_fmap.
  - destruct (zs !! i); [|done]. intros [= <-]. eauto.
  - destruct (fs !! i); [|done]. intros [= <-]. eauto.
Qed.

Lemma div_nan_l b : F64.div F64.nan b = F64.nan.
Proof. done. Qed.

Lemma div_nan_r a : F64.div a F64.nan = F64.nan.
Proof. by destruct a. Qed.

Lemma div_by_zero a s : F64.div a (S754_zero s) = div_zero a s.
Proof. by destruct a. Qed.

Lemma truediv_lookup p t q i x y :
  truediv p t = Ok q → cells p !! i = Some x → cells t !! i = Some y →
  cells q !! i = Some (cell_div x y).
Proof.
  unfold truediv. intros H Hx Hy.
  assert (isna x = true → cell_div x y = NaN) as Hnx.
  { destruct x as [|a|]; try done. destruct a; try done. intros _.
    unfold cell_div. simpl. by destruct (to_float y). }
  assert (isna y = true → cell_div x y = NaN) as Hny.
  { destruct y as [|b|]; try done. destruct b; try done. intros _.
    unfold cell_div. simpl. destruct (to_float x) as [a|]; [|done].
    simpl. f_equal. apply div_nan_r. }
  assert (obj_binop py_truediv p t = Ok q →
          (∃ s, x = CStr s) ∨ x = NaN ∨ (∃ s, y = CStr s) ∨ y = NaN →
          cells q !! i = Some (cell_div x y)) as Hobj.
  { intros Hq Hentry.
    destruct (obj_binop_lookup _ _ _ _ i x y Hq Hx Hy) as (o & Ho & ->).
    f_equal. destruct Ho as [Ho|Ho].
    - assert (o = None) as ->.
      { destruct x, y; simpl in Ho; try done;
          destruct (_ =? _) || destruct (F64.is_zero _); try done;
          by injection Ho as <-. }
      destruct Hentry as [[s ->] | [-> | [[s ->] | ->]]]; simpl.
      + by destruct y.
      + symmetry. by apply Hnx.
      + by destruct x.
      + symmetry. by apply Hny.
    - unfold masked in Ho. simpl in Ho.
      destruct (isna x) eqn:Ex; simpl in Ho.
      + injection Ho as <-. symmetry. by apply Hnx.
      + destruct (isna y) eqn:Ey.
        * injection Ho as <-. symmetry. by apply Hny.
        * destruct Hentry as [[s ->] | [-> | [[s ->] | ->]]]; try done.
          by destruct x. }
  destruct (floats p) as [xs|] eqn:Ep; [destruct (floats t) as [ys|] eqn:Et|].
  2:{ apply Hobj; [done|]. right; right. by eapply obj_entry. }
  2:{ apply Hobj; [done|].
      destruct (obj_entry _ _ _ Ep Hx) as [?|?]; [by left | by right; left]. }
  injection H as <-.
  destruct (floats_lookup _ _ _ _ Ep Hx) as (a & Ha & Hxa).
  destruct (floats_lookup _ _ _ _ Et Hy) as (b & Hb & Hyb).
  unfold cell_div. rewrite Hxa, Hyb. simpl.
  by rewrite list_lookup_fmap, lookup_zip_with, Ha, Hb.
Qed.

(** Division of two numeric columns raises nothing, whatever the divisor. *)
Lemma truediv_numeric p t xs ys :
  floats p = Some xs → floats t = Some ys →
  truediv p t = Ok (Float64 (zip_with F64.div xs ys)).
Proof. unfold truediv. by intros -> ->. Qed.

(** The script does not follow it: the first listing has a duration of zero
    and a price per hour of plus infinity. *)
Lemma zero_duration_gives_infinity :
  ¬ missing_at_zero_duration listings ∧
  ∃ q, getitem listings_final "price_per_hour" = Ok q ∧
       cells q !! 0%nat = Some (CFloat (S754_infinity false)).
Proof.
  split.
  - intros H.
    specialize (H listings_final (Float64 [F64.zero; F64.of_int 2])
                  (Float64 [F64.inf; F64.div (F64.of_int 5955) (F64.of_int 2)])
                  0%nat (CFloat F64.zero) (CFloat F64.inf)
                  eq_refl eq_refl eq_refl eq_refl eq_refl).
    assert (isna (CFloat F64.inf) = true) as Hna by (apply H; by exists false).
    discriminate Hna.
  - eexists. split; reflexivity.
Qed.

(** C1, as the script has it.  At every row of the final table
    [price_per_hour] is the IEEE quotient of [price] by [duration] in
    [float64].  Where [duration] is zero that is an infinity, with the sign
    of the price (reversed by a negative zero), and it is NaN, the
    missing-value marker, only when the price is itself zero or missing. *)
Theorem price_per_hour_quotient d out p t q :
  pipeline d = Ok out →
  getitem out "price" = Ok p →
  getitem out "duration" = Ok t →
  getitem out "price_per_hour" = Ok q →
  ∀ i x y, cells p !! i = Some x → cells t !! i = Some y →
    cells q !! i = Some (cell_div x y) ∧
    (∀ a s, to_float x = Some a → to_float y = Some (S754_zero s) →
       cells q !! i = Some (CFloat (div_zero a s))).
Proof.
  unfold pipeline. intros (c & _ & Hderive)%bind_Ok.
  apply derive_Ok in Hderive
    as (price & duration & pph & src & left & dst & route &
        Hp & Ht & Hq & _ & _ & _ & _ & ->).
  rewrite !(getitem_setitem_ne _ "route") by done.
  rewrite getitem_setitem_eq, !getitem_setitem_ne, Hp, Ht by done.
  intros [= <-] [= <-] [= <-] i x y Hx Hy.
  pose proof (truediv_lookup _ _ _ _ _ _ Hq Hx Hy) as Hi.
  split; [done|]. intros a s Ha Hs. rewrite Hi. unfold cell_div.
  by rewrite Ha, Hs, div_by_zero.
Qed.

Lemma price_per_hour_quotient_witness :
  pipeline listings = Ok listings_final ∧
  cells (Float64 [F64.inf; F64.div (F64.of_int 5955) (F64.of_int 2)]) !! 0%nat
  = Some (CFloat (div_zero (F64.of_int 5953) false)).
Proof.
  split; [reflexivity|].
  exact (proj2 (price_per_hour_quotient listings listings_final
           (Int64 [5953; 5955]) (Float64 [F64.zero; F64.of_int 2])
           (Float64 [F64.inf; F64.div (F64.of_int 5955) (F64.of_int 2)])
           eq_refl eq_refl eq_refl eq_refl 0%nat (CInt 5953) (CFloat F64.zero)
           eq_refl eq_refl) (F64.of_int 5953) false eq_refl eq_refl).
Defined.

(** ** The columns of the final table *)

Lemma columns_derive d out :
  derive d = Ok out →
  "price_per_hour"%string ∉ columns d → "route"%string ∉ columns d →
  columns out = columns d ++ ["price_per_hour"; "route"]%string.
Proof.
  intros (price & duration & pph & src & left & dst & route &
          _ & _ & _ & _ & _ & _ & _ & ->)%derive_Ok Hpph Hroute.
  assert (columns (setitem d "price_per_hour" pph)
          = columns d ++ ["price_per_hour"%string]) as Hc
    by (by apply columns_setitem_new).
  rewrite columns_setitem_new, Hc.
  - by rewrite <- app_assoc.
  - rewrite Hc, not_elem_of_app, list_elem_of_singleton. done.
Qed.

Lemma columns_pipeline d out :
  pipeline d = Ok out →
  "price_per_hour"%string ∉ columns d → "route"%string ∉ columns d →
  columns out
  = filter (λ n, n ≠ "index"%string) (columns d) ++ ["price_per_hour"; "route"]%string.
Proof.
  unfold pipeline. intros (c & Hclean & Hderive)%bind_Ok Hpph Hroute.
  pose proof (columns_clean _ _ Hclean) as Hc.
  rewrite (columns_derive _ _ Hderive), Hc.
  - f_equal. apply list_filter_iff. intros n. by rewrite list_elem_of_singleton.
  - rewrite Hc. by intros [_ ?]%list_elem_of_filter.
  - rewrite Hc. by intros [_ ?]%list_elem_of_filter.
Qed.

(** ** Frames of the statements *)

Lemma bind_run {A B} (m : M A) (f : A → M B) s :
  (m ≫= f) s = match m s with
               | (Ok a, s') => f a s'
               | (Err e, s') => (Err e, s')
               end.
Proof. done. Qed.

Lemma bind_run_Ok {A B} (m : M A) (f : A → M B) s b s' :
  (m ≫= f) s = (Ok b, s') ↔ ∃ a s1, m s = (Ok a, s1) ∧ f a s1 = (Ok b, s').
Proof.
  rewrite bind_run. destruct (m s) as [[a|e] s1].
  - split; [eauto | by intros (? & ? & [= <- <-] & ?)].
  - split; [done | by intros (? & ? & ? & ?)].
Qed.

Lemma keeps_ret {A} (a : A) : keeps_table (mret a).
Proof. done. Qed.

Lemma keeps_lift {A} (r : result A) : keeps_table (lift r).
Proof. done. Qed.

Lemma keeps_get_df : keeps_table get_df.
Proof. done. Qed.

Lemma keeps_emit e : keeps_table (emit e).
Proof. done. Qed.

Lemma keeps_print line : keeps_table (print line).
Proof. done. Qed.

Lemma keeps_show fig : keeps_table (show fig).
Proof. done. Qed.

Lemma keeps_bind {A B} (m : M A) (f : A → M B) :
  keeps_table m → (∀ a, keeps_table (f a)) → keeps_table (m ≫= f).
Proof.
  intros Hm Hf s. rewrite bind_run. specialize (Hm s).
  destruct (m s) as [[a|e] s1]; simpl in *; [|done].
  destruct (Hf a s1) as [-> ->]. done.
Qed.

Lemma keeps_for_each {A} (l : list A) body :
  (∀ a, keeps_table (body a)) → keeps_table (for_each l body).
Proof.
  intros Hb. induction l as [|a l IH]; simpl; [apply keeps_ret|].
  apply keeps_bind; [apply Hb | by intros _].
Qed.

Lemma keeps_collect {A B} (l : list A) (body : A → M B) :
  (∀ a, keeps_table (body a)) → keeps_table (collect l body).
Proof.
  intros Hb. induction l as [|a l IH]; simpl; [apply keeps_ret|].
  apply keeps_bind; [apply Hb|]. intros b.
  apply keeps_bind; [apply IH|]. intros bs. apply keeps_ret.
Qed.

Create HintDb frame.
#[global] Hint Resolve keeps_ret keeps_lift keeps_get_df keeps_emit keeps_print
  keeps_show : frame.
#[global] Hint Extern 2 (keeps_table (_ ≫= _)) => apply keeps_bind; [|intros ?] : frame.
#[global] Hint Extern 2 (keeps_table (for_each _ _)) =>
  apply keeps_for_each; intros ? : frame.
#[global] Hint Extern 2 (keeps_table (collect _ _)) =>
  apply keeps_collect; intros ? : frame.

Section Frames.
Variable L : library.

Lemma keeps_visualize : keeps_table (visualize L).
Proof. unfold visualize. auto 30 with frame. Qed.

Lemma keeps_info : keeps_table (info L).
Proof. unfold info. auto 30 with frame. Qed.

Lemma keeps_closing : keeps_table closing.
Proof. unfold closing. auto 30 with frame. Qed.

(** C7.  From any state, and whether the charts are all drawn or a lookup
    of a column raises, the table after the charts is the table before
    them, with the same labels, columns and rows; the files are untouched
    too. *)
Theorem charts_leave_table (s : state) :
  df (visualize L s).2 = df s ∧
  rows (df (visualize L s).2) = rows (df s) ∧
  columns (df (visualize L s).2) = columns (df s) ∧
  files (visualize L s).2 = files s.
Proof.
  destruct (keeps_visualize s) as [Hdf Hfiles].
  rewrite Hdf. done.
Qed.
End Frames.

(** ** What a run reads and writes *)

Lemma paths_differ : output_path ≠ input_path.
Proof. done. Qed.

Lemma lookup_written w fs : written w fs !! input_path = fs !! input_path.
Proof.
  destruct w as [text|]; simpl; [|done]. apply lookup_insert_ne, paths_differ.
Qed.

Lemma written_written w w' fs :
  written w' (written w fs) = written (match w' with Some _ => w' | None => w end) fs.
Proof.
  destruct w' as [t'|], w as [t|]; simpl; try done. apply insert_insert_eq.
Qed.

Lemma local_ret {A} (a : A) : file_local (mret a).
Proof. intros s1 s2 (? & ? & ?). repeat split; try done. by exists None. Qed.

Lemma local_lift {A} (r : result A) : file_local (lift r).
Proof. intros s1 s2 (? & ? & ?). repeat split; try done. by exists None. Qed.

Lemma local_get_df : file_local get_df.
Proof.
  intros s1 s2 (Hd & ? & ?). unfold get_df; simpl. rewrite Hd.
  repeat split; try done. by exists None.
Qed.

Lemma local_set_df d : file_local (set_df d).
Proof. intros s1 s2 (? & ? & ?). repeat split; try done. by exists None. Qed.

Lemma local_emit e : file_local (emit e).
Proof.
  intros s1 s2 (? & Ho & ?). unfold emit; simpl. rewrite Ho.
  repeat split; try done. by exists None.
Qed.

Lemma local_print line : file_local (print line).
Proof. apply local_emit. Qed.

Lemma local_show fig : file_local (show fig).
Proof. apply local_emit. Qed.

Lemma local_bind {A B} (m : M A) (f : A → M B) :
  file_local m → (∀ a, file_local (f a)) → file_local (m ≫= f).
Proof.
  intros Hm Hf s1 s2 Hs. rewrite !bind_run.
  destruct (Hm s1 s2 Hs) as (Hr & Hd & Ho & w & Hw1 & Hw2).
  destruct (m s1) as [r1 t1], (m s2) as [r2 t2]; simpl in *. subst r2.
  destruct r1 as [a|e]; simpl.
  - assert (agree t1 t2) as Ht.
    { repeat split; try done. by rewrite Hw1, Hw2, !lookup_written; apply Hs. }
    destruct (Hf a t1 t2 Ht) as (Hr' & Hd' & Ho' & w' & Hw1' & Hw2').
    repeat split; try done.
    exists (match w' with Some _ => w' | None => w end).
    by rewrite Hw1', Hw2', Hw1, Hw2, !written_written.
  - repeat split; try done. by exists w.
Qed.

Lemma local_for_each {A} (l : list A) body :
  (∀ a, file_local (body a)) → file_local (for_each l body).
Proof.
  intros Hb. induction l as [|a l IH]; simpl; [apply local_ret|].
  apply local_bind; [apply Hb | by intros _].
Qed.

Lemma local_collect {A B} (l : list A) (body : A → M B) :
  (∀ a, file_local (body a)) → file_local (collect l body).
Proof.
  intros Hb. induction l as [|a l IH]; simpl; [apply local_ret|].
  apply local_bind; [apply Hb|]. intros b.
  apply local_bind; [apply IH|]. intros bs. apply local_ret.
Qed.

#[global] Hint Resolve local_ret local_lift local_get_df local_set_df local_emit
  local_print local_show : frame.
#[global] Hint Extern 2 (file_local (_ ≫= _)) => apply local_bind; [|intros ?] : frame.
#[global] Hint Extern 2 (file_local (for_each _ _)) =>
  apply local_for_each; intros ? : frame.
#[global] Hint Extern 2 (file_local (collect _ _)) =>
  apply local_collect; intros ? : frame.

Section Runs.
Variable L : library.

Lemma local_read_csv : file_local (read_csv L input_path).
Proof.
  intros s1 s2 (Hd & Ho & Hf). unfold read_csv. rewrite Hf.
  destruct (files s2 !! input_path); simpl; repeat split; try done; by exists None.
Qed.

Lemma local_to_csv d idx : file_local (to_csv L d output_path idx).
Proof.
  intros s1 s2 (Hd & Ho & Hf). unfold to_csv; simpl.
  repeat split; try done. by exists (Some (csv_text L d true idx)).
Qed.

Hint Resolve local_read_csv local_to_csv : frame.

Lemma local_inplace f : file_local (inplace f).
Proof. unfold inplace. auto 10 with frame. Qed.

Hint Resolve local_inplace : frame.

Lemma local_main : file_local (main L).
Proof.
  unfold main, load, cleaning, features, info, visualize, save, closing.
  auto 60 with frame.
Qed.

Lemma outcome_eq {A} (p q : result A * state) :
  p.1 = q.1 → df p.2 = df q.2 → files p.2 = files q.2 → out p.2 = out q.2 →
  p = q.
Proof. destruct p as [r1 []], q as [r2 []]; simpl. by intros -> -> -> ->. Qed.

End Runs.

(** ** The stages of a run *)

Ltac exec := repeat (progress (unfold mbind, M_bind; simpl)).
Ltac in_list := apply (bool_decide_unpack _); vm_compute; exact I.

Section Stages.
Variable L : library.

Lemma load_Ok s s' :
  load L s = (Ok (), s') →
  ∃ text d, files s !! input_path = Some text ∧ parse_csv L text = Ok d ∧
            df s' = d ∧ files s' = files s.
Proof.
  unfold load. exec. unfold read_csv. simpl.
  destruct (files s !! input_path) as [text|]; [|done].
  destruct (parse_csv L text) as [d|e] eqn:E; [|done]. simpl.
  intros [= <-]. by exists text, d.
Qed.

Lemma load_run s text d :
  files s !! input_path = Some text → parse_csv L text = Ok d →
  ∃ o, load L s = (Ok (), mkState d (files s) o).
Proof.
  intros Hf Hp. unfold load. exec. unfold read_csv. simpl.
  rewrite Hf, Hp. simpl. eauto.
Qed.

Lemma cleaning_Ok s s' :
  cleaning s = (Ok (), s') → clean (df s) = Ok (df s') ∧ files s' = files s.
Proof.
  unfold cleaning, inplace, clean. exec.
  destruct (drop ["index"%string] false (df s)) as [d1|e]; [|done]. simpl.
  destruct (getitem d1 "stops") as [stops|e]; [|done]. simpl.
  by intros [= <-].
Qed.

Lemma cleaning_run s c :
  clean (df s) = Ok c → ∃ o, cleaning s = (Ok (), mkState c (files s) o).
Proof.
  unfold cleaning, inplace, clean. exec.
  destruct (drop ["index"%string] false (df s)) as [d1|e]; [|done]. simpl.
  destruct (getitem d1 "stops") as [stops|e]; [|done]. simpl.
  intros [= <-]. eauto.
Qed.

Lemma cleaning_no_index s :
  "index"%string ∉ columns (df s) →
  cleaning s = (Err (KeyError ["index"%string]),
                mkState (df s) (files s) (out s ++ [Stdout "Cleaning data..."])).
Proof.
  intros H. unfold cleaning, inplace. exec.
  by rewrite (drop_missing _ _ H).
Qed.

Lemma features_Ok s s' :
  features s = (Ok (), s') → derive (df s) = Ok (df s') ∧ files s' = files s.
Proof.
  unfold features, derive. exec.
  destruct (getitem (df s) "price") as [price|e]; [|done]. simpl.
  destruct (getitem (df s) "duration") as [duration|e]; [|done]. simpl.
  destruct (truediv price duration) as [pph|e]; [|done]. simpl.
  destruct (getitem _ "source_city") as [src|e]; [|done]. simpl.
  destruct (add_str src to_sep) as [left|e]; [|done]. simpl.
  destruct (getitem _ "destination_city") as [dst|e]; [|done]. simpl.
  destruct (add left dst) as [route|e]; [|done]. simpl.
  by intros [= <-].
Qed.

Lemma features_run s out' :
  derive (df s) = Ok out' → ∃ o, features s = (Ok (), mkState out' (files s) o).
Proof.
  unfold features, derive. exec.
  destruct (getitem (df s) "price") as [price|e]; [|done]. simpl.
  destruct (getitem (df s) "duration") as [duration|e]; [|done]. simpl.
  destruct (truediv price duration) as [pph|e]; [|done]. simpl.
  destruct (getitem _ "source_city") as [src|e]; [|done]. simpl.
  destruct (add_str src to_sep) as [left|e]; [|done]. simpl.
  destruct (getitem _ "destination_city") as [dst|e]; [|done]. simpl.
  destruct (add left dst) as [route|e]; [|done]. simpl.
  intros [= <-]. eauto.
Qed.

Lemma save_run s :
  ∃ o, save L s
       = (Ok (), mkState (df s)
                   (<[output_path := csv_text L (df s) true false]> (files s)) o).
Proof. unfold save. exec. eauto. Qed.

Lemma info_run s : ∃ o, info L s = (Ok (), mkState (df s) (files s) o).
Proof. unfold info. exec. eauto. Qed.

Lemma closing_run s : ∃ o, closing s = (Ok (), mkState (df s) (files s) o).
Proof. unfold closing. exec. eauto. Qed.

(** The charts are drawn when the table has the columns they look up and
    every call that draws returns. *)
Lemma visualize_run s :
  Forall (λ n, n ∈ columns (df s)) (numeric_cols ++ categorical_cols) →
  charts_return L (df s) →
  ∃ o, visualize L s = (Ok (), mkState (df s) (files s) o).
Proof.
  intros Hcols (Hnum & Hcat & Hb1 & Hb2 & Hbox).
  assert (∃ sub, getitems (df s) numeric_cols = Ok sub) as [sub Hsub].
  { unfold getitems.
    destruct (filter (λ n, n ∉ columns (df s)) numeric_cols) as [|n ns] eqn:E; [eauto|].
    assert (n ∈ filter (λ n, n ∉ columns (df s)) numeric_cols) as Hn
      by (rewrite E; left).
    apply list_elem_of_filter in Hn as [Hn Hin].
    rewrite Forall_forall in Hcols. destruct Hn. apply Hcols.
    apply elem_of_app. by left. }
  assert (∀ n, n ∈ numeric_cols ++ categorical_cols →
            ∃ c, getitem (df s) n = Ok c) as Hget.
  { intros n Hn. apply getitem_elem_Ok. rewrite Forall_forall in Hcols. auto. }
  destruct (Hget "duration"%string) as [c1 H1]; [in_list|].
  destruct (Hget "days_left"%string) as [c2 H2]; [in_list|].
  destruct (Hget "price"%string) as [c3 H3]; [in_list|].
  destruct (Hget "price_per_hour"%string) as [c4 H4]; [in_list|].
  destruct (Hget "airline"%string) as [c5 H5]; [in_list|].
  destruct (Hget "source_city"%string) as [c6 H6]; [in_list|].
  destruct (Hget "destination_city"%string) as [c7 H7]; [in_list|].
  destruct (Hget "departure_time"%string) as [c8 H8]; [in_list|].
  destruct (Hget "arrival_time"%string) as [c9 H9]; [in_list|].
  destruct (Hget "class"%string) as [c10 H10]; [in_list|].
  destruct (Hnum sub Hsub) as (Hh & m & Hm & Hheat).
  assert (D5 := Hcat "airline"%string c5 ltac:(in_list) H5).
  assert (D6 := Hcat "source_city"%string c6 ltac:(in_list) H6).
  assert (D7 := Hcat "destination_city"%string c7 ltac:(in_list) H7).
  assert (D8 := Hcat "departure_time"%string c8 ltac:(in_list) H8).
  assert (D9 := Hcat "arrival_time"%string c9 ltac:(in_list) H9).
  assert (D10 := Hcat "class"%string c10 ltac:(in_list) H10).
  assert (D1 := Hbox "duration"%string c1 ltac:(in_list) H1).
  assert (D2 := Hbox "days_left"%string c2 ltac:(in_list) H2).
  assert (D3 := Hbox "price"%string c3 ltac:(in_list) H3).
  assert (D4 := Hbox "price_per_hour"%string c4 ltac:(in_list) H4).
  unfold visualize, categorical_cols. exec.
  rewrite Hsub. exec. rewrite Hh. exec.
  rewrite H5. exec. rewrite D5. exec. rewrite H6. exec. rewrite D6. exec.
  rewrite H7. exec. rewrite D7. exec. rewrite H8. exec. rewrite D8. exec.
  rewrite H9. exec. rewrite D9. exec. rewrite H10. exec. rewrite D10. exec.
  rewrite Hsub. exec. rewrite Hm. exec. rewrite Hheat. exec.
  rewrite Hb1. exec. rewrite Hb2. exec.
  rewrite H1. exec. rewrite D1. exec. rewrite H2. exec. rewrite D2. exec.
  rewrite H3. exec. rewrite D3. exec. rewrite H4. exec. rewrite D4. exec.
  eauto.
Qed.
End Stages.

(** ** A whole run *)

Lemma zip_with_const_l {A B C} (g : B → C) (xs : list A) (ys : list B) :
  length xs = length ys → zip_with (λ _ y, g y) xs ys = g <$> ys.
Proof.
  revert ys. induction xs as [|x xs IH]; intros [|y ys]; csimpl; try done.
  intros [= H]. by rewrite IH.
Qed.

Lemma rows_of_width n cols :
  Forall (λ r : list cell, length r = length cols) (rows_of n cols).
Proof.
  induction cols as [|c cs IH]; simpl.
  - apply Forall_forall. by intros r [-> _]%elem_of_replicate.
  - revert IH. generalize (rows_of n cs). intros rs. revert c.
    induction rs as [|r rs IHrs]; intros [|x c]; simpl; try constructor.
    + inversion IH; subst. simpl. by f_equal.
    + apply IHrs. by inversion IH.
Qed.

Lemma rows_width d : Forall (λ r, length r = length (columns d)) (rows d).
Proof.
  unfold rows, columns. rewrite length_fmap.
  rewrite <- (length_fmap (λ nc : string * column, cells nc.2)).
  apply rows_of_width.
Qed.

Lemma wf_pipeline d out : wf d → pipeline d = Ok out → wf out.
Proof.
  unfold pipeline. intros Hwf (c & Hc & Hout)%bind_Ok.
  destruct (derive_wf c out) as (? & ? & _ & _ & _ & _ & H); eauto using wf_clean.
Qed.

Lemma bind_step {A B} (m : M A) (f : A → M B) s a s1 :
  m s = (Ok a, s1) → (m ≫= f) s = f a s1.
Proof. intros H. by rewrite bind_run, H. Qed.

Lemma bind_raise {A B} (m : M A) (f : A → M B) s e s1 :
  m s = (Err e, s1) → (m ≫= f) s = (Err e, s1).
Proof. intros H. by rewrite bind_run, H. Qed.

Lemma elem_setitem d name c n :
  n ∈ columns (setitem d name c) ↔ n ∈ columns d ∨ n = name.
Proof.
  destruct (decide (name ∈ columns d)) as [Hin|Hin].
  - rewrite columns_setitem_old by done. split; [by left|].
    intros [?| ->]; done.
  - rewrite columns_setitem_new by done.
    by rewrite elem_of_app, list_elem_of_singleton.
Qed.

(** The final table has no column named [index]. *)
Lemma pipeline_no_index d out' : pipeline d = Ok out' → "index"%string ∉ columns out'.
Proof.
  unfold pipeline. intros (c & Hc & Hd)%bind_Ok.
  apply derive_Ok in Hd as (? & ? & pph & ? & ? & ? & route & _ & _ & _ & _ & _ & _ & _ & ->).
  rewrite !elem_setitem, (columns_clean _ _ Hc).
  intros [[[Hin _]%list_elem_of_filter|?]|?]; [|done..].
  apply Hin. by left.
Qed.

(** The row at [i] has, at the position of a column, that column's entry
    at [i]. *)
Lemma rows_of_lookup n cols j (c : list cell) i x :
  Forall (λ c, length c = n) cols →
  cols !! j = Some c → c !! i = Some x →
  ∃ r, rows_of n cols !! i = Some r ∧ r !! j = Some x.
Proof.
  intros Hlen. revert j. induction Hlen as [|c0 cs Hc0 Hcs IH]; intros j Hj Hi; [done|].
  pose proof (length_rows_of n cs Hcs) as Hn. simpl.
  destruct j as [|j]; simpl in Hj.
  - injection Hj as ->.
    destruct (lookup_lt_is_Some_2 (rows_of n cs) i) as [r' Hr'].
    { rewrite Hn, <- Hc0. by eapply lookup_lt_Some. }
    exists (x :: r'). split; [|done].
    apply lookup_zip_with_Some. eauto.
  - destruct (IH j Hj Hi) as (r' & Hr' & Hx).
    destruct (lookup_lt_is_Some_2 c0 i) as [x0 Hx0].
    { rewrite Hc0, <- Hn. by eapply lookup_lt_Some. }
    exists (x0 :: r'). split; [|done].
    apply lookup_zip_with_Some. eauto.
Qed.

Lemma rows_lookup d j name col i x :
  wf d → data d !! j = Some (name, col) → cells col !! i = Some x →
  ∃ r, rows d !! i = Some r ∧ r !! j = Some x.
Proof.
  intros Hwf Hj Hi. unfold rows.
  apply (rows_of_lookup _ _ j (cells col)); [by apply wf_cols | | done].
  by rewrite list_lookup_fmap, Hj.
Qed.

Section Run.
Variable L : library.

Lemma field_of_cell_text x : field_of L x (cell_text L x).
Proof.
  destruct x as [z|x|t]; simpl; [constructor| |constructor].
  destruct (F64.is_nan x) eqn:E; by constructor.
Qed.

Lemma csv_records_plain d :
  wf d →
  csv_records L d true false = columns d :: (fields L <$> rows d).
Proof.
  intros Hwf. unfold csv_records. simpl. f_equal.
  apply (zip_with_const_l (fields L)).
  rewrite length_rows by done. done.
Qed.

(** C2.  The table the cleaning leaves has no row equal, column for column,
    to an earlier row.  For a loaded table that has no column named
    [price_per_hour] or [route] yet, the same holds of the table with the two
    derived columns, which is the table the charts read and the writer is
    given; and what the writer puts out is the header and then the entries
    of exactly these rows. *)
Theorem cleaned_table_dupfree d c :
  wf d → clean d = Ok c →
  dupfree (rows c) ∧
  ∀ out',
    "price_per_hour"%string ∉ columns d → "route"%string ∉ columns d →
    derive c = Ok out' →
    dupfree (rows out') ∧
    csv_records L out' true false = columns out' :: (fields L <$> rows out').
Proof.
  intros Hwf Hclean.
  assert (dupfree (rows c)) as Hc.
  { apply clean_Ok in Hclean as (_ & s0 & Hs & ->).
    apply drop_duplicates_dupfree; [|apply setitem_columns_ne].
    apply wf_setitem; [by apply wf_dropped|].
    rewrite col_len_map_dict. by apply (wf_len d "stops"). }
  split; [done|]. intros out' Hpph Hroute Hderive.
  pose proof (wf_clean _ _ Hwf Hclean) as Hwfc.
  pose proof (columns_clean _ _ Hclean) as Hcols.
  destruct (derive_wf _ _ Hwfc Hderive)
    as (pph & route & -> & Hlp & Hlr & Hwf1 & Hwfout).
  split; [|by apply csv_records_plain].
  assert ("price_per_hour"%string ∉ columns c) as Hnew1.
  { rewrite Hcols. intros [_ ?]%list_elem_of_filter. done. }
  assert ("route"%string ∉ columns (setitem c "price_per_hour" pph)) as Hnew2.
  { rewrite columns_setitem_new, Hcols by done.
    rewrite not_elem_of_app. split.
    - intros [_ ?]%list_elem_of_filter. done.
    - rewrite list_elem_of_singleton. done. }
  rewrite rows_setitem_new; [| done | done |].
  - rewrite rows_setitem_new by done. by do 2 apply dupfree_snoc.
  - unfold len. by rewrite index_setitem.
Qed.

(** A run that returns has loaded a table, taken it through the cleaning
    and the features, and written the result. *)
Lemma run_Ok fs s' :
  run L fs = (Ok (), s') →
  ∃ text d,
    fs !! input_path = Some text ∧ parse_csv L text = Ok d ∧
    pipeline d = Ok (df s') ∧
    files s' = <[output_path := csv_text L (df s') true false]> fs.
Proof.
  unfold run, main.
  intros ([] & s1 & H1 & H)%bind_run_Ok. apply bind_run_Ok in H as ([] & s2 & H2 & H).
  apply bind_run_Ok in H as ([] & s3 & H3 & H). apply bind_run_Ok in H as ([] & s4 & H4 & H).
  apply bind_run_Ok in H as ([] & s5 & H5 & H). apply bind_run_Ok in H as ([] & s6 & H6 & H7).
  apply load_Ok in H1 as (text & d & Hf & Hp & Hd1 & Hf1). simpl in Hf, Hf1.
  apply cleaning_Ok in H2 as [Hc Hf2]. apply features_Ok in H3 as [Hd Hf3].
  pose proof (keeps_info L s3) as [Hd4 Hf4]. rewrite H4 in Hd4, Hf4. simpl in *.
  pose proof (keeps_visualize L s4) as [Hd5 Hf5]. rewrite H5 in Hd5, Hf5. simpl in *.
  destruct (save_run L s5) as [o6 Hs6]. rewrite Hs6 in H6. injection H6 as <-.
  match type of H7 with
  | closing ?st = _ => pose proof (keeps_closing st) as [Hd7 Hf7]
  end.
  rewrite H7 in Hd7, Hf7. simpl in *.
  exists text, d. split; [done|]. split; [done|]. split.
  - unfold pipeline. rewrite <- Hd1, Hc. simpl. by rewrite Hd, Hd7, Hd5, Hd4.
  - rewrite Hf7, Hd7, Hf5, Hf4, Hf3, Hf2, Hf1. done.
Qed.

(** The run returns whenever the input file is there and is read, the
    cleaning and the features raise nothing, the final table has the
    columns the charts look up and every call that draws returns. *)
Lemma run_returns fs text d out' :
  fs !! input_path = Some text → parse_csv L text = Ok d →
  pipeline d = Ok out' →
  Forall (λ n, n ∈ columns out') (numeric_cols ++ categorical_cols) →
  charts_return L out' →
  ∃ o, run L fs
       = (Ok (), mkState out' (<[output_path := csv_text L out' true false]> fs) o).
Proof.
  intros Hf Hp (c & Hc & Hout)%bind_Ok Hcols Hdraw. unfold run, main.
  destruct (load_run L (mkState (mkDataFrame [] []) fs []) text d Hf Hp) as [o1 H1].
  rewrite (bind_step _ _ _ _ _ H1).
  destruct (cleaning_run (mkState d fs o1) c Hc) as [o2 H2].
  rewrite (bind_step _ _ _ _ _ H2).
  destruct (features_run (mkState c fs o2) out' Hout) as [o3 H3].
  rewrite (bind_step _ _ _ _ _ H3).
  destruct (info_run L (mkState out' fs o3)) as [o4 H4].
  rewrite (bind_step _ _ _ _ _ H4).
  destruct (visualize_run L (mkState out' fs o4) Hcols Hdraw) as [o5 H5].
  rewrite (bind_step _ _ _ _ _ H5).
  destruct (save_run L (mkState out' fs o5)) as [o6 H6].
  rewrite (bind_step _ _ _ _ _ H6).
  destruct (closing_run (mkState out' (<[output_path:=csv_text L out' true false]> fs) o6))
    as [o7 H7].
  exists o7. exact H7.
Qed.


(** C10.  For a loaded table without columns named [price_per_hour] and
    [route], the column names of the final table are those of the loaded
    table in their order, without [index], followed by [price_per_hour] and
    then [route]; the header the writer puts out is that list. *)
Theorem final_column_order d out' :
  pipeline d = Ok out' →
  "price_per_hour"%string ∉ columns d → "route"%string ∉ columns d →
  columns out'
  = filter (λ n, n ≠ "index"%string) (columns d) ++ ["price_per_hour"; "route"]%string ∧
  head (csv_records L out' true false) = Some (columns out').
Proof. intros Hp H1 H2. split; [by apply columns_pipeline | done]. Qed.

(** C4, as the script has it.  When the loaded table has no column named
    [index], the drop raises [KeyError] and the run ends there: the table
    is the loaded one, and no file is written. *)
Theorem missing_index_raises fs text d :
  fs !! input_path = Some text → parse_csv L text = Ok d →
  "index"%string ∉ columns d →
  drop ["index"%string] false d = Err (KeyError ["index"%string]) ∧
  ∃ o, run L fs = (Err (KeyError ["index"%string]), mkState d fs o).
Proof.
  intros Hf Hp Hidx. split; [by apply drop_missing|]. unfold run, main.
  destruct (load_run L (mkState (mkDataFrame [] []) fs []) text d Hf Hp) as [o1 H1].
  rewrite (bind_step _ _ _ _ _ H1).
  erewrite bind_raise; [eauto|]. by apply cleaning_no_index.
Qed.
End Run.

(** The drop of a missing [index] is no silent no-op. *)
Lemma drop_missing_index_not_noop :
  ¬ ∀ d, "index"%string ∉ columns d → drop ["index"%string] false d = Ok d.
Proof.
  intros H. specialize (H listings_cleaned).
  assert (drop ["index"%string] false listings_cleaned = Ok listings_cleaned) as Hd.
  { apply H. apply (bool_decide_unpack _). vm_compute. exact I. }
  discriminate Hd.
Qed.

(** ** The script on [listings], as a run *)

Lemma wf_flights : wf flights.
Proof. apply (bool_decide_unpack _). vm_compute. exact I. Qed.

Lemma reader_wf : reads_tables Fixture.lib.
Proof.
  intros text d. simpl.
  unfold Fixture.reader. destruct (String.eqb text Fixture.listings_csv).
  - intros [= <-]. exact wf_listings.
  - destruct (String.eqb text Fixture.bare_csv).
    + intros [= <-]. apply wf_dropped, wf_listings.
    + destruct (String.eqb text Fixture.flights_csv); [|done].
      intros [= <-]. exact wf_flights.
Qed.

(** On [listings] the first kept row has a price per hour of infinity, and
    the run ends at the histograms of line 52 with nothing written. *)
Example run_listings :
  (run Fixture.lib Fixture.disk).1 = Err ValueError ∧
  df (run Fixture.lib Fixture.disk).2 = listings_final ∧
  files (run Fixture.lib Fixture.disk).2 = Fixture.disk ∧
  last (out (run Fixture.lib Fixture.disk).2)
  = Some (Stdout (newline +:+ "Generating numerical features histograms...")).
Proof. vm_compute. done. Qed.

(** ** The script on [flights], as a run *)

Example run_flights :
  (run Fixture.lib Fixture.flights_disk).1 = Ok () ∧
  files (run Fixture.lib Fixture.flights_disk).2 !! input_path
  = Some Fixture.flights_csv ∧
  files (run Fixture.lib Fixture.flights_disk).2 !! output_path
  = Some (Fixture.lines [
      "airline,flight,source_city,departure_time,stops,arrival_time,destination_city,class,duration,days_left,price,price_per_hour,route";
      "SpiceJet,SG-8709,Delhi,Evening,0,Night,Mumbai,Economy,2.0,1,5953,2976.5,Delhi to Mumbai";
      "Vistara,UK-995,Delhi,Morning,1,Afternoon,Mumbai,Business,4.0,3,25612,6403.0,Delhi to Mumbai";
      "Indigo,6E-204,Mumbai,Night,2,Morning,Delhi,Economy,8.0,7,4500,562.5,Mumbai to Delhi"]).
Proof. vm_compute. done. Qed.

Lemma cleaned_table_dupfree_witness :
  wf listings ∧ clean listings = Ok listings_cleaned ∧
  dupfree (rows listings_cleaned) ∧ dupfree (rows listings_final).
Proof.
  split; [exact wf_listings|]. split; [reflexivity|].
  destruct (cleaned_table_dupfree Fixture.lib listings listings_cleaned
              wf_listings eq_refl) as [Hc Hout].
  split; [exact Hc|]. apply (Hout listings_final).
  - apply (bool_decide_unpack _). vm_compute. exact I.
  - apply (bool_decide_unpack _). vm_compute. exact I.
  - reflexivity.
Defined.

Lemma missing_index_raises_witness :
  Fixture.bare_disk !! input_path = Some Fixture.bare_csv ∧
  parse_csv Fixture.lib Fixture.bare_csv = Ok (dropped listings) ∧
  ("index"%string ∉ columns (dropped listings)) ∧
  ∃ o, run Fixture.lib Fixture.bare_disk
       = (Err (KeyError ["index"%string]), mkState (dropped listings) Fixture.bare_disk o).
Proof.
  assert ("index"%string ∉ columns (dropped listings)) as Hidx.
  { apply (bool_decide_unpack _). vm_compute. exact I. }
  split; [reflexivity|]. split; [reflexivity|]. split; [exact Hidx|].
  exact (proj2 (missing_index_raises Fixture.lib Fixture.bare_disk Fixture.bare_csv
                  (dropped listings) eq_refl eq_refl Hidx)).
Defined.



Lemma final_column_order_witness :
  pipeline listings = Ok listings_final ∧
  ("price_per_hour"%string ∉ columns listings) ∧ ("route"%string ∉ columns listings) ∧
  columns listings_final
  = filter (λ n, n ≠ "index"%string) (columns listings)
    ++ ["price_per_hour"; "route"]%string.
Proof.
  assert ("price_per_hour"%string ∉ columns listings) as H1.
  { apply (bool_decide_unpack _). vm_compute. exact I. }
  assert ("route"%string ∉ columns listings) as H2.
  { apply (bool_decide_unpack _). vm_compute. exact I. }
  split; [reflexivity|]. split; [exact H1|]. split; [exact H2|].
  exact (proj1 (final_column_order Fixture.lib listings listings_final eq_refl H1 H2)).
Defined.

(** * More of the script *)

(** ** Which files a run touches *)

Lemma files_ret {A} (a : A) : keeps_files (mret a).
Proof. done. Qed.
Lemma files_lift {A} (r : result A) : keeps_files (lift r).
Proof. done. Qed.
Lemma files_get_df : keeps_files get_df.
Proof. done. Qed.
Lemma files_set_df d : keeps_files (set_df d).
Proof. done. Qed.
Lemma files_print line : keeps_files (print line).
Proof. done. Qed.
Lemma files_read_csv L path : keeps_files (read_csv L path).
Proof. intros s. unfold read_csv. by destruct (files s !! path). Qed.

Lemma files_bind {A B} (m : M A) (f : A → M B) :
  keeps_files m → (∀ a, keeps_files (f a)) → keeps_files (m ≫= f).
Proof.
  intros Hm Hf s. rewrite bind_run. specialize (Hm s).
  destruct (m s) as [[a|e] s1]; simpl in *; [|done]. by rewrite Hf.
Qed.

Lemma files_keeps_table {A} (m : M A) : keeps_table m → keeps_files m.
Proof. intros H s. apply H. Qed.

#[global] Hint Resolve files_ret files_lift files_get_df files_set_df files_print
  files_read_csv : frame.
#[global] Hint Extern 2 (keeps_files (_ ≫= _)) => apply files_bind; [|intros ?] : frame.

Lemma files_inplace f : keeps_files (inplace f).
Proof. unfold inplace. auto 10 with frame. Qed.

Lemma files_load L : keeps_files (load L).
Proof. unfold load. auto 20 with frame. Qed.

Lemma files_cleaning : keeps_files cleaning.
Proof. unfold cleaning. pose proof files_inplace. auto 30 with frame. Qed.

Lemma files_features : keeps_files features.
Proof. unfold features. auto 40 with frame. Qed.

(** A raise in [m ≫= f] is a raise of [m] or of [f]. *)
Lemma bind_run_Err {A B} (m : M A) (f : A → M B) s e s' :
  (m ≫= f) s = (Err e, s') →
  m s = (Err e, s') ∨ ∃ a s1, m s = (Ok a, s1) ∧ f a s1 = (Err e, s').
Proof.
  rewrite bind_run. destruct (m s) as [[a|e1] s1]; [eauto|].
  intros [= -> ->]. by left.
Qed.

Section RunErrors.
Variable L : library.

(** X1.  The run writes nothing before its last statements: a run that
    raises, be it in the reader, a lookup, the arithmetic or a call that
    draws a chart, leaves every file as it was; and no run touches a file
    other than the output file. *)
Theorem failed_run_writes_nothing (fs : gmap string string) :
  (∀ p, p ≠ output_path → files (run L fs).2 !! p = fs !! p) ∧
  (∀ e, (run L fs).1 = Err e → files (run L fs).2 = fs).
Proof.
  split.
  - intros p Hp.
    destruct (local_main L (mkState (mkDataFrame [] []) fs [])
                (mkState (mkDataFrame [] []) fs [])) as (_ & _ & _ & w & Hw & _);
      [done|].
    unfold run. rewrite Hw. destruct w as [text|]; simpl; [|done].
    by apply lookup_insert_ne.
  - intros e He. unfold run in *.
    set (s0 := mkState (mkDataFrame [] []) fs []) in *.
    destruct (main L s0) as [r s'] eqn:Hrun. simpl in *. subst r.
    change fs with (files s0). unfold main in Hrun.
    apply bind_run_Err in Hrun as [H|([] & s1 & H1 & Hrun)].
    { by rewrite <- (files_load L s0), H. }
    assert (files s1 = files s0) as <- by (by rewrite <- (files_load L s0), H1).
    apply bind_run_Err in Hrun as [H|([] & s2 & H2 & Hrun)].
    { by rewrite <- (files_cleaning s1), H. }
    assert (files s2 = files s1) as <- by (by rewrite <- (files_cleaning s1), H2).
    apply bind_run_Err in Hrun as [H|([] & s3 & H3 & Hrun)].
    { by rewrite <- (files_features s2), H. }
    assert (files s3 = files s2) as <- by (by rewrite <- (files_features s2), H3).
    apply bind_run_Err in Hrun as [H|([] & s4 & H4 & Hrun)].
    { pose proof (keeps_info L s3) as [_ Hf]. by rewrite H in Hf. }
    assert (files s4 = files s3) as <-.
    { pose proof (keeps_info L s3) as [_ Hf]. by rewrite H4 in Hf. }
    apply bind_run_Err in Hrun as [H|([] & s5 & H5 & Hrun)].
    { pose proof (keeps_visualize L s4) as [_ Hf]. by rewrite H in Hf. }
    apply bind_run_Err in Hrun as [H|([] & s6 & H6 & Hrun)].
    { destruct (save_run L s5) as [o Ho]. rewrite Ho in H. done. }
    destruct (closing_run s6) as [o Ho]. rewrite Ho in Hrun. done.
Qed.
End RunErrors.

Lemma filter_nil_Forall (P : string → Prop) `{∀ x, Decision (P x)} (l : list string) :
  filter P l = [] ↔ Forall (λ x, ¬ P x) l.
Proof.
  induction l as [|x l IH]; [done|]. rewrite filter_cons.
  destruct (decide (P x)) as [Hp|Hp].
  - split; [done|]. by inversion 1.
  - rewrite IH. split; [by constructor | by inversion 1].
Qed.

Lemma getitems_Ok d names sub :
  getitems d names = Ok sub → Forall (λ n, n ∈ columns d) names.
Proof.
  unfold getitems.
  destruct (filter (λ n, n ∉ columns d) names) as [|m ms] eqn:E; [|done].
  intros _. apply filter_nil_Forall in E.
  eapply Forall_impl; [exact E|]. intros n Hn. simpl in Hn.
  by destruct (decide (n ∈ columns d)).
Qed.

Lemma pipeline_columns d out' :
  pipeline d = Ok out' →
  Forall (λ n, n ∈ columns out')
    ["duration"; "price"; "price_per_hour"; "source_city"; "destination_city"]%string.
Proof.
  unfold pipeline. intros (c & _ & Hd)%bind_Ok.
  apply derive_Ok in Hd as (price & duration & pph & src & left & dst & route &
                            Hp & Ht & _ & Hs & _ & Hdst & _ & ->).
  apply getitem_Ok_elem in Hp, Ht, Hs, Hdst.
  repeat constructor; rewrite !elem_setitem in *; tauto.
Qed.

(** What [hist] looks at in the table it is given. *)
Lemma getitems_elem d names sub n c :
  getitems d names = Ok sub → n ∈ names → getitem d n = Ok c → (n, c) ∈ data sub.
Proof.
  unfold getitems, getitem.
  destruct (filter (λ n, n ∉ columns d) names); [|done].
  intros [= <-] Hn Hc. simpl. apply list_elem_of_omap. exists n. split; [done|].
  by destruct (assoc n (data d)) as [c'|]; simplify_eq.
Qed.

Lemma hist_rejects_infinite sub n c x :
  hist_rejects sub = false → (n, c) ∈ data sub → x ∈ cells c → is_infinite x = false.
Proof.
  unfold hist_rejects. intros [_ Hex]%orb_false_iff Hin Hx.
  destruct c as [zs|xs|os].
  - simpl in Hx. by apply list_elem_of_fmap in Hx as (z & -> & _).
  - rewrite existsb_false, Forall_forall in Hex.
    specialize (Hex (n, Float64 xs)). simpl in Hex.
    rewrite existsb_false, Forall_forall in Hex. apply Hex; [|done].
    apply list_elem_of_filter. by split.
  - simpl in Hx. apply list_elem_of_fmap in Hx as (o & -> & _). by destruct o.
Qed.

(** What a step that returned has done. *)
Lemma emit_Ok e s a s' : emit e s = (Ok a, s') → df s' = df s.
Proof. by intros [= _ <-]. Qed.

Lemma get_df_Ok s d s' : get_df s = (Ok d, s') → d = df s ∧ s' = s.
Proof. by intros [= <- <-]. Qed.

Lemma lift_Ok {A} (r : result A) s a s' : lift r s = (Ok a, s') → r = Ok a ∧ s' = s.
Proof. by intros [= -> <-]. Qed.

Lemma for_each_Ok {A} (l : list A) (body : A → M unit) (P : A → DataFrame → Prop) s s' :
  (∀ a s1 s2, body a s1 = (Ok (), s2) → df s2 = df s1 ∧ P a (df s1)) →
  for_each l body s = (Ok (), s') → df s' = df s ∧ Forall (λ a, P a (df s)) l.
Proof.
  intros Hb. revert s. induction l as [|a l IH]; intros s; simpl.
  - by intros [= <-].
  - intros ([] & s1 & H1 & H2)%bind_run_Ok.
    destruct (Hb _ _ _ H1) as [E Pa]. destruct (IH _ H2) as [E' Hall].
    rewrite E in *. split; [done | by constructor].
Qed.

Lemma collect_Ok {A B} (l : list A) (body : A → M B) (P : A → DataFrame → Prop)
    s bs s' :
  (∀ a s1 b s2, body a s1 = (Ok b, s2) → df s2 = df s1 ∧ P a (df s1)) →
  collect l body s = (Ok bs, s') → df s' = df s ∧ Forall (λ a, P a (df s)) l.
Proof.
  intros Hb. revert s bs. induction l as [|a l IH]; intros s bs; simpl.
  - by intros [= _ <-].
  - intros (b & s1 & H1 & H2)%bind_run_Ok.
    apply bind_run_Ok in H2 as (bs' & s2 & H2 & [= _ <-]).
    destruct (Hb _ _ _ _ H1) as [E Pa]. destruct (IH _ _ H2) as [E' Hall].
    rewrite E in *. split; [done | by constructor].
Qed.

Section Charts.
Variable L : library.

Lemma hist_Ok sub bins : hist L sub bins = Ok () → hist_rejects sub = false.
Proof. unfold hist. by destruct (hist_rejects sub). Qed.

Lemma visualize_Ok s s' :
  visualize L s = (Ok (), s') →
  Forall (λ n, n ∈ columns (df s)) (numeric_cols ++ categorical_cols) ∧
  charts_return L (df s).
Proof.
  unfold visualize. intros H.
  apply bind_run_Ok in H as (? & s1 & E1%emit_Ok & H).
  apply bind_run_Ok in H as (? & ? & [-> ->]%get_df_Ok & H).
  apply bind_run_Ok in H as (sub & ? & [Hsub ->]%lift_Ok & H).
  apply bind_run_Ok in H as ([] & ? & [Hh ->]%lift_Ok & H).
  apply bind_run_Ok in H as (? & s2 & E2%emit_Ok & H).
  apply bind_run_Ok in H as (? & s3 & E3%emit_Ok & H).
  apply bind_run_Ok in H as ([] & s4 & Hcat & H).
  apply (for_each_Ok _ _ (λ col d, ∃ y, getitem d col = Ok y ∧
           draw L (CountPlot y (value_counts_index L y)) = Ok ())) in Hcat
    as [E4 Hcat].
  2:{ intros col t1 t2 Hb.
      apply bind_run_Ok in Hb as (? & ? & [-> ->]%get_df_Ok & Hb).
      apply bind_run_Ok in Hb as (y & ? & [Hy ->]%lift_Ok & Hb).
      apply bind_run_Ok in Hb as ([] & ? & [Hd ->]%lift_Ok & Hb%emit_Ok).
      eauto. }
  apply bind_run_Ok in H as (? & s5 & E5%emit_Ok & H).
  apply bind_run_Ok in H as (? & ? & [-> ->]%get_df_Ok & H).
  apply bind_run_Ok in H as (sub' & ? & [Hsub' ->]%lift_Ok & H).
  apply bind_run_Ok in H as (m & ? & [Hm ->]%lift_Ok & H).
  apply bind_run_Ok in H as ([] & ? & [Hheat ->]%lift_Ok & H).
  apply bind_run_Ok in H as (? & s6 & E6%emit_Ok & H).
  apply bind_run_Ok in H as (? & s7 & E7%emit_Ok & H).
  apply bind_run_Ok in H as (? & ? & [-> ->]%get_df_Ok & H).
  apply bind_run_Ok in H as ([] & ? & [Hb1 ->]%lift_Ok & H).
  apply bind_run_Ok in H as (? & s8 & E8%emit_Ok & H).
  apply bind_run_Ok in H as (? & ? & [-> ->]%get_df_Ok & H).
  apply bind_run_Ok in H as ([] & ? & [Hb2 ->]%lift_Ok & H).
  apply bind_run_Ok in H as (? & s9 & E9%emit_Ok & H).
  apply bind_run_Ok in H as (? & s10 & E10%emit_Ok & H).
  apply bind_run_Ok in H as (panels & s11 & Hbox & _).
  apply (collect_Ok _ _ (λ col d, ∃ x, getitem d col = Ok x ∧
           draw L (Box x) = Ok ())) in Hbox as [_ Hbox].
  2:{ intros col t1 b t2 Hb.
      apply bind_run_Ok in Hb as (? & ? & [-> ->]%get_df_Ok & Hb).
      apply bind_run_Ok in Hb as (c & ? & [Hc ->]%lift_Ok & Hb).
      apply bind_run_Ok in Hb as ([] & ? & [Hd ->]%lift_Ok & [= _ <-]).
      eauto. }
  assert (df s3 = df s) as D3 by congruence.
  assert (df s5 = df s) as D5 by congruence.
  assert (df s7 = df s) as D7 by congruence.
  assert (df s8 = df s) as D8 by congruence.
  assert (df s10 = df s) as D10 by congruence.
  rewrite E1 in Hsub. rewrite D3 in Hcat. rewrite D5 in Hsub'.
  rewrite D7 in Hb1. rewrite D8 in Hb2. rewrite D10 in Hbox.
  assert (sub' = sub) as -> by congruence.
  rewrite Forall_forall in Hcat, Hbox.
  split; [|split; [|split; [|split; [|split]]]]; try done.
  - apply Forall_app. split; [by eapply getitems_Ok|].
    apply Forall_forall. intros col (y & Hy & _)%Hcat. by eapply getitem_Ok_elem.
  - intros sub' Hs'. rewrite Hsub in Hs'. injection Hs' as <-. eauto.
  - intros col c (c' & Hc' & Hd)%Hcat Hc. congruence.
  - intros col c (c' & Hc' & Hd)%Hbox Hc. congruence.
Qed.

(** The histogram lookup is the first to fail, with all the numeric columns
    that are missing. *)
Lemma visualize_missing_numeric s m ms :
  filter (λ n, n ∉ columns (df s)) numeric_cols = m :: ms →
  visualize L s
  = (Err (KeyError (m :: ms)),
     mkState (df s) (files s)
       (out s ++ [Stdout (newline +:+ "Generating numerical features histograms...")])).
Proof.
  intros H. unfold visualize. exec. unfold getitems. by rewrite H.
Qed.

(** The histograms are refused when none of the four columns is of
    numbers, or one of them has an infinite entry. *)
Lemma visualize_hist_rejects s sub :
  getitems (df s) numeric_cols = Ok sub → hist_rejects sub = true →
  visualize L s
  = (Err ValueError,
     mkState (df s) (files s)
       (out s ++ [Stdout (newline +:+ "Generating numerical features histograms...")])).
Proof.
  intros Hsub Hrej. unfold visualize. exec. rewrite Hsub. exec.
  unfold hist. by rewrite Hrej.
Qed.

(** X2.  A run returns exactly when the input file is there and is read, the
    cleaning and the features raise nothing, the table has the five
    columns that only the charts look up and every call that draws a chart
    returns.  The histograms are among these calls, so in a run that returns
    no price per hour is infinite. *)
Theorem run_returns_iff (fs : gmap string string) :
  ((run L fs).1 = Ok () ↔
   ∃ text d out',
     fs !! input_path = Some text ∧ parse_csv L text = Ok d ∧
     pipeline d = Ok out' ∧ Forall (λ n, n ∈ columns out') chart_cols ∧
     charts_return L out') ∧
  ((run L fs).1 = Ok () →
   ∀ pph x, getitem (df (run L fs).2) "price_per_hour" = Ok pph →
            x ∈ cells pph → is_infinite x = false).
Proof.
  assert (∀ s', run L fs = (Ok (), s') →
            Forall (λ n, n ∈ columns (df s')) (numeric_cols ++ categorical_cols) ∧
            charts_return L (df s')) as Hcharts.
  { intros s' Hrun. unfold run, main in Hrun.
    apply bind_run_Ok in Hrun as ([] & s1 & _ & H).
    apply bind_run_Ok in H as ([] & s2 & _ & H).
    apply bind_run_Ok in H as ([] & s3 & _ & H).
    apply bind_run_Ok in H as ([] & s4 & _ & H).
    apply bind_run_Ok in H as ([] & s5 & H5 & H).
    apply bind_run_Ok in H as ([] & s6 & H6 & H7).
    assert (df s' = df s4) as ->; [|by eapply visualize_Ok].
    pose proof (keeps_visualize L s4) as [Hd5 _]. rewrite H5 in Hd5.
    destruct (save_run L s5) as [o6 Hs6]. rewrite Hs6 in H6. injection H6 as <-.
    match type of H7 with
    | closing ?st = _ => pose proof (keeps_closing st) as [Hd7 _]
    end.
    rewrite H7 in Hd7. simpl in *. congruence. }
  split; [split|].
  - intros Hr. destruct (run L fs) as [r s'] eqn:Hrun. simpl in Hr. subst r.
    destruct (run_Ok L fs s' Hrun) as (text & d & Hf & Hp & Hpipe & _).
    destruct (Hcharts s' eq_refl) as [Hcols Hdraw].
    exists text, d, (df s'). do 3 (split; [done|]). split; [|done].
    rewrite Forall_forall in Hcols. apply Forall_forall. intros n Hn.
    apply Hcols. unfold chart_cols in Hn. rewrite !elem_of_cons in Hn.
    destruct Hn as [->|[->|[->|[->|[->|Hn]]]]]; [in_list..|by apply elem_of_nil in Hn].
  - intros (text & d & out' & Hf & Hp & Hpipe & Hcols & Hdraw).
    destruct (run_returns L fs text d out' Hf Hp Hpipe) as [o Ho];
      [|done|by rewrite Ho].
    pose proof (pipeline_columns _ _ Hpipe) as Hpc.
    rewrite Forall_forall in Hcols, Hpc. apply Forall_forall. intros n Hn.
    unfold numeric_cols, categorical_cols in Hn. simpl in Hn.
    rewrite !elem_of_cons in Hn.
    destruct Hn as [->|[->|[->|[->|[->|[->|[->|[->|[->|[->|Hn]]]]]]]]]];
      try (apply Hcols; in_list); try (apply Hpc; in_list).
    by apply elem_of_nil in Hn.
  - intros Hr pph x Hpph Hx.
    destruct (run L fs) as [r s'] eqn:Hrun. simpl in *. subst r.
    destruct (Hcharts s' eq_refl) as [Hcols (Hnum & _)].
    apply (Forall_app _ numeric_cols categorical_cols) in Hcols as [Hcols _].
    assert (∃ sub, getitems (df s') numeric_cols = Ok sub) as [sub Hsub].
    { unfold getitems.
      assert (filter (λ n, n ∉ columns (df s')) numeric_cols = []) as ->; [|eauto].
      apply filter_nil_Forall. eapply Forall_impl; [exact Hcols|].
      intros n Hn Hnot. by apply Hnot. }
    destruct (Hnum sub Hsub) as [Hh%hist_Ok _].
    eapply hist_rejects_infinite; [exact Hh| |exact Hx].
    eapply getitems_elem; [exact Hsub| |exact Hpph]. in_list.
Qed.
End Charts.

Section Aborts.
Variable L : library.

(** X3.  Without the input file the run raises [FileNotFoundError], and an
    exception of the reader is passed on; either way three lines have been
    printed, no table is held and no file is written. *)
Theorem unreadable_input_raises (fs : gmap string string) e :
  (fs !! input_path = None ∧ e = FileNotFoundError input_path) ∨
  (∃ text, fs !! input_path = Some text ∧ parse_csv L text = Err e) →
  run L fs
  = (Err e,
     mkState (mkDataFrame [] []) fs
       [Stdout "Starting Airlines Flight Data EDA..."; Stdout rule;
        Stdout "Loading data..."]).
Proof.
  intros H. unfold run, main, load, read_csv. exec.
  destruct H as [[-> ->]|(text & -> & ->)]; done.
Qed.

(** X4.  A table with [index] but without [stops] makes the run raise [KeyError]
    at line 33; by then [index] is dropped from the table, and no file is
    written. *)
Theorem missing_stops_raises fs text d :
  fs !! input_path = Some text → parse_csv L text = Ok d →
  "index"%string ∈ columns d → "stops"%string ∉ columns d →
  ∃ o, run L fs = (Err (KeyError ["stops"%string]), mkState (dropped d) fs o).
Proof.
  intros Hf Hp Hidx Hstops. unfold run, main.
  destruct (load_run L (mkState (mkDataFrame [] []) fs []) text d Hf Hp) as [o1 H1].
  rewrite (bind_step _ _ _ _ _ H1).
  erewrite bind_raise; [eauto|].
  unfold cleaning, inplace. exec.
  rewrite (drop_present _ _ Hidx). exec. fold (dropped d).
  assert (getitem (dropped d) "stops" = Err (KeyError ["stops"%string])) as ->; [|done].
  rewrite getitem_dropped by done. unfold getitem.
  by rewrite (proj2 (assoc_None _ _) Hstops).
Qed.

(** X5.  A table that passes the cleaning and the features but has no column
    [days_left] makes the run raise [KeyError] at the first chart: the final
    table is computed, nothing is drawn and no CSV is written. *)
Theorem missing_days_left_raises fs text d out' :
  fs !! input_path = Some text → parse_csv L text = Ok d →
  pipeline d = Ok out' → "days_left"%string ∉ columns out' →
  ∃ o, run L fs = (Err (KeyError ["days_left"%string]), mkState out' fs o).
Proof.
  intros Hf Hp Hpipe Hdays. pose proof Hpipe as (c & Hc & Hout)%bind_Ok.
  unfold run, main.
  destruct (load_run L (mkState (mkDataFrame [] []) fs []) text d Hf Hp) as [o1 H1].
  rewrite (bind_step _ _ _ _ _ H1).
  destruct (cleaning_run (mkState d fs o1) c Hc) as [o2 H2].
  rewrite (bind_step _ _ _ _ _ H2).
  destruct (features_run (mkState c fs o2) out' Hout) as [o3 H3].
  rewrite (bind_step _ _ _ _ _ H3).
  destruct (info_run L (mkState out' fs o3)) as [o4 H4].
  rewrite (bind_step _ _ _ _ _ H4).
  assert (filter (λ n, n ∉ columns out') numeric_cols = ["days_left"%string]) as Hmiss.
  { pose proof (pipeline_columns _ _ Hpipe) as Hpc. rewrite Forall_forall in Hpc.
    unfold numeric_cols. rewrite !filter_cons, filter_nil.
    destruct (decide ("duration"%string ∉ columns out')) as [Hn|_];
      [destruct Hn; apply Hpc; in_list|].
    destruct (decide ("days_left"%string ∉ columns out')) as [_|Hn]; [|done].
    destruct (decide ("price"%string ∉ columns out')) as [Hn|_];
      [destruct Hn; apply Hpc; in_list|].
    destruct (decide ("price_per_hour"%string ∉ columns out')) as [Hn|_];
      [destruct Hn; apply Hpc; in_list|].
    done. }
  erewrite bind_raise; [eauto|]. by apply visualize_missing_numeric.
Qed.
End Aborts.

Lemma length_select_negb {A} (m : list bool) (xs : list A) :
  length m = length xs →
  (length (select (negb <$> m) xs) + marked m = length xs)%nat.
Proof.
  unfold marked. revert xs. induction m as [|b m IH]; intros [|x xs]; csimpl; try done.
  intros [= H]. specialize (IH xs H). rewrite filter_cons.
  destruct (decide (b = true)) as [->|Hb]; simpl; [lia|].
  destruct b; [done|]. simpl. lia.
Qed.

Lemma len_setitem d name c : len (setitem d name c) = len d.
Proof. unfold len. by rewrite index_setitem. Qed.

Lemma length_duplicated d : wf d → length (duplicated d) = len d.
Proof.
  intros Hwf. unfold duplicated. by rewrite length_duplicated_from, length_rows.
Qed.

Lemma wf_stops_set d s0 :
  wf d → getitem d "stops" = Ok s0 →
  wf (setitem (dropped d) "stops" (map_dict stops_codes s0)).
Proof.
  intros Hwf Hs. apply wf_setitem; [by apply wf_dropped|].
  rewrite col_len_map_dict. by apply (wf_len d "stops").
Qed.

(** X6.  The count that line 38 prints is the number of rows marked as
    duplicates, and the rows kept and the rows counted make up the loaded
    rows. *)
Theorem removed_count_reported s c s0 :
  wf (df s) → clean (df s) = Ok c → getitem (df s) "stops" = Ok s0 →
  let k := marked (duplicated (setitem (dropped (df s)) "stops"
                                 (map_dict stops_codes s0))) in
  cleaning s
  = (Ok (), mkState c (files s)
              (out s ++ [Stdout "Cleaning data...";
                         Stdout ("Removed " +:+ pretty k +:+ " duplicate rows")])) ∧
  (len c + k = len (df s))%nat.
Proof.
  intros Hwf Hclean Hs0 k.
  apply clean_Ok in Hclean as (Hidx & s0' & Hs0' & ->).
  rewrite Hs0 in Hs0'. injection Hs0' as <-.
  set (d2 := setitem (dropped (df s)) "stops" (map_dict stops_codes s0)) in *.
  assert (wf d2) as Hwf2 by (by apply wf_stops_set).
  assert (len d2 = len (df s)) as Hlen by (unfold d2; by rewrite len_setitem).
  assert (len (drop_duplicates d2) + k = len (df s))%nat as Hk.
  { rewrite drop_duplicates_mask by (done || apply setitem_columns_ne).
    rewrite <- Hlen. unfold len, loc_mask. cbn [index].
    apply length_select_negb. rewrite length_duplicated by done. done. }
  split; [|done].
  unfold cleaning, inplace. exec.
  rewrite (drop_present _ _ Hidx). exec. fold (dropped (df s)).
  rewrite getitem_dropped, Hs0 by done. exec. fold d2.
  replace (len d2 - len (drop_duplicates d2))%nat with k by lia.
  unfold print, emit. simpl. by rewrite <- app_assoc.
Qed.

(** ** What the cleaning and the features leave alone *)

(** X7.  Every column other than [index], [stops] and the two derived ones goes
    through the run with its entries untouched: the final table holds, under
    the same name, the entries of the rows kept, and the labels of those
    rows. *)
Theorem other_columns_filtered d out' :
  wf d → pipeline d = Ok out' →
  ∃ keep,
    length keep = len d ∧
    index out' = select keep (index d) ∧
    ∀ n col,
      n ∉ ["index"; "stops"; "price_per_hour"; "route"]%string →
      getitem d n = Ok col → getitem out' n = Ok (col_select keep col).
Proof.
  unfold pipeline. intros Hwf (c & Hclean & Hderive)%bind_Ok.
  apply clean_Ok in Hclean as (_ & s0 & Hs0 & ->).
  set (d2 := setitem (dropped d) "stops" (map_dict stops_codes s0)) in *.
  assert (wf d2) as Hwf2 by (by apply wf_stops_set).
  rewrite drop_duplicates_mask in Hderive by (done || apply setitem_columns_ne).
  apply derive_Ok in Hderive as (price & duration & pph & src & left & dst & route &
                                 _ & _ & _ & _ & _ & _ & _ & ->).
  exists (negb <$> duplicated d2). split; [|split].
  - rewrite length_fmap, length_duplicated by done. unfold d2. by rewrite len_setitem.
  - rewrite !index_setitem. unfold loc_mask, d2. cbn [index]. by rewrite index_setitem.
  - intros n col Hn Hcol. rewrite !not_elem_of_cons in Hn.
    destruct Hn as (Hn1 & Hn2 & Hn3 & Hn4 & _).
    rewrite !getitem_setitem_ne, getitem_loc_mask by done.
    unfold d2. by rewrite getitem_setitem_ne, getitem_dropped, Hcol by done.
Qed.

(** X8.  The first row of a table is never a duplicate: the cleaning keeps it,
    under its label, so a table with rows is left with rows. *)
Theorem first_row_kept d c l ls :
  wf d → clean d = Ok c → index d = l :: ls →
  ∃ ls', index c = l :: ls' ∧ (0 < len c)%nat.
Proof.
  intros Hwf (_ & s0 & Hs0 & ->)%clean_Ok Hidx.
  set (d2 := setitem (dropped d) "stops" (map_dict stops_codes s0)) in *.
  assert (wf d2) as Hwf2 by (by apply wf_stops_set).
  rewrite drop_duplicates_mask by (done || apply setitem_columns_ne).
  assert (index d2 = l :: ls) as Hidx2 by (unfold d2; by rewrite index_setitem).
  pose proof (length_rows d2 Hwf2) as Hrows. unfold len in Hrows.
  rewrite Hidx2 in Hrows. unfold duplicated.
  destruct (rows d2) as [|r rs]; [done|]. unfold loc_mask, len. cbn [index].
  rewrite Hidx2. csimpl. eexists. split; [done|]. simpl. lia.
Qed.

(** ** Removing duplicates twice *)

Lemma duplicated_from_dupfree seen rs :
  Forall (λ r, existsb (row_eqb r) seen = false) rs → dupfree rs →
  duplicated_from seen rs = replicate (length rs) false.
Proof.
  revert seen. induction rs as [|r rs IH]; intros seen Hseen Hdup; simpl; [done|].
  inversion Hseen as [|?? Hr Hrs]; subst. rewrite Hr. f_equal. apply IH.
  - rewrite Forall_forall in Hrs. apply Forall_forall. intros r' Hr'.
    rewrite existsb_app, (Hrs r' Hr'). simpl. rewrite orb_false_r.
    apply list_elem_of_lookup in Hr' as [j Hj].
    rewrite row_eqb_sym. by apply (Hdup 0%nat (S j)); [lia|..].
  - intros i j r1 r2 Hij Hi Hj. by apply (Hdup (S i) (S j)); [lia|..].
Qed.

Lemma loc_mask_all d m :
  wf d → length m = len d → Forall (λ b, b = true) m → loc_mask d m = d.
Proof.
  intros [_ Hlen] Hm Hall. destruct d as [idx cols]. unfold loc_mask, len in *.
  simpl in *. f_equal; [by apply select_all|].
  induction Hlen as [|[k c] l Hc _ IH]; csimpl; [done|]. rewrite IH. f_equal. f_equal.
  simpl in Hc. unfold col_len in Hc.
  destruct c; simpl in *; rewrite length_fmap in Hc; f_equal; apply select_all;
    congruence.
Qed.

(** X9.  Removing duplicates is idempotent: from a table already rid of them a
    second [drop_duplicates] removes nothing. *)
Theorem drop_duplicates_idempotent d :
  wf d → drop_duplicates (drop_duplicates d) = drop_duplicates d.
Proof.
  intros Hwf. pose proof (wf_drop_duplicates d Hwf) as Hwf'.
  unfold drop_duplicates at 1.
  destruct (is_empty (drop_duplicates d)) eqn:E; [done|].
  assert (columns (drop_duplicates d) ≠ []) as Hcols.
  { unfold is_empty in E. apply orb_false_iff in E as [_ E].
    apply Nat.eqb_neq in E. unfold columns. intros H. apply E.
    by rewrite <- (length_fmap fst), H. }
  assert (dupfree (rows (drop_duplicates d))) as Hdup.
  { apply drop_duplicates_dupfree; [done|]. by rewrite columns_drop_duplicates in Hcols. }
  apply loc_mask_all; [done| |].
  - by rewrite length_fmap, length_duplicated.
  - unfold duplicated. rewrite duplicated_from_dupfree; [|by apply Forall_true|done].
    apply Forall_fmap, Forall_forall. by intros b [-> _]%elem_of_replicate.
Qed.

(** ** The dtype of the mapped column *)

Lemma dict_get_category x : is_Some (dict_get stops_codes x) ↔ is_category x.
Proof.
  unfold is_category. rewrite !elem_of_cons. destruct x as [z|f|s]; simpl.
  - split; [by intros [? ?]|]. intros [?|[?|[?|?%elem_of_nil]]]; done.
  - split; [by intros [? ?]|]. intros [?|[?|[?|?%elem_of_nil]]]; done.
  - destruct (String.eqb_spec s "zero") as [->|H0]; [split; eauto|].
    destruct (String.eqb_spec s "one") as [->|H1]; [split; eauto|].
    destruct (String.eqb_spec s "two_or_more") as [->|H2]; [split; eauto 10|].
    split; [by intros [? ?]|].
    intros [?|[?|[?|?%elem_of_nil]]]; try done; congruence.
Qed.

Lemma all_some_Forall {A} (l : list (option A)) :
  is_Some (all_some l) ↔ Forall is_Some l.
Proof.
  induction l as [|[a|] l IH]; simpl.
  - split; [constructor | eauto].
  - destruct (all_some l) as [zs|]; simpl.
    + split; [|eauto]. intros _. constructor; [eauto|]. apply IH. eauto.
    + split; [by intros [? ?]|]. inversion 1 as [|?? _ Hl]; subst.
      apply IH in Hl as [? ?]. done.
  - split; [by intros [? ?]|]. inversion 1 as [|?? [? ?] _]; done.
Qed.

(** X10.  The cleaned [stops] column is [int64] exactly when every entry of the
    loaded column, in the rows removed as well, is one of the three
    categories; a single other entry makes it [float64]. *)
Theorem stops_dtype d c s0 s :
  wf d → clean d = Ok c → getitem d "stops" = Ok s0 → getitem c "stops" = Ok s →
  (Forall is_category (cells s0) → ∃ zs, s = Int64 zs) ∧
  (¬ Forall is_category (cells s0) → ∃ xs, s = Float64 xs).
Proof.
  intros Hwf (_ & s0' & Hs0 & ->)%clean_Ok Hs0' Hs.
  rewrite Hs0 in Hs0'. injection Hs0' as ->.
  set (d2 := setitem (dropped d) "stops" (map_dict stops_codes s0)) in *.
  rewrite drop_duplicates_mask in Hs
    by (by apply wf_stops_set || apply setitem_columns_ne).
  rewrite getitem_loc_mask in Hs. unfold d2 in Hs at 2.
  rewrite getitem_setitem_eq in Hs. injection Hs as <-.
  assert (is_Some (all_some (dict_get stops_codes <$> cells s0))
          ↔ Forall is_category (cells s0)) as Hiff.
  { rewrite all_some_Forall, Forall_fmap. apply Forall_iff. intros x.
    apply dict_get_category. }
  unfold map_dict.
  destruct (all_some (dict_get stops_codes <$> cells s0)) as [zs|] eqn:E; simpl.
  - split; [eauto|]. intros Hn. destruct Hn. apply Hiff. eauto.
  - split; [|eauto]. intros [? ?]%Hiff. done.
Qed.

(** ** The shape of the final table *)

Lemma length_filter_remove (x : string) (l : list string) :
  NoDup l → x ∈ l → (length (filter (λ n, n ≠ x) l) + 1 = length l)%nat.
Proof.
  induction 1 as [|y l Hy Hnd IH]; [by intros ?%elem_of_nil|].
  rewrite filter_cons. intros [->|Hin]%elem_of_cons.
  - destruct (decide (y ≠ y)) as [?|_]; [done|].
    assert (filter (λ n, n ≠ y) l = l) as ->; [|simpl; lia].
    clear IH Hnd. induction l as [|z l IH]; [done|].
    rewrite not_elem_of_cons in Hy. destruct Hy as [Hzy Hy].
    rewrite filter_cons. destruct (decide (z ≠ y)) as [_|Hn]; [by rewrite IH|].
    destruct Hn. congruence.
  - destruct (decide (y ≠ x)) as [_|Hn].
    + simpl. specialize (IH Hin). lia.
    + destruct (decide (y = x)) as [->|?]; done.
Qed.

Lemma length_select_le {A} m (xs : list A) : (length (select m xs) ≤ length xs)%nat.
Proof.
  revert xs. induction m as [|b m IH]; intros [|x xs]; simpl; try lia.
  specialize (IH xs). destruct b; simpl; lia.
Qed.

Lemma len_drop_duplicates d : (len (drop_duplicates d) ≤ len d)%nat.
Proof.
  unfold drop_duplicates. destruct (is_empty d); [done|].
  unfold loc_mask, len. cbn [index]. apply length_select_le.
Qed.

(** X11.  The final table has no more rows than the loaded one, and, for a loaded
    table without columns named [price_per_hour] and [route], one column
    more: [index] is gone and the two derived columns are there. *)
Theorem final_shape d out' :
  wf d → pipeline d = Ok out' →
  "price_per_hour"%string ∉ columns d → "route"%string ∉ columns d →
  (len out' ≤ len d)%nat ∧
  length (columns out') = (length (columns d) + 1)%nat.
Proof.
  intros [Hnd _] Hpipe Hpph Hroute. split.
  - unfold pipeline in Hpipe. apply bind_Ok in Hpipe as (c & Hclean & Hderive).
    apply clean_Ok in Hclean as (_ & s0 & _ & ->).
    apply derive_Ok in Hderive as (price & duration & pph & src & left & dst & route &
                                   _ & _ & _ & _ & _ & _ & _ & ->).
    rewrite !len_setitem. etransitivity; [apply len_drop_duplicates|].
    by rewrite len_setitem.
  - rewrite (columns_pipeline _ _ Hpipe) by done.
    assert ("index"%string ∈ columns d) as Hidx.
    { unfold pipeline in Hpipe. apply bind_Ok in Hpipe as (c & Hclean & _).
      by apply clean_Ok in Hclean as (? & _). }
    pose proof (length_filter_remove _ _ Hnd Hidx). rewrite length_app. simpl. lia.
Qed.

(** ** The selection of columns, [df[[...]]] *)

Lemma assoc_omap (d : list (string * column)) names n :
  n ∈ names → Forall (λ m, m ∈ d.*1) names →
  assoc n (omap (λ m, (λ c, (m, c)) <$> assoc m d) names) = assoc n d.
Proof.
  intros Hn Hall. induction Hall as [|m names Hm _ IH]; [by apply elem_of_nil in Hn|].
  csimpl. destruct (assoc m d) as [c|] eqn:E.
  - csimpl. destruct (String.eqb_spec n m) as [->|Hne]; [done|].
    apply IH. apply elem_of_cons in Hn as [?|?]; done.
  - by apply assoc_None in E.
Qed.

(** X12.  [df[[names]]] is the table of the columns asked for, in the order asked
    for, with the rows and the entries of [df]; when some are missing it
    raises [KeyError] with all the missing names, and only then. *)
Theorem getitems_selects d names :
  (Forall (λ n, n ∈ columns d) names →
   ∃ sub, getitems d names = Ok sub ∧
          columns sub = names ∧ index sub = index d ∧
          ∀ n, n ∈ names → getitem sub n = getitem d n) ∧
  (¬ Forall (λ n, n ∈ columns d) names →
   getitems d names = Err (KeyError (filter (λ n, n ∉ columns d) names))).
Proof.
  unfold getitems. split.
  - intros Hall.
    assert (filter (λ n, n ∉ columns d) names = []) as ->.
    { apply filter_nil_Forall. eapply Forall_impl; [exact Hall|].
      intros n Hn Hnot. done. }
    eexists. split; [done|]. split; [|split; [done|]].
    + unfold columns at 1. cbn [data]. clear -Hall.
      induction Hall as [|m names Hm _ IH]; [done|]. csimpl.
      destruct (assoc m (data d)) as [c|] eqn:E; [csimpl; by rewrite IH|].
      by apply assoc_None in E.
    + intros n Hn. unfold getitem. cbn [data]. by rewrite assoc_omap.
  - intros Hnot.
    destruct (filter (λ n, n ∉ columns d) names) as [|m ms] eqn:E; [|done].
    destruct Hnot. apply filter_nil_Forall in E.
    eapply Forall_impl; [exact E|]. intros n Hn. simpl in Hn.
    by destruct (decide (n ∈ columns d)).
Qed.

(** ** A table without rows *)

Lemma getitems_all d names (c : string → column) :
  Forall (λ n, getitem d n = Ok (c n)) names →
  getitems d names = Ok (mkDataFrame (index d) ((λ n, (n, c n)) <$> names)).
Proof.
  intros Hall. unfold getitems.
  assert (filter (λ n, n ∉ columns d) names = []) as ->.
  { apply filter_nil_Forall. eapply Forall_impl; [exact Hall|].
    intros n Hn Hnot. simpl in Hn. apply Hnot. by apply getitem_Ok_elem in Hn. }
  do 2 f_equal. induction Hall as [|n names Hn _ IH]; [done|].
  csimpl. unfold getitem in Hn.
  destruct (assoc n (data d)) as [c'|]; [|done]. injection Hn as ->.
  csimpl. by rewrite IH.
Qed.

Section NoRows.
Variable L : library.

(** X13.  A file of the header alone does not go through.  The reader makes
    every column of such a file an [object] column without entries.  The
    cleaning and the features raise nothing and leave a table without rows,
    but none of the four columns of the histograms is then a column of
    numbers: the run raises [ValueError] at line 52, and no CSV is
    written. *)
Theorem header_only_input fs text d :
  fs !! input_path = Some text → parse_csv L text = Ok d →
  len d = 0%nat →
  "index"%string ∈ columns d → "stops"%string ∈ columns d →
  Forall (λ n, getitem d n = Ok (Object []))
    ["price"; "duration"; "days_left"; "source_city"; "destination_city"]%string →
  ∃ out' o,
    pipeline d = Ok out' ∧ len out' = 0%nat ∧
    Forall (λ n, getitem out' n = Ok (Object [])) numeric_cols ∧
    run L fs = (Err ValueError, mkState out' fs o).
Proof.
  intros Hf Hparse Hlen Hidx Hstops Hcols. rewrite Forall_forall in Hcols.
  destruct (getitem_elem_Ok d "stops" Hstops) as [s0 Hs0].
  set (c := setitem (dropped d) "stops" (map_dict stops_codes s0)).
  assert (len c = 0%nat) as Hlc by (unfold c; rewrite len_setitem; exact Hlen).
  assert (clean d = Ok c) as Hclean.
  { apply clean_Ok. split; [done|]. exists s0. split; [done|].
    fold c. unfold drop_duplicates, is_empty. by rewrite Hlc. }
  assert (∀ n, n ∈ ["price"; "duration"; "days_left"; "source_city";
                    "destination_city"]%string →
            getitem c n = Ok (Object [])) as Hc.
  { intros n Hn. unfold c. rewrite getitem_setitem_ne, getitem_dropped.
    - by apply Hcols.
    - intros ->. revert Hn. apply (bool_decide_unpack _). vm_compute. exact I.
    - intros ->. revert Hn. apply (bool_decide_unpack _). vm_compute. exact I. }
  set (out' := setitem (setitem c "price_per_hour" (Object [])) "route" (Object [])).
  assert (derive c = Ok out') as Hderive.
  { apply derive_Ok.
    exists (Object []), (Object []), (Object []), (Object []), (Object []),
      (Object []), (Object []).
    rewrite !getitem_setitem_ne by done.
    rewrite (Hc "price"%string), (Hc "duration"%string),
      (Hc "source_city"%string), (Hc "destination_city"%string) by in_list.
    by repeat split. }
  assert (pipeline d = Ok out') as Hpipe.
  { unfold pipeline. by rewrite Hclean. }
  assert (Forall (λ n, getitem out' n = Ok (Object [])) numeric_cols) as Hnum.
  { unfold out'. repeat constructor.
    - rewrite !getitem_setitem_ne by done. apply Hc. in_list.
    - rewrite !getitem_setitem_ne by done. apply Hc. in_list.
    - rewrite !getitem_setitem_ne by done. apply Hc. in_list.
    - rewrite getitem_setitem_ne by done. apply getitem_setitem_eq. }
  assert (∃ o, run L fs = (Err ValueError, mkState out' fs o)) as [o Ho].
  { unfold run, main.
    destruct (load_run L (mkState (mkDataFrame [] []) fs []) text d Hf Hparse)
      as [o1 H1].
    rewrite (bind_step _ _ _ _ _ H1).
    destruct (cleaning_run (mkState d fs o1) c Hclean) as [o2 H2].
    rewrite (bind_step _ _ _ _ _ H2).
    destruct (features_run (mkState c fs o2) out' Hderive) as [o3 H3].
    rewrite (bind_step _ _ _ _ _ H3).
    destruct (info_run L (mkState out' fs o3)) as [o4 H4].
    rewrite (bind_step _ _ _ _ _ H4).
    erewrite bind_raise; [eauto|].
    eapply visualize_hist_rejects; [exact (getitems_all _ _ _ Hnum)|done]. }
  exists out', o. split; [done|]. split; [|done].
  unfold out', len. rewrite !index_setitem. exact Hlc.
Qed.
End NoRows.

(** ** A price that is text *)

Lemma traverse_Err {A B} (f : A → result B) l e :
  traverse f l = Err e → ∃ a, a ∈ l ∧ f a = Err e.
Proof.
  induction l as [|a l IH]; simpl; [done|].
  destruct (f a) as [b|e'] eqn:Ea; simpl.
  - destruct (traverse f l) as [bs|e'']; simpl; [done|].
    intros [= ->]. destruct IH as (a' & Hin & Ha'); [done|].
    exists a'. split; [by right | done].
  - intros [= ->]. exists a. split; [by left | done].
Qed.

Lemma traverse_fails {A B} (f : A → result B) l i a e :
  l !! i = Some a → f a = Err e → ∃ e', traverse f l = Err e'.
Proof.
  intros Hi Ha. destruct (traverse f l) as [bs|e'] eqn:E; [|eauto].
  destruct (traverse_lookup _ _ _ _ _ E Hi) as (b & _ & Hb). congruence.
Qed.

(** Without a zero divisor, [/] on a pair of entries raises nothing but
    [TypeError]. *)
Lemma py_truediv_Err x y e :
  is_zero_number y = false → py_truediv x y = Err e → e = TypeError.
Proof.
  intros Hz. unfold py_truediv. rewrite Hz.
  destruct x, y; try done; by intros [= <-].
Qed.

Lemma traverse_raises {A B} (f : A → result B) l i a e :
  (∀ a' e', a' ∈ l → f a' = Err e' → e' = e) →
  l !! i = Some a → f a = Err e → traverse f l = Err e.
Proof.
  intros Hall Hi Ha. destruct (traverse_fails f l i a e Hi Ha) as [e' He'].
  rewrite He'. apply traverse_Err in He' as (a' & Hin & Ha'). f_equal. eauto.
Qed.

(** X14.  A price that is text in a row whose duration is known aborts the
    features: when no duration is zero, the division raises [TypeError]. *)
Theorem text_price_raises c xs t i s y :
  getitem c "price" = Ok (Object xs) → getitem c "duration" = Ok t →
  xs !! i = Some (Some s) → cells t !! i = Some y → isna y = false →
  Forall (λ y, is_zero_number y = false) (cells t) →
  truediv (Object xs) t = Err TypeError ∧ derive c = Err TypeError.
Proof.
  intros Hp Ht Hx Hy Hna Hnz. rewrite Forall_forall in Hnz.
  assert (truediv (Object xs) t = Err TypeError) as Hdiv; [|split; [done|]].
  2:{ unfold derive. rewrite Hp, Ht. simpl. by rewrite Hdiv. }
  assert (zip (cells (Object xs)) (cells t) !! i = Some (CStr s, y)) as Hi.
  { apply lookup_zip_Some. split; [|done]. simpl. by rewrite list_lookup_fmap, Hx. }
  assert (∀ xy, xy ∈ zip (cells (Object xs)) (cells t) →
            is_zero_number xy.2 = false) as Hpairs.
  { intros [x' y'] Hin. apply Hnz. simpl. by eapply elem_of_zip_r. }
  unfold truediv. cbn [floats]. unfold obj_binop. cbv zeta.
  rewrite (traverse_raises (λ xy, py_truediv xy.1 xy.2) _ i (CStr s, y) TypeError);
    [|intros a' e' Hin He'; eapply py_truediv_Err; [by apply Hpairs|exact He']
     |exact Hi|done].
  rewrite (traverse_raises (masked py_truediv) _ i (CStr s, y) TypeError);
    [done| |exact Hi|].
  - intros a' e' Hin. unfold masked.
    destruct (isna a'.1 || isna a'.2); [done|].
    apply py_truediv_Err. by apply Hpairs.
  - unfold masked. simpl. by rewrite Hna.
Qed.

(** ** Entries of [stops] outside the three categories *)

Lemma map_dict_ext tbl c c' :
  dict_get tbl <$> cells c = dict_get tbl <$> cells c' →
  map_dict tbl c = map_dict tbl c'.
Proof. unfold map_dict. by intros ->. Qed.

Lemma setitem_setitem d n a b : setitem (setitem d n a) n b = setitem d n b.
Proof.
  destruct (decide (n ∈ columns d)) as [Hin|Hin].
  - unfold setitem at 1.
    rewrite (bool_decide_eq_true_2 (n ∈ columns (setitem d n a)))
      by (by rewrite columns_setitem_old).
    unfold setitem. rewrite bool_decide_eq_true_2 by done. cbn [index data].
    f_equal. rewrite <- list_fmap_compose. apply list_fmap_ext.
    intros _ [k w] _. simpl. destruct (String.eqb_spec k n) as [->|Hk]; simpl.
    + by rewrite String.eqb_refl.
    + by rewrite (proj2 (String.eqb_neq k n)).
  - unfold setitem at 1.
    rewrite (bool_decide_eq_true_2 (n ∈ columns (setitem d n a))).
    2:{ rewrite columns_setitem_new by done. apply elem_of_app. right. by left. }
    unfold setitem. rewrite bool_decide_eq_false_2 by done. cbn [index data].
    f_equal. rewrite fmap_app. csimpl. rewrite String.eqb_refl. f_equal.
    rewrite <- (list_fmap_id (data d)) at 2. apply list_fmap_ext.
    intros i [k w] Hi. simpl. destruct (String.eqb_spec k n) as [->|Hk]; [|done].
    destruct Hin. unfold columns. apply list_elem_of_fmap.
    exists (n, w). split; [done|]. by eapply list_elem_of_lookup_2.
Qed.

Lemma dropped_setitem d n a :
  n ∈ columns d → n ≠ "index"%string →
  dropped (setitem d n a) = setitem (dropped d) n a.
Proof.
  intros Hin Hne. unfold setitem.
  rewrite bool_decide_eq_true_2 by done.
  rewrite bool_decide_eq_true_2.
  2:{ rewrite columns_dropped. apply list_elem_of_filter. split; [|done].
      by rewrite list_elem_of_singleton. }
  unfold dropped. cbn [index data]. f_equal.
  induction (data d) as [|[k w] l IH]; [done|]. csimpl.
  rewrite !filter_cons. simpl.
  destruct (String.eqb_spec k n) as [->|Hk]; simpl.
  - destruct (decide (n ∉ ["index"%string])) as [_|Hn].
    + csimpl. by rewrite String.eqb_refl, IH.
    + destruct Hn. by rewrite list_elem_of_singleton.
  - destruct (decide (k ∉ ["index"%string])) as [_|_]; [|done].
    csimpl. by rewrite (proj2 (String.eqb_neq k n)), IH.
Qed.

(** X15.  The cleaning sees [stops] through the lookup table alone: replacing
    entries that are none of the three categories by other such entries
    changes nothing of the cleaned table, so rows that differ only there are
    duplicates of each other. *)
Theorem unknown_stops_alike d s0 s1 :
  getitem d "stops" = Ok s0 →
  dict_get stops_codes <$> cells s1 = dict_get stops_codes <$> cells s0 →
  clean (setitem d "stops" s1) = clean d.
Proof.
  intros Hs0 Hhits. pose proof (getitem_Ok_elem _ _ _ Hs0) as Hin.
  unfold clean.
  destruct (decide ("index"%string ∈ columns d)) as [Hidx|Hidx].
  - rewrite !drop_present by (done || by rewrite columns_setitem_old).
    simpl. fold (dropped (setitem d "stops" s1)) (dropped d).
    rewrite dropped_setitem, getitem_setitem_eq, getitem_dropped, Hs0 by done.
    simpl. by rewrite setitem_setitem, (map_dict_ext _ _ _ Hhits).
  - by rewrite !drop_missing by (done || by rewrite columns_setitem_old).
Qed.

(** ** Derived names already in the table *)

Lemma columns_setitem d name c :
  columns (setitem d name c)
  = columns d ++ (if decide (name ∈ columns d) then [] else [name]).
Proof.
  destruct (decide (name ∈ columns d)).
  - rewrite columns_setitem_old by done. by rewrite app_nil_r.
  - by rewrite columns_setitem_new.
Qed.

(** X16.  An assignment to a name the table has replaces that column where it
    stands: of [price_per_hour] and [route] only those that the loaded table
    lacks are appended, and a loaded column of either name is overwritten by
    the derived one. *)
Theorem derived_names_overwritten d out' :
  pipeline d = Ok out' →
  let base := filter (λ n, n ≠ "index"%string) (columns d) in
  columns out'
  = base ++ (if decide ("price_per_hour"%string ∈ columns d) then []
             else ["price_per_hour"%string])
         ++ (if decide ("route"%string ∈ columns d) then [] else ["route"%string]) ∧
  ∃ c pph route,
    clean d = Ok c ∧
    (∃ p t, getitem c "price" = Ok p ∧ getitem c "duration" = Ok t ∧
            truediv p t = Ok pph) ∧
    getitem out' "price_per_hour" = Ok pph ∧ getitem out' "route" = Ok route ∧
    (∃ src left dst, getitem c "source_city" = Ok src ∧
                     add_str src to_sep = Ok left ∧
                     getitem c "destination_city" = Ok dst ∧
                     add left dst = Ok route).
Proof.
  intros Hpipe base. unfold pipeline in Hpipe.
  apply bind_Ok in Hpipe as (c & Hclean & Hderive).
  pose proof (columns_clean _ _ Hclean) as Hc.
  assert (columns c = base) as Hbase.
  { rewrite Hc. apply list_filter_iff. intros n. by rewrite list_elem_of_singleton. }
  assert (∀ n, n ≠ "index"%string → n ∈ columns c ↔ n ∈ columns d) as Hmem.
  { intros n Hn. rewrite Hc, list_elem_of_filter, list_elem_of_singleton. tauto. }
  apply derive_Ok in Hderive as (price & duration & pph & src & left & dst & route &
                                 Hp & Ht & Hq & Hs & Hl & Hdst & Hr & ->).
  rewrite !getitem_setitem_ne in Hs, Hdst by done.
  split.
  - rewrite columns_setitem. rewrite columns_setitem at 1.
    rewrite <- Hbase, <- app_assoc. f_equal. f_equal.
    + apply decide_ext. by apply Hmem.
    + apply decide_ext. rewrite elem_setitem, <- Hmem by done.
      split; [by intros [?|?] | by left].
  - exists c, pph, route. split; [done|]. split; [by exists price, duration|].
    rewrite getitem_setitem_ne, !getitem_setitem_eq by done.
    split; [done|]. split; [done|]. by exists src, left, dst.
Qed.

(** ** Tables that pass the cleaning and the features *)

Lemma py_add_Err x y e : py_add x y = Err e → e = TypeError.
Proof. unfold py_add. destruct x, y; try done; by intros [= <-]. Qed.

Lemma traverse_total {A B} (f : A → result B) l :
  Forall (λ a, ∃ b, f a = Ok b) l → ∃ bs, traverse f l = Ok bs.
Proof.
  induction 1 as [|a l [b Hb] _ [bs IH]]; simpl; [eauto|].
  rewrite Hb. simpl. rewrite IH. simpl. eauto.
Qed.

Lemma add_objects xs ys : ∃ zs, add (Object xs) (Object ys) = Ok (Object zs).
Proof.
  unfold add. cbn [floats]. unfold obj_binop. cbv zeta.
  destruct (traverse (λ xy, py_add xy.1 xy.2) _) as [zs|e] eqn:E; [simpl; eauto|].
  apply traverse_Err in E as (a & _ & ->%py_add_Err).
  destruct (traverse_total (masked py_add)
              (zip (cells (Object xs)) (cells (Object ys)))) as [zs Hzs].
  { apply Forall_forall. intros [x y] Hin.
    apply list_elem_of_lookup in Hin as [i Hi].
    apply lookup_zip_Some in Hi as [Hx Hy]. simpl in Hx, Hy.
    rewrite list_lookup_fmap in Hx, Hy.
    destruct (xs !! i) as [[s|]|]; [| |done]; injection Hx as <-;
      (destruct (ys !! i) as [[t|]|]; [| |done]); injection Hy as <-;
      unfold masked; simpl; eauto. }
  rewrite Hzs. simpl. eauto.
Qed.

Lemma getitem_drop_duplicates d n col :
  getitem d n = Ok col →
  ∃ col', getitem (drop_duplicates d) n = Ok col' ∧
          (is_Some (floats col) → is_Some (floats col')) ∧
          (∀ xs, col = Object xs → ∃ xs', col' = Object xs').
Proof.
  intros H. unfold drop_duplicates. destruct (is_empty d).
  - exists col. eauto.
  - rewrite getitem_loc_mask, H. simpl. eexists. split; [done|]. split.
    + destruct col; simpl; eauto.
    + intros xs ->. simpl. eauto.
Qed.

(** X17.  A table with [index] and [stops], numeric [price] and [duration] and
    [object] city columns passes the cleaning and the features: no entry,
    missing, zero or other, makes them raise. *)
Theorem typed_table_passes d p t xs ys :
  "index"%string ∈ columns d → "stops"%string ∈ columns d →
  getitem d "price" = Ok p → is_Some (floats p) →
  getitem d "duration" = Ok t → is_Some (floats t) →
  getitem d "source_city" = Ok (Object xs) →
  getitem d "destination_city" = Ok (Object ys) →
  ∃ out', pipeline d = Ok out'.
Proof.
  intros Hidx Hstops Hp Hfp Ht Hft Hsrc Hdst.
  destruct (getitem_elem_Ok _ _ Hstops) as [s0 Hs0].
  set (d2 := setitem (dropped d) "stops" (map_dict stops_codes s0)).
  assert (clean d = Ok (drop_duplicates d2)) as Hclean
    by (apply clean_Ok; eauto).
  assert (∀ n col, n ≠ "index"%string → n ≠ "stops"%string →
            getitem d n = Ok col → getitem d2 n = Ok col) as Hd2.
  { intros n col ? ? H. unfold d2. by rewrite getitem_setitem_ne, getitem_dropped. }
  destruct (getitem_drop_duplicates d2 "price" p) as (p' & Hp' & Hfp' & _); [by apply Hd2|].
  destruct (getitem_drop_duplicates d2 "duration" t) as (t' & Ht' & Hft' & _);
    [by apply Hd2|].
  destruct (getitem_drop_duplicates d2 "source_city" (Object xs))
    as (src & Hs' & _ & Hos); [by apply Hd2|].
  destruct (getitem_drop_duplicates d2 "destination_city" (Object ys))
    as (dst & Hdst' & _ & Hod); [by apply Hd2|].
  destruct (Hos xs eq_refl) as [xs' ->]. destruct (Hod ys eq_refl) as [ys' ->].
  destruct (Hfp' Hfp) as [fp Hfp2]. destruct (Hft' Hft) as [ft Hft2].
  destruct (add_objects ((λ o : option string, (λ x, x +:+ to_sep) <$> o) <$> xs') ys')
    as [zs Hzs].
  eexists. unfold pipeline. rewrite Hclean. simpl. apply derive_Ok.
  eexists p', t', _, (Object xs'), _, (Object ys'), _.
  rewrite !getitem_setitem_ne by done.
  split; [done|]. split; [done|]. split; [by apply truediv_numeric|].
  split; [done|]. split; [done|]. split; [done|]. split; [exact Hzs|done].
Qed.

(** ** The extra properties on tables *)

(** With days left that are text the histograms are drawn of the other
    three columns, and the run ends at the correlations of line 75 with
    nothing written. *)
Example run_text_days_left :
  (run (table_lib text_days_left) Fixture.flights_disk).1 = Err ValueError ∧
  files (run (table_lib text_days_left) Fixture.flights_disk).2
  = Fixture.flights_disk ∧
  last (out (run (table_lib text_days_left) Fixture.flights_disk).2)
  = Some (Stdout "Generating correlation matrix...").
Proof. vm_compute. done. Qed.

Lemma failed_run_writes_nothing_witness :
  (run Fixture.lib Fixture.disk).1 = Err ValueError ∧
  files (run Fixture.lib Fixture.disk).2 = Fixture.disk.
Proof.
  assert ((run Fixture.lib Fixture.disk).1 = Err ValueError) as H
    by (vm_compute; reflexivity).
  split; [exact H|].
  exact (proj2 (failed_run_writes_nothing Fixture.lib Fixture.disk) _ H).
Defined.

Lemma run_returns_iff_witness :
  (run Fixture.lib Fixture.flights_disk).1 = Ok () ∧
  (∃ text d out',
     Fixture.flights_disk !! input_path = Some text ∧
     parse_csv Fixture.lib text = Ok d ∧
     pipeline d = Ok out' ∧ Forall (λ n, n ∈ columns out') chart_cols ∧
     charts_return Fixture.lib out') ∧
  ∀ pph x,
    getitem (df (run Fixture.lib Fixture.flights_disk).2) "price_per_hour" = Ok pph →
    x ∈ cells pph → is_infinite x = false.
Proof.
  assert ((run Fixture.lib Fixture.flights_disk).1 = Ok ()) as H
    by (vm_compute; reflexivity).
  split; [exact H|]. split.
  - exact (proj1 (proj1 (run_returns_iff Fixture.lib Fixture.flights_disk)) H).
  - exact (proj2 (run_returns_iff Fixture.lib Fixture.flights_disk) H).
Defined.

Lemma unreadable_input_raises_witness :
  ((∅ : gmap string string) !! input_path = None ∧
   FileNotFoundError input_path = FileNotFoundError input_path) ∧
  (run Fixture.lib ∅).1 = Err (FileNotFoundError input_path).
Proof.
  assert ((∅ : gmap string string) !! input_path = None ∧
          FileNotFoundError input_path = FileNotFoundError input_path) as H
    by (split; reflexivity).
  split; [exact H|].
  rewrite (unreadable_input_raises Fixture.lib ∅ _ (or_introl H)). reflexivity.
Defined.

Lemma missing_stops_raises_witness :
  Fixture.disk !! input_path = Some Fixture.listings_csv ∧
  parse_csv (table_lib (without "stops" listings)) Fixture.listings_csv
  = Ok (without "stops" listings) ∧
  "index"%string ∈ columns (without "stops" listings) ∧
  ("stops"%string ∉ columns (without "stops" listings)) ∧
  ∃ o, run (table_lib (without "stops" listings)) Fixture.disk
       = (Err (KeyError ["stops"%string]),
          mkState (dropped (without "stops" listings)) Fixture.disk o).
Proof.
  assert ("index"%string ∈ columns (without "stops" listings)) as H1 by in_list.
  assert ("stops"%string ∉ columns (without "stops" listings)) as H2 by in_list.
  split; [reflexivity|]. split; [reflexivity|]. split; [exact H1|]. split; [exact H2|].
  exact (missing_stops_raises (table_lib (without "stops" listings)) Fixture.disk
           Fixture.listings_csv (without "stops" listings) eq_refl eq_refl H1 H2).
Defined.

Lemma missing_days_left_raises_witness :
  Fixture.disk !! input_path = Some Fixture.listings_csv ∧
  pipeline (without "days_left" listings) = Ok (ran (without "days_left" listings)) ∧
  ("days_left"%string ∉ columns (ran (without "days_left" listings))) ∧
  ∃ o, run (table_lib (without "days_left" listings)) Fixture.disk
       = (Err (KeyError ["days_left"%string]),
          mkState (ran (without "days_left" listings)) Fixture.disk o).
Proof.
  assert ("days_left"%string ∉ columns (ran (without "days_left" listings))) as H
    by in_list.
  split; [reflexivity|]. split; [reflexivity|]. split; [exact H|].
  exact (missing_days_left_raises (table_lib (without "days_left" listings))
           Fixture.disk Fixture.listings_csv (without "days_left" listings)
           (ran (without "days_left" listings)) eq_refl eq_refl eq_refl H).
Defined.

Lemma removed_count_reported_witness :
  wf listings ∧ clean listings = Ok listings_cleaned ∧
  (len listings_cleaned + 1 = len listings)%nat.
Proof.
  split; [exact wf_listings|]. split; [reflexivity|].
  exact (proj2 (removed_count_reported (mkState listings ∅ []) listings_cleaned
                  (Object [Some "two_or_more"; Some "two_or_more"; Some "zero"]%string)
                  wf_listings eq_refl eq_refl)).
Defined.

Lemma other_columns_filtered_witness :
  wf listings ∧ pipeline listings = Ok listings_final ∧
  ∃ keep, length keep = len listings ∧
          index listings_final = select keep (index listings).
Proof.
  split; [exact wf_listings|]. split; [reflexivity|].
  destruct (other_columns_filtered listings listings_final wf_listings eq_refl)
    as (keep & H1 & H2 & _).
  exists keep. split; [exact H1 | exact H2].
Defined.

Lemma first_row_kept_witness :
  wf listings ∧ clean listings = Ok listings_cleaned ∧
  ∃ ls', index listings_cleaned = 0 :: ls' ∧ (0 < len listings_cleaned)%nat.
Proof.
  split; [exact wf_listings|]. split; [reflexivity|].
  exact (first_row_kept listings listings_cleaned 0 [1; 2] wf_listings eq_refl eq_refl).
Defined.

Lemma drop_duplicates_idempotent_witness :
  wf listings ∧
  drop_duplicates (drop_duplicates listings) = drop_duplicates listings.
Proof.
  split; [exact wf_listings|].
  exact (drop_duplicates_idempotent listings wf_listings).
Defined.

Lemma stops_dtype_witness :
  wf odd_stops ∧
  ¬ Forall is_category (cells (Object [Some "three"; Some "three"; Some "zero"]%string)) ∧
  ∃ xs, Float64 [F64.nan; F64.of_int 0] = Float64 xs.
Proof.
  assert (wf odd_stops) as Hwf by (apply (bool_decide_unpack _); vm_compute; exact I).
  assert (¬ Forall is_category
              (cells (Object [Some "three"; Some "three"; Some "zero"]%string))) as Hn.
  { intros H. inversion H as [|?? Hc _]; subst. unfold is_category in Hc.
    rewrite !elem_of_cons in Hc.
    destruct Hc as [?|[?|[?|?%elem_of_nil]]]; done. }
  split; [exact Hwf|]. split; [exact Hn|].
  exact (proj2 (stops_dtype odd_stops (cleaned odd_stops)
                  (Object [Some "three"; Some "three"; Some "zero"]%string)
                  (Float64 [F64.nan; F64.of_int 0]) Hwf eq_refl eq_refl eq_refl) Hn).
Defined.

Lemma final_shape_witness :
  wf listings ∧ pipeline listings = Ok listings_final ∧
  ("price_per_hour"%string ∉ columns listings) ∧ ("route"%string ∉ columns listings) ∧
  (len listings_final ≤ len listings)%nat ∧
  length (columns listings_final) = (length (columns listings) + 1)%nat.
Proof.
  assert ("price_per_hour"%string ∉ columns listings) as H1 by in_list.
  assert ("route"%string ∉ columns listings) as H2 by in_list.
  split; [exact wf_listings|]. split; [reflexivity|].
  split; [exact H1|]. split; [exact H2|].
  exact (final_shape listings listings_final wf_listings eq_refl H1 H2).
Defined.

Lemma getitems_selects_witness :
  Forall (λ n, n ∈ columns listings_final) numeric_cols ∧
  ∃ sub, getitems listings_final numeric_cols = Ok sub ∧
         columns sub = numeric_cols ∧ index sub = index listings_final ∧
         ∀ n, n ∈ numeric_cols → getitem sub n = getitem listings_final n.
Proof.
  assert (Forall (λ n, n ∈ columns listings_final) numeric_cols) as H by in_list.
  split; [exact H|].
  exact (proj1 (getitems_selects listings_final numeric_cols) H).
Defined.

Lemma header_only_input_witness :
  Fixture.disk !! input_path = Some Fixture.listings_csv ∧
  parse_csv (table_lib header_only) Fixture.listings_csv = Ok header_only ∧
  len header_only = 0%nat ∧
  "index"%string ∈ columns header_only ∧ "stops"%string ∈ columns header_only ∧
  ∃ out' o,
    pipeline header_only = Ok out' ∧ len out' = 0%nat ∧
    Forall (λ n, getitem out' n = Ok (Object [])) numeric_cols ∧
    run (table_lib header_only) Fixture.disk
    = (Err ValueError, mkState out' Fixture.disk o).
Proof.
  assert ("index"%string ∈ columns header_only) as H1 by in_list.
  assert ("stops"%string ∈ columns header_only) as H2 by in_list.
  assert (Forall (λ n, getitem header_only n = Ok (Object []))
            ["price"; "duration"; "days_left"; "source_city";
             "destination_city"]%string) as H3
    by (repeat constructor).
  split; [reflexivity|]. split; [reflexivity|]. split; [reflexivity|].
  split; [exact H1|]. split; [exact H2|].
  exact (header_only_input (table_lib header_only) Fixture.disk Fixture.listings_csv
           header_only eq_refl eq_refl eq_refl H1 H2 H3).
Defined.

Lemma text_price_raises_witness :
  getitem text_price "price" = Ok (Object [Some "n/a"%string]) ∧
  isna (CFloat (F64.of_int 2)) = false ∧
  Forall (λ y, is_zero_number y = false) (cells (Float64 [F64.of_int 2])) ∧
  truediv (Object [Some "n/a"%string]) (Float64 [F64.of_int 2]) = Err TypeError ∧
  derive text_price = Err TypeError.
Proof.
  assert (Forall (λ y, is_zero_number y = false) (cells (Float64 [F64.of_int 2])))
    as H by (repeat constructor).
  split; [reflexivity|]. split; [reflexivity|]. split; [exact H|].
  exact (text_price_raises text_price [Some "n/a"%string] (Float64 [F64.of_int 2])
           0%nat "n/a" (CFloat (F64.of_int 2)) eq_refl eq_refl eq_refl eq_refl eq_refl H).
Defined.

Lemma unknown_stops_alike_witness :
  getitem odd_stops "stops"
    = Ok (Object [Some "three"; Some "three"; Some "zero"]%string) ∧
  clean (setitem odd_stops "stops" (Object [Some "many"; None; Some "zero"]%string))
  = clean odd_stops.
Proof.
  split; [reflexivity|].
  exact (unknown_stops_alike odd_stops
           (Object [Some "three"; Some "three"; Some "zero"]%string)
           (Object [Some "many"; None; Some "zero"]%string) eq_refl eq_refl).
Defined.

Lemma derived_names_overwritten_witness :
  pipeline (setitem listings "route" (Int64 [1; 2; 3]))
  = Ok (ran (setitem listings "route" (Int64 [1; 2; 3]))) ∧
  columns (ran (setitem listings "route" (Int64 [1; 2; 3])))
  = filter (λ n, n ≠ "index"%string)
      (columns (setitem listings "route" (Int64 [1; 2; 3])))
    ++ ["price_per_hour"%string].
Proof.
  split; [reflexivity|].
  rewrite (proj1 (derived_names_overwritten (setitem listings "route" (Int64 [1; 2; 3]))
                    (ran (setitem listings "route" (Int64 [1; 2; 3]))) eq_refl)).
  vm_compute. reflexivity.
Defined.

Lemma typed_table_passes_witness :
  "index"%string ∈ columns listings ∧ "stops"%string ∈ columns listings ∧
  is_Some (floats (Int64 [5953; 5953; 5955])) ∧
  is_Some (floats (Float64 [F64.zero; F64.zero; F64.of_int 2])) ∧
  ∃ out', pipeline listings = Ok out'.
Proof.
  assert ("index"%string ∈ columns listings) as H1 by in_list.
  assert ("stops"%string ∈ columns listings) as H2 by in_list.
  assert (is_Some (floats (Int64 [5953; 5953; 5955]))) as H3 by (simpl; eauto).
  assert (is_Some (floats (Float64 [F64.zero; F64.zero; F64.of_int 2]))) as H4
    by (simpl; eauto).
  split; [exact H1|]. split; [exact H2|]. split; [exact H3|]. split; [exact H4|].
  exact (typed_table_passes listings (Int64 [5953; 5953; 5955])
           (Float64 [F64.zero; F64.zero; F64.of_int 2])
           [Some "Delhi"; Some "Delhi"; Some "Delhi"]%string
           [Some "Mumbai"; Some "Mumbai"; Some "Mumbai"]%string
           H1 H2 eq_refl H3 eq_refl H4 eq_refl eq_refl).
Defined.
